(** * ARMv4T interpreter of the GBA emulator: model and properties

    Shallow embedding of [src/bits.h], [src/memory.h] and [src/cpu.h].

    Conventions of the model.
    - A [uint32_t] is a [Z] in [0, 2^32); every C operation that can leave
      that range is followed by its wrap-around ([u32]).  A [uint8_t] local
      is a [Z] in [0, 256).
    - C leaves a shift by a count outside [0, 31] undefined.  The program is
      built for x86 Windows ([src/main.c] includes [windows.h]), where the
      32-bit shift instructions use the count modulo 32; [shl32] and [shr32]
      do the same.  Signed arithmetic wraps in two's complement, so an
      [int32_t] is carried as its 32-bit pattern.  A plain [char] is signed.
    - [cpu_registers_t] is eighteen adjacent 32-bit words: [r[0..12]], [sp],
      [lr], [pc], [cpsr], [spsr].  The source reaches [sp], [lr] and [pc] as
      [r[13]], [r[14]], [r[15]]; [reg] and [set_reg] give that flat view.
      An index past the eighteenth word leaves the structure: the access has
      no defined result and the model returns [None].  The only accesses
      that can do so are the reads [r[shift_value]] of the two operand
      decoders, whose index is a byte taken from a register; the [_with]
      variants of the ARM executor take the reader of that access as a
      parameter, and [reg_beyond] answers it with the words that lie behind
      the structure.
    - [cpu->memory] is a buffer of [sizeof(memory_t)] bytes indexed by the raw
      32-bit address.  An access outside the buffer returns [None].
    - [printf] and [fflush] calls are not modelled.
    - The block-transfer loop carries, next to the machine and the running
      address, the list of (register, address) pairs it has transferred; the
      list is read by the proofs only and never by the model. *)

From stdpp Require Import base option list numbers sorting.
Local Open Scope Z_scope.

(** ** Machine integers *)

Definition u32 (x : Z) : Z := x mod 4294967296.
Definition u16 (x : Z) : Z := x mod 65536.
Definition u8 (x : Z) : Z := x mod 256.

Definition add32 (a b : Z) : Z := u32 (a + b).
Definition sub32 (a b : Z) : Z := u32 (a - b).
Definition neg32 (a : Z) : Z := u32 (- a).
Definition mul32 (a b : Z) : Z := u32 (a * b).
Definition not32 (a : Z) : Z := Z.lxor a 0xFFFFFFFF.

(** [x << n] and [x >> n] on [uint32_t], the count taken modulo 32. *)
Definition shl32 (x n : Z) : Z := u32 (Z.shiftl x (n mod 32)).
Definition shr32 (x n : Z) : Z := Z.shiftr x (n mod 32).

(** C truth values: [!e], and the comparisons as [0] or [1]. *)
Definition lnot (x : Z) : Z := if x =? 0 then 1 else 0.
Definition c_eq (a b : Z) : Z := Z.b2z (a =? b).
Definition c_ne (a b : Z) : Z := Z.b2z (negb (a =? b)).
Definition c_lt (a b : Z) : Z := Z.b2z (a <? b).
Definition c_ge (a b : Z) : Z := Z.b2z (a >=? b).
Definition truthy (x : Z) : bool := negb (x =? 0).

(** ** [bits.h] *)

Definition rotl32 (n c : Z) : Z :=
  let mask := 31 in
  let c := Z.land c mask in
  Z.lor (shl32 n c) (shr32 n (Z.land (neg32 c) mask)).

Definition rotr32 (n c : Z) : Z :=
  let mask := 31 in
  let c := Z.land c mask in
  Z.lor (shr32 n c) (shl32 n (Z.land (neg32 c) mask)).

(** [sign_extend(x, b)]; [x] and the result are [int32_t] bit patterns, [b]
    is [unsigned]. *)
Definition sign_extend (x b : Z) : Z :=
  let m := shl32 1 (sub32 b 1) in
  let x := Z.land x (sub32 (shl32 1 b) 1) in
  sub32 (Z.lxor x m) m.

(** ** [memory.h]: the size of [memory_t] *)

Definition memory_t_layout : list Z :=
  [16384; 262144; 32768; 1022; 1024; 98304; 1024;
   33554432; 33554432; 33554432; 65536].

Definition sizeof_memory_t : Z := foldr Z.add 0 memory_t_layout.

(** ** [cpu.h]: registers and status bits *)

Record cpu_registers := mk_registers {
  r : list Z;
  sp : Z;
  lr : Z;
  pc : Z;
  cpsr : Z;
  spsr : Z
}.

Record cpu := mk_cpu {
  registers : cpu_registers;
  memory : Z -> Z
}.

Definition ARM_MODE_USER : Z := 0x10.
Definition ARM_MODE_FIQ : Z := 0x11.
Definition ARM_MODE_IRQ : Z := 0x12.
Definition ARM_MODE_SUPERVISOR : Z := 0x13.
Definition ARM_MODE_ABORT : Z := 0x17.
Definition ARM_MODE_UNDEFINED : Z := 0x1B.
Definition ARM_MODE_SYSTEM : Z := 0x1F.

Definition with_r (rs : cpu_registers) (l : list Z) : cpu_registers :=
  mk_registers l (sp rs) (lr rs) (pc rs) (cpsr rs) (spsr rs).
Definition with_sp (rs : cpu_registers) (v : Z) : cpu_registers :=
  mk_registers (r rs) v (lr rs) (pc rs) (cpsr rs) (spsr rs).
Definition with_lr (rs : cpu_registers) (v : Z) : cpu_registers :=
  mk_registers (r rs) (sp rs) v (pc rs) (cpsr rs) (spsr rs).
Definition with_pc (rs : cpu_registers) (v : Z) : cpu_registers :=
  mk_registers (r rs) (sp rs) (lr rs) v (cpsr rs) (spsr rs).
Definition with_cpsr (rs : cpu_registers) (v : Z) : cpu_registers :=
  mk_registers (r rs) (sp rs) (lr rs) (pc rs) v (spsr rs).
Definition with_spsr (rs : cpu_registers) (v : Z) : cpu_registers :=
  mk_registers (r rs) (sp rs) (lr rs) (pc rs) (cpsr rs) v.

Definition get_cpsr_mode (cpsr : Z) : Z := Z.land cpsr 0x1F.

Definition set_cpsr_mode (rs : cpu_registers) (value : Z) : cpu_registers :=
  with_cpsr rs (Z.lor (Z.land (cpsr rs) (not32 0x1F)) (Z.land value 0x1F)).

Definition get_cpsr_negative (cpsr : Z) : Z := Z.land (shr32 cpsr 31) 0x1.

Definition set_cpsr_negative (rs : cpu_registers) (value : Z) : cpu_registers :=
  with_cpsr rs
    (Z.lor (Z.land (cpsr rs) (not32 0x80000000)) (shl32 (Z.land value 0x1) 31)).

Definition get_cpsr_zero (cpsr : Z) : Z := Z.land (shr32 cpsr 30) 0x1.

Definition set_cpsr_zero (rs : cpu_registers) (value : Z) : cpu_registers :=
  with_cpsr rs
    (Z.lor (Z.land (cpsr rs) (not32 0x40000000)) (shl32 (Z.land value 0x1) 30)).

Definition get_cpsr_carry (cpsr : Z) : Z := Z.land (shr32 cpsr 29) 0x1.

Definition set_cpsr_carry (rs : cpu_registers) (value : Z) : cpu_registers :=
  with_cpsr rs
    (Z.lor (Z.land (cpsr rs) (not32 0x20000000)) (shl32 (Z.land value 0x1) 29)).

Definition get_cpsr_overflow (cpsr : Z) : Z := Z.land (shr32 cpsr 28) 0x1.

Definition set_cpsr_overflow (rs : cpu_registers) (value : Z) : cpu_registers :=
  with_cpsr rs
    (Z.lor (Z.land (cpsr rs) (not32 0x10000000)) (shl32 (Z.land value 0x1) 28)).

(** The flat view [cpu->registers.r[i]]. *)
Definition reg_word (rs : cpu_registers) (i : Z) : option Z :=
  if (0 <=? i) && (i <? 13) then r rs !! Z.to_nat i
  else match i with
       | 13 => Some (sp rs)
       | 14 => Some (lr rs)
       | 15 => Some (pc rs)
       | 16 => Some (cpsr rs)
       | 17 => Some (spsr rs)
       | _ => None
       end.

Definition set_reg_word (rs : cpu_registers) (i v : Z) : option cpu_registers :=
  if (0 <=? i) && (i <? 13) then
    if decide (Z.to_nat i < length (r rs))%nat
    then Some (with_r rs (<[Z.to_nat i := v]> (r rs)))
    else None
  else match i with
       | 13 => Some (with_sp rs v)
       | 14 => Some (with_lr rs v)
       | 15 => Some (with_pc rs v)
       | 16 => Some (with_cpsr rs v)
       | 17 => Some (with_spsr rs v)
       | _ => None
       end.

Definition with_registers (c : cpu) (rs : cpu_registers) : cpu :=
  mk_cpu rs (memory c).
Definition with_memory (c : cpu) (m : Z -> Z) : cpu :=
  mk_cpu (registers c) m.

Definition reg (c : cpu) (i : Z) : option Z := reg_word (registers c) i.
Definition set_reg (c : cpu) (i v : Z) : option cpu :=
  rs ← set_reg_word (registers c) i v; Some (with_registers c rs).

(** Updates of the status word and of [pc], [lr], [sp] through [cpu]. *)
Definition upd (c : cpu) (f : cpu_registers -> cpu_registers) : cpu :=
  with_registers c (f (registers c)).

(** ** Memory accesses through [cpu->memory] *)

Definition in_bounds (address n : Z) : bool :=
  (0 <=? address) && (address + n <=? sizeof_memory_t).

Definition byte_at (m : Z -> Z) (a : Z) : Z := u8 (m a).

(** [cpu->memory[address]] read as a (signed) [char], converted to 32 bits. *)
Definition load_char (c : cpu) (address : Z) : option Z :=
  if in_bounds address 1 then
    let b := byte_at (memory c) address in
    Some (u32 (if b <? 128 then b else b - 256))
  else None.

(** [*(int16_t* )&cpu->memory[address]], converted to 32 bits. *)
Definition load_i16 (c : cpu) (address : Z) : option Z :=
  if in_bounds address 2 then
    let h := Z.lor (byte_at (memory c) address)
                   (Z.shiftl (byte_at (memory c) (address + 1)) 8) in
    Some (u32 (if h <? 32768 then h else h - 65536))
  else None.

(** [*(uint16_t* )&cpu->memory[address]]. *)
Definition load_u16 (c : cpu) (address : Z) : option Z :=
  if in_bounds address 2 then
    Some (Z.lor (byte_at (memory c) address)
                (Z.shiftl (byte_at (memory c) (address + 1)) 8))
  else None.

(** [*(uint32_t* )&cpu->memory[address]]: four bytes, little-endian, at any
    alignment. *)
Definition load_u32 (c : cpu) (address : Z) : option Z :=
  if in_bounds address 4 then
    Some (Z.lor (Z.lor (byte_at (memory c) address)
                       (Z.shiftl (byte_at (memory c) (address + 1)) 8))
                (Z.lor (Z.shiftl (byte_at (memory c) (address + 2)) 16)
                       (Z.shiftl (byte_at (memory c) (address + 3)) 24)))
  else None.

Definition poke (m : Z -> Z) (a v : Z) : Z -> Z :=
  fun a' => if a' =? a then u8 v else m a'.

Definition store_char (c : cpu) (address v : Z) : option cpu :=
  if in_bounds address 1 then Some (with_memory c (poke (memory c) address v))
  else None.

Definition store_u16 (c : cpu) (address v : Z) : option cpu :=
  if in_bounds address 2 then
    Some (with_memory c
            (poke (poke (memory c) address v) (address + 1) (Z.shiftr v 8)))
  else None.

Definition store_u32 (c : cpu) (address v : Z) : option cpu :=
  if in_bounds address 4 then
    Some (with_memory c
            (poke (poke (poke (poke (memory c) address v)
                              (address + 1) (Z.shiftr v 8))
                        (address + 2) (Z.shiftr v 16))
                  (address + 3) (Z.shiftr v 24)))
  else None.

(** ** [cpu_check_condition] *)

Definition cpu_check_condition (cpsr instruction : Z) : Z :=
  let cond := Z.land (shr32 instruction 28) 0xF in
  match cond with
  | 0x0 => get_cpsr_zero cpsr
  | 0x1 => lnot (get_cpsr_zero cpsr)
  | 0x2 => get_cpsr_carry cpsr
  | 0x3 => lnot (get_cpsr_carry cpsr)
  | 0x4 => get_cpsr_negative cpsr
  | 0x5 => lnot (get_cpsr_negative cpsr)
  | 0x6 => get_cpsr_overflow cpsr
  | 0x7 => lnot (get_cpsr_overflow cpsr)
  | 0x8 => Z.b2z (truthy (get_cpsr_carry cpsr) && truthy (lnot (get_cpsr_zero cpsr)))
  | 0x9 => Z.b2z (truthy (lnot (get_cpsr_carry cpsr)) || truthy (get_cpsr_zero cpsr))
  | 0xA => c_eq (get_cpsr_negative cpsr) (get_cpsr_overflow cpsr)
  | 0xB => c_ne (get_cpsr_negative cpsr) (get_cpsr_overflow cpsr)
  | 0xC => Z.b2z (truthy (lnot (get_cpsr_zero cpsr))
                  && truthy (c_eq (get_cpsr_negative cpsr) (get_cpsr_overflow cpsr)))
  | 0xD => Z.b2z (truthy (get_cpsr_zero cpsr)
                  || truthy (c_ne (get_cpsr_negative cpsr) (get_cpsr_overflow cpsr)))
  | 0xE => 1
  | 0xF => 0
  | _ => 0
  end.

(** ** [cpu_process_arm_instruction]

    The function body is split along its blocks; each definition names the
    source lines it embeds. *)

(** A counted [for] loop whose body may fail. *)
Fixpoint for_each {A : Type} (body : A -> Z -> option A) (idx : list Z) (a : A)
  : option A :=
  match idx with
  | [] => Some a
  | i :: idx => a' ← body a i; for_each body idx a'
  end.

(** Branch and Exchange (lines 202-221). *)
Definition arm_bx (c : cpu) (instruction : Z) : option (cpu * Z) :=
  let rn := Z.land (shr32 instruction 0) 0xF in
  v ← reg c rn;
  if truthy (Z.land v 0x1) then
    let c := upd c (λ rs, with_pc rs (Z.land v 0xFFFFFFFE)) in
    let c := upd c (λ rs, with_pc rs (sub32 (pc rs) 2)) in
    let c := upd c (λ rs, with_cpsr rs (Z.land (cpsr rs) (not32 0x20))) in
    Some (c, 1)
  else
    let c := upd c (λ rs, with_pc rs (Z.land v 0xFFFFFFFC)) in
    let c := upd c (λ rs, with_pc rs (sub32 (pc rs) 4)) in
    let c := upd c (λ rs, with_cpsr rs (Z.lor (cpsr rs) 0x20)) in
    Some (c, 1).

(** The shift amount of a register operand (lines 241-248, 549-558). *)
Definition arm_shift_amount (c : cpu) (instruction : Z) : option Z :=
  if truthy (Z.land (shr32 instruction 4) 0x1) then
    let rs := Z.land (shr32 instruction 8) 0xF in
    w ← reg c rs; Some (Z.land w 0xFF)
  else Some (Z.land (shr32 instruction 7) 0x1F).

(** Register operand of a data-processing instruction (lines 235-323): the
    second operand and the state after the carry update.  [shift_value] is the
    low byte of the operand register's content, and is then used as a register
    index. *)
Definition dp_register_operand (c : cpu) (instruction s rd : Z)
  : option (Z * cpu) :=
  w ← reg c (Z.land instruction 0xF);
  let shift_value := u8 w in
  let shift_type := Z.land (shr32 instruction 5) 0x3 in
  shift_amount ← arm_shift_amount c instruction;
  let carry (v : Z) : cpu :=
    if truthy s && negb (rd =? 15)
    then upd c (λ rs, set_cpsr_carry rs v) else c in
  match shift_type with
  | 0x0 =>
      if shift_amount >? 32 then Some (0, carry 0)
      else
        v ← reg c shift_value;
        Some (shl32 v shift_amount,
              carry (Z.land (shr32 v (32 - shift_amount)) 0x1))
  | 0x1 =>
      if shift_amount >? 32 then Some (0, carry 0)
      else
        v ← reg c shift_value;
        Some (shr32 v shift_amount,
              carry (Z.land (shr32 v (shift_amount - 1)) 0x1))
  | 0x2 =>
      if shift_amount >=? 32 then
        v ← reg c shift_value;
        Some (sign_extend (shr32 v 31) (u32 (32 - shift_amount)),
              carry (Z.land (shr32 v 31) 0x1))
      else
        v ← reg c shift_value;
        Some (sign_extend (shr32 v shift_amount) (u32 (32 - shift_amount)),
              carry (Z.land (shr32 v (shift_amount - 1)) 0x1))
  | _ =>
      if shift_amount =? 0 then
        v ← reg c shift_value;
        Some (Z.lor (shr32 v 1) (shl32 (get_cpsr_carry (cpsr (registers c))) 31),
              carry (Z.land v 0x1))
      else
        v ← reg c shift_value;
        Some (rotl32 v shift_amount,
              carry (Z.land (shr32 v (shift_amount - 1)) 0x1))
  end.

(** Immediate operand (lines 325-331). *)
Definition dp_immediate_operand (instruction : Z) : Z :=
  let rotate := Z.land (shr32 instruction 8) 0xF in
  let imm := Z.land instruction 0xFF in
  rotr32 imm (rotate * 2).

(** [set_cpsr_zero(.., r[rd] == 0); set_cpsr_negative(.., r[rd] < 0)]: the
    comparison with [0] is on a [uint32_t]. *)
Definition flags_zn_of_rd (c : cpu) (rd : Z) : option cpu :=
  d ← reg c rd;
  let c := upd c (λ rs, set_cpsr_zero rs (c_eq d 0)) in
  d ← reg c rd;
  Some (upd c (λ rs, set_cpsr_negative rs (c_lt d 0))).

Definition flags_zn_of (c : cpu) (result : Z) : cpu :=
  let c := upd c (λ rs, set_cpsr_zero rs (c_eq result 0)) in
  upd c (λ rs, set_cpsr_negative rs (c_lt result 0)).

(** [set_cpsr_carry(.., x >= y)] with both sides read when the call is made. *)
Definition flag_c_ge (c : cpu) (x y : cpu -> option Z) : option cpu :=
  a ← x c; b ← y c;
  Some (upd c (λ rs, set_cpsr_carry rs (c_ge a b))).

(** [set_cpsr_overflow(.., (x ^ y) & (x ^ z) & 0x80000000)]. *)
Definition flag_v_of (c : cpu) (x y z : cpu -> option Z) : option cpu :=
  a ← x c; b ← y c; d ← z c;
  Some (upd c (λ rs, set_cpsr_overflow rs
                       (Z.land (Z.land (Z.lxor a b) (Z.lxor a d)) 0x80000000))).

(** An arithmetic opcode: write [r[rd]], then Z, N, C and V in that order
    (e.g. lines 357-361); [x] and [y] are the operands in the order the
    opcode uses them in its carry and overflow expressions. *)
Definition dp_arith (c : cpu) (rd result : Z) (x y : cpu -> option Z)
  : option cpu :=
  c ← set_reg c rd result;
  c ← flags_zn_of_rd c rd;
  c ← flag_c_ge c x y;
  flag_v_of c x y (λ c, reg c rd).

(** A logical opcode: write [r[rd]], then Z and N (e.g. lines 339-341). *)
Definition dp_logical (c : cpu) (rd result : Z) : option cpu :=
  c ← set_reg c rd result;
  flags_zn_of_rd c rd.

(** MSR (lines 435-455). *)
Definition arm_msr (c : cpu) (instruction : Z) : option cpu :=
  let pd := Z.land (shr32 instruction 22) 0x1 in
  let rm := Z.land instruction 0xF in
  if pd =? 0 then
    if get_cpsr_mode (cpsr (registers c)) =? ARM_MODE_USER then
      v ← reg c rm;
      Some (upd c (λ rs, with_cpsr rs
                           (Z.lor (Z.land (cpsr rs) (not32 0xF0000000))
                                  (Z.land v 0xF0000000))))
    else
      v ← reg c rm; Some (upd c (λ rs, with_cpsr rs v))
  else
    v ← reg c rm; Some (upd c (λ rs, with_spsr rs v)).

(** The opcode switch (lines 335-525). *)
Definition dp_execute (c : cpu) (instruction opcode s rn rd src2 : Z)
  : option (cpu * Z) :=
  let Rn := λ c, reg c rn in
  let Src2 := λ _ : cpu, Some src2 in
  let carry_in := get_cpsr_carry (cpsr (registers c)) in
  c ← match opcode with
      | 0 => a ← reg c rn; dp_logical c rd (Z.land a src2)
      | 1 => a ← reg c rn; dp_logical c rd (Z.lxor a src2)
      | 2 => a ← reg c rn; dp_arith c rd (sub32 a src2) Rn Src2
      | 3 => a ← reg c rn; dp_arith c rd (sub32 src2 a) Src2 Rn
      | 4 => a ← reg c rn; dp_arith c rd (add32 a src2) Rn Src2
      | 5 => a ← reg c rn;
             dp_arith c rd (add32 (add32 a src2) carry_in) Rn Src2
      | 6 => a ← reg c rn;
             dp_arith c rd (sub32 (sub32 a src2) (lnot carry_in)) Rn Src2
      | 7 => a ← reg c rn;
             dp_arith c rd (sub32 (sub32 src2 a) (lnot carry_in)) Src2 Rn
      | 8 => a ← reg c rn; Some (flags_zn_of c (Z.land a src2))
      | 9 =>
          if negb (truthy s) then arm_msr c instruction
          else a ← reg c rn; Some (flags_zn_of c (Z.lxor a src2))
      | 10 =>
          a ← reg c rn;
          let cmp_result := sub32 a src2 in
          let c := flags_zn_of c cmp_result in
          c ← flag_c_ge c Rn Src2;
          flag_v_of c Rn Src2 (λ _, Some cmp_result)
      | 11 =>
          a ← reg c rn;
          let cmn_result := add32 a src2 in
          let c := flags_zn_of c cmn_result in
          c ← flag_c_ge c Rn Src2;
          flag_v_of c Rn Src2 (λ _, Some cmn_result)
      | 12 => a ← reg c rn; dp_logical c rd (Z.lor a src2)
      | 13 => dp_logical c rd src2
      | 14 => a ← reg c rn; dp_logical c rd (Z.land a (not32 src2))
      | 15 => dp_logical c rd (not32 src2)
      | _ => None
      end;
  Some (c, 1).

(** Data processing and PSR transfer (lines 224-526). *)
Definition arm_data_processing (c : cpu) (instruction i : Z) : option (cpu * Z) :=
  let opcode := Z.land (shr32 instruction 21) 0xF in
  let s := Z.land (shr32 instruction 20) 0x1 in
  let rn := Z.land (shr32 instruction 16) 0xF in
  let rd := Z.land (shr32 instruction 12) 0xF in
  '(src2, c) ← (if i =? 0 then dp_register_operand c instruction s rd
                else Some (dp_immediate_operand instruction, c));
  dp_execute c instruction opcode s rn rd src2.

(** Register offset of a single data transfer (lines 543-632): the shifter of
    the data-processing block repeated, without the carry update. *)
Definition sdt_register_offset (c : cpu) (instruction : Z) : option Z :=
  w ← reg c (Z.land instruction 0xF);
  let shift_value := u8 w in
  let shift_type := Z.land (shr32 instruction 5) 0x3 in
  shift_amount ← arm_shift_amount c instruction;
  match shift_type with
  | 0x0 =>
      if shift_amount >? 32 then Some 0
      else v ← reg c shift_value; Some (shl32 v shift_amount)
  | 0x1 =>
      if shift_amount >? 32 then Some 0
      else v ← reg c shift_value; Some (shr32 v shift_amount)
  | 0x2 =>
      if shift_amount >=? 32 then
        v ← reg c shift_value;
        Some (sign_extend (shr32 v 31) (u32 (32 - shift_amount)))
      else
        v ← reg c shift_value;
        Some (sign_extend (shr32 v shift_amount) (u32 (32 - shift_amount)))
  | _ =>
      if shift_amount =? 0 then
        v ← reg c shift_value;
        Some (Z.lor (shr32 v 1) (shl32 (get_cpsr_carry (cpsr (registers c))) 31))
      else
        v ← reg c shift_value; Some (rotl32 v shift_amount)
  end.

(** [address += offset] or [address -= offset], by the U bit. *)
Definition step_address (u address offset : Z) : Z :=
  if u =? 1 then add32 address offset else sub32 address offset.

(** Single data transfer (lines 529-704). *)
Definition arm_single_data_transfer (c : cpu) (instruction i : Z)
  : option (cpu * Z) :=
  let p := Z.land (shr32 instruction 24) 0x1 in
  let u := Z.land (shr32 instruction 23) 0x1 in
  let b := Z.land (shr32 instruction 22) 0x1 in
  let w := Z.land (shr32 instruction 21) 0x1 in
  let l := Z.land (shr32 instruction 20) 0x1 in
  let rn := Z.land (shr32 instruction 16) 0xF in
  let rd := Z.land (shr32 instruction 12) 0xF in
  offset ← (if i =? 1 then sdt_register_offset c instruction
            else Some (Z.land instruction 0xFFF));
  address ← reg c rn;
  let address :=
    if rn =? 15 then (if l =? 0 then add32 address 12 else add32 address 8)
    else address in
  let address := if p =? 1 then step_address u address offset else address in
  c ← (if l =? 1 then
         if b =? 1 then v ← load_char c address; set_reg c rd v
         else v ← load_u32 c address; set_reg c rd v
       else
         if b =? 1 then v ← reg c rd; store_char c address v
         else v ← reg c rd; store_u32 c address v);
  let address := if p =? 0 then step_address u address offset else address in
  c ← (if (w =? 1) || (p =? 0) then set_reg c rn address else Some c);
  Some (c, 1).

(** Branch and Branch with Link (lines 707-725). *)
Definition arm_branch (c : cpu) (instruction : Z) : option (cpu * Z) :=
  let l := Z.land (shr32 instruction 24) 0x1 in
  let offset := Z.land instruction 0xFFFFFF in
  let c := if l =? 1 then upd c (λ rs, with_lr rs (add32 (pc rs) 4)) else c in
  let offset := shl32 offset 2 in
  let signed_offset := sign_extend offset 26 in
  Some (upd c (λ rs, with_pc rs (add32 (pc rs) (add32 signed_offset 4))), 1).

(** One turn of the block-transfer loop (lines 741-778).  The loop state is
    the machine, the running [address] and, for the proofs only, the list of
    [(i, address)] pairs at which register [i] was loaded or stored so far. *)
Definition bdt_state : Type := cpu * Z * list (Z * Z).

Definition bdt_turn (p u s l register_list : Z) (st : bdt_state) (i : Z)
  : option bdt_state :=
  let '(c, address, done) := st in
  if truthy (Z.land (shr32 register_list i) 0x1) then
    let address := if p =? 1 then step_address u address 4 else address in
    c ← (if l =? 1 then
           v ← load_u32 c address;
           c ← set_reg c i v;
           Some (if (i =? 15) && (s =? 1)
                 then upd c (λ rs, with_cpsr rs (spsr rs)) else c)
         else
           v ← reg c i; store_u32 c address v);
    let used := address in
    let address := if p =? 0 then step_address u address 4 else address in
    Some (c, address, done ++ [(i, used)])
  else Some st.

Definition bdt_loop (p u s l register_list : Z) (c : cpu) (address : Z)
  : option bdt_state :=
  for_each (bdt_turn p u s l register_list) (seqZ 0 16) (c, address, []).

(** Block data transfer (lines 727-788). *)
Definition arm_block_data_transfer (c : cpu) (instruction : Z)
  : option (cpu * Z) :=
  let p := Z.land (shr32 instruction 24) 0x1 in
  let u := Z.land (shr32 instruction 23) 0x1 in
  let s := Z.land (shr32 instruction 22) 0x1 in
  let w := Z.land (shr32 instruction 21) 0x1 in
  let l := Z.land (shr32 instruction 20) 0x1 in
  let rn := Z.land (shr32 instruction 16) 0xF in
  let register_list := Z.land instruction 0xFFFF in
  address ← reg c rn;
  '(c, address, _) ← bdt_loop p u s l register_list c address;
  c ← (if (w =? 1) || (p =? 0) then set_reg c rn address else Some c);
  Some (c, 1).

(** The function itself: condition check (lines 189-192), then the type
    switch (lines 196-798).  The second component is the returned [int]. *)
Definition cpu_process_arm_instruction (c : cpu) (instruction : Z)
  : option (cpu * Z) :=
  if negb (truthy (cpu_check_condition (cpsr (registers c)) instruction))
  then Some (c, 1)
  else
    let instruction_type := Z.land (shr32 instruction 26) 0x3 in
    let i := Z.land (shr32 instruction 25) 0x1 in
    match instruction_type with
    | 0x0 =>
        if Z.land instruction 0xFFFFFF0 =? 0x12FFF10 then arm_bx c instruction
        else if (i =? 1) || (Z.land (shr32 instruction 7) 0x1 =? 0)
        then arm_data_processing c instruction i
        else Some (c, 1)
    | 0x1 => arm_single_data_transfer c instruction i
    | 0x2 =>
        if i =? 1 then arm_branch c instruction
        else arm_block_data_transfer c instruction
    | _ => Some (c, 0)
    end.

(** ** Reads past the register structure

    [shift_value] is a [uint8_t] filled from a register (lines 236 and 544),
    so [cpu->registers.r[shift_value]] can name any of 256 words, of which
    the register structure holds the first eighteen.  The definitions above
    give a read past the structure no result.  Below is the same code with
    that one access made through a parameter [read]; with [reg] for [read]
    it is the code above, and with [reg_beyond beyond] a read past the
    structure finds the word [beyond i] that the host has there. *)

Definition reg_beyond (beyond : Z -> Z) (c : cpu) (i : Z) : option Z :=
  if 18 <=? i then Some (u32 (beyond i)) else reg c i.

(** Lines 235-323, [r[shift_value]] read through [read]. *)
Definition dp_register_operand_with (read : cpu -> Z -> option Z)
    (c : cpu) (instruction s rd : Z) : option (Z * cpu) :=
  w ← reg c (Z.land instruction 0xF);
  let shift_value := u8 w in
  let shift_type := Z.land (shr32 instruction 5) 0x3 in
  shift_amount ← arm_shift_amount c instruction;
  let carry (v : Z) : cpu :=
    if truthy s && negb (rd =? 15)
    then upd c (λ rs, set_cpsr_carry rs v) else c in
  match shift_type with
  | 0x0 =>
      if shift_amount >? 32 then Some (0, carry 0)
      else
        v ← read c shift_value;
        Some (shl32 v shift_amount,
              carry (Z.land (shr32 v (32 - shift_amount)) 0x1))
  | 0x1 =>
      if shift_amount >? 32 then Some (0, carry 0)
      else
        v ← read c shift_value;
        Some (shr32 v shift_amount,
              carry (Z.land (shr32 v (shift_amount - 1)) 0x1))
  | 0x2 =>
      if shift_amount >=? 32 then
        v ← read c shift_value;
        Some (sign_extend (shr32 v 31) (u32 (32 - shift_amount)),
              carry (Z.land (shr32 v 31) 0x1))
      else
        v ← read c shift_value;
        Some (sign_extend (shr32 v shift_amount) (u32 (32 - shift_amount)),
              carry (Z.land (shr32 v (shift_amount - 1)) 0x1))
  | _ =>
      if shift_amount =? 0 then
        v ← read c shift_value;
        Some (Z.lor (shr32 v 1) (shl32 (get_cpsr_carry (cpsr (registers c))) 31),
              carry (Z.land v 0x1))
      else
        v ← read c shift_value;
        Some (rotl32 v shift_amount,
              carry (Z.land (shr32 v (shift_amount - 1)) 0x1))
  end.

(** Lines 224-526. *)
Definition arm_data_processing_with (read : cpu -> Z -> option Z)
    (c : cpu) (instruction i : Z) : option (cpu * Z) :=
  let opcode := Z.land (shr32 instruction 21) 0xF in
  let s := Z.land (shr32 instruction 20) 0x1 in
  let rn := Z.land (shr32 instruction 16) 0xF in
  let rd := Z.land (shr32 instruction 12) 0xF in
  '(src2, c) ← (if i =? 0 then dp_register_operand_with read c instruction s rd
                else Some (dp_immediate_operand instruction, c));
  dp_execute c instruction opcode s rn rd src2.

(** Lines 543-632, [r[shift_value]] read through [read]. *)
Definition sdt_register_offset_with (read : cpu -> Z -> option Z)
    (c : cpu) (instruction : Z) : option Z :=
  w ← reg c (Z.land instruction 0xF);
  let shift_value := u8 w in
  let shift_type := Z.land (shr32 instruction 5) 0x3 in
  shift_amount ← arm_shift_amount c instruction;
  match shift_type with
  | 0x0 =>
      if shift_amount >? 32 then Some 0
      else v ← read c shift_value; Some (shl32 v shift_amount)
  | 0x1 =>
      if shift_amount >? 32 then Some 0
      else v ← read c shift_value; Some (shr32 v shift_amount)
  | 0x2 =>
      if shift_amount >=? 32 then
        v ← read c shift_value;
        Some (sign_extend (shr32 v 31) (u32 (32 - shift_amount)))
      else
        v ← read c shift_value;
        Some (sign_extend (shr32 v shift_amount) (u32 (32 - shift_amount)))
  | _ =>
      if shift_amount =? 0 then
        v ← read c shift_value;
        Some (Z.lor (shr32 v 1) (shl32 (get_cpsr_carry (cpsr (registers c))) 31))
      else
        v ← read c shift_value; Some (rotl32 v shift_amount)
  end.

(** Lines 529-704. *)
Definition arm_single_data_transfer_with (read : cpu -> Z -> option Z)
    (c : cpu) (instruction i : Z) : option (cpu * Z) :=
  let p := Z.land (shr32 instruction 24) 0x1 in
  let u := Z.land (shr32 instruction 23) 0x1 in
  let b := Z.land (shr32 instruction 22) 0x1 in
  let w := Z.land (shr32 instruction 21) 0x1 in
  let l := Z.land (shr32 instruction 20) 0x1 in
  let rn := Z.land (shr32 instruction 16) 0xF in
  let rd := Z.land (shr32 instruction 12) 0xF in
  offset ← (if i =? 1 then sdt_register_offset_with read c instruction
            else Some (Z.land instruction 0xFFF));
  address ← reg c rn;
  let address :=
    if rn =? 15 then (if l =? 0 then add32 address 12 else add32 address 8)
    else address in
  let address := if p =? 1 then step_address u address offset else address in
  c ← (if l =? 1 then
         if b =? 1 then v ← load_char c address; set_reg c rd v
         else v ← load_u32 c address; set_reg c rd v
       else
         if b =? 1 then v ← reg c rd; store_char c address v
         else v ← reg c rd; store_u32 c address v);
  let address := if p =? 0 then step_address u address offset else address in
  c ← (if (w =? 1) || (p =? 0) then set_reg c rn address else Some c);
  Some (c, 1).

(** [cpu_process_arm_instruction] (lines 152-799) over these. *)
Definition cpu_process_arm_instruction_with (read : cpu -> Z -> option Z)
    (c : cpu) (instruction : Z) : option (cpu * Z) :=
  if negb (truthy (cpu_check_condition (cpsr (registers c)) instruction))
  then Some (c, 1)
  else
    let instruction_type := Z.land (shr32 instruction 26) 0x3 in
    let i := Z.land (shr32 instruction 25) 0x1 in
    match instruction_type with
    | 0x0 =>
        if Z.land instruction 0xFFFFFF0 =? 0x12FFF10 then arm_bx c instruction
        else if (i =? 1) || (Z.land (shr32 instruction 7) 0x1 =? 0)
        then arm_data_processing_with read c instruction i
        else Some (c, 1)
    | 0x1 => arm_single_data_transfer_with read c instruction i
    | 0x2 =>
        if i =? 1 then arm_branch c instruction
        else arm_block_data_transfer c instruction
    | _ => Some (c, 0)
    end.

(** ** [cpu_process_thumb_instruction]

    Each [thumb_case_*] is the body of one case of the outer switch.  The
    cases [0b000] and [0b010] do not end in [break], so control runs on into
    the next case with the same instruction word; [cpu_process_thumb_instruction]
    chains them accordingly. *)

(** [set_cpsr_carry(.., x >= y); set_cpsr_overflow(.., (x ^ y) & (x ^ (x - y))
    & 0x80000000)] (e.g. lines 920-921). *)
Definition thumb_flags_cv (c : cpu) (x y : Z) : cpu :=
  let c := upd c (λ rs, set_cpsr_carry rs (c_ge x y)) in
  upd c (λ rs, set_cpsr_overflow rs
                 (Z.land (Z.land (Z.lxor x y) (Z.lxor x (sub32 x y))) 0x80000000)).

(** [set_cpsr_zero(.., x == y); set_cpsr_negative(.., x < y)] followed by the
    carry and overflow updates (e.g. lines 918-921). *)
Definition thumb_compare (c : cpu) (x y : Z) : cpu :=
  let c := upd c (λ rs, set_cpsr_zero rs (c_eq x y)) in
  let c := upd c (λ rs, set_cpsr_negative rs (c_lt x y)) in
  thumb_flags_cv c x y.

(** Case [0b000] (lines 815-899). *)
Definition thumb_case_000 (c : cpu) (instruction : Z) : option cpu :=
  let opcode := Z.land (shr32 instruction 11) 0x3 in
  let offset5 := Z.land (shr32 instruction 6) 0x1F in
  let rs := Z.land (shr32 instruction 3) 0x7 in
  let rd := Z.land (shr32 instruction 0) 0x7 in
  match opcode with
  | 0x0 =>
      v ← reg c rs; c ← set_reg c rd (shl32 v offset5); flags_zn_of_rd c rd
  | 0x1 =>
      v ← reg c rs; c ← set_reg c rd (shr32 v offset5); flags_zn_of_rd c rd
  | 0x2 =>
      v ← reg c rs;
      c ← set_reg c rd (sign_extend (shr32 v offset5) (u32 (32 - offset5)));
      flags_zn_of_rd c rd
  | _ =>
      let i := Z.land (shr32 instruction 10) 0x1 in
      let op := Z.land (shr32 instruction 9) 0x1 in
      let rn_or_offset3 := Z.land (shr32 instruction 6) 0x7 in
      operand ← (if i =? 0 then reg c rn_or_offset3 else Some rn_or_offset3);
      v ← reg c rs;
      c ← set_reg c rd (if op =? 0 then add32 v operand else sub32 v operand);
      c ← flags_zn_of_rd c rd;
      c ← flag_c_ge c (λ c, reg c rs) (λ _, Some operand);
      flag_v_of c (λ c, reg c rs) (λ _, Some operand) (λ c, reg c rd)
  end.

(** Case [0b001] (lines 900-949). *)
Definition thumb_case_001 (c : cpu) (instruction : Z) : option cpu :=
  let opcode := Z.land (shr32 instruction 11) 0x3 in
  let rd := Z.land (shr32 instruction 8) 0x7 in
  let offset8 := Z.land (shr32 instruction 0) 0xFF in
  match opcode with
  | 0x0 => c ← set_reg c rd offset8; flags_zn_of_rd c rd
  | 0x1 => d ← reg c rd; Some (thumb_compare c d offset8)
  | 0x2 =>
      d ← reg c rd; c ← set_reg c rd (add32 d offset8);
      c ← flags_zn_of_rd c rd;
      d ← reg c rd; Some (thumb_flags_cv c d offset8)
  | _ =>
      d ← reg c rd; c ← set_reg c rd (sub32 d offset8);
      c ← flags_zn_of_rd c rd;
      d ← reg c rd; Some (thumb_flags_cv c d offset8)
  end.

(** ALU operations (lines 954-1107). *)
Definition thumb_alu (c : cpu) (instruction : Z) : option cpu :=
  let opcode := Z.land (shr32 instruction 6) 0xF in
  let rs := Z.land (shr32 instruction 3) 0x7 in
  let rd := Z.land (shr32 instruction 0) 0x7 in
  let carry_in := get_cpsr_carry (cpsr (registers c)) in
  d ← reg c rd; s ← reg c rs;
  match opcode with
  | 0x0 => dp_logical c rd (Z.land d s)
  | 0x1 => dp_logical c rd (Z.lxor d s)
  | 0x2 => dp_logical c rd (shl32 d s)
  | 0x3 => dp_logical c rd (shr32 d s)
  | 0x4 => dp_logical c rd (sign_extend (shr32 d s) (sub32 32 s))
  | 0x5 =>
      c ← dp_logical c rd (add32 d (add32 s carry_in));
      d ← reg c rd; s ← reg c rs; Some (thumb_flags_cv c d s)
  | 0x6 =>
      c ← dp_logical c rd (sub32 d (sub32 s (lnot carry_in)));
      d ← reg c rd; s ← reg c rs; Some (thumb_flags_cv c d s)
  | 0x7 => dp_logical c rd (rotl32 d s)
  | 0x8 => Some (flags_zn_of c (Z.land d s))
  | 0x9 =>
      c ← dp_logical c rd (neg32 s);
      let c := upd c (λ rs, set_cpsr_carry rs 0) in
      d ← reg c rd;
      Some (upd c (λ rs, set_cpsr_overflow rs (c_eq d 0x80000000)))
  | 0xA => Some (thumb_compare c d s)
  | 0xB => Some (thumb_compare c d (neg32 s))
  | 0xC => dp_logical c rd (Z.lor d s)
  | 0xD =>
      c ← set_reg c rd (mul32 d s);
      d ← reg c rd; Some (upd c (λ rs, set_cpsr_zero rs (c_eq d 0)))
  | 0xE => dp_logical c rd (Z.land d (not32 s))
  | _ => dp_logical c rd (not32 s)
  end.

(** Hi register operations and BX (lines 1109-1153); the H1 and H2 bits are
    decoded and not used. *)
Definition thumb_hi_bx (c : cpu) (instruction : Z) : option cpu :=
  let opcode := Z.land (shr32 instruction 8) 0x3 in
  let rs_hs := Z.land (shr32 instruction 3) 0x7 in
  let rd_hd := Z.land (shr32 instruction 0) 0x7 in
  match opcode with
  | 0x0 => d ← reg c rd_hd; s ← reg c rs_hs; set_reg c rd_hd (add32 d s)
  | 0x1 => d ← reg c rd_hd; s ← reg c rs_hs; Some (thumb_compare c d s)
  | 0x2 => s ← reg c rs_hs; set_reg c rd_hd s
  | _ =>
      v ← reg c rs_hs;
      if truthy (Z.land v 0x1) then
        let c := upd c (λ rs, with_pc rs (Z.land v 0xFFFFFFFE)) in
        let c := upd c (λ rs, with_pc rs (sub32 (pc rs) 2)) in
        Some (upd c (λ rs, with_cpsr rs (Z.land (cpsr rs) (not32 0x20))))
      else
        let c := upd c (λ rs, with_pc rs (Z.land v 0xFFFFFFFC)) in
        let c := upd c (λ rs, with_pc rs (sub32 (pc rs) 4)) in
        Some (upd c (λ rs, with_cpsr rs (Z.lor (cpsr rs) 0x20)))
  end.

(** Word or byte transfer between [r[rd]] and [address] (e.g. lines
    1246-1264). *)
Definition thumb_transfer (c : cpu) (l b rd address : Z) : option cpu :=
  if l =? 1 then
    if b =? 1 then v ← load_char c address; set_reg c rd v
    else v ← load_u32 c address; set_reg c rd v
  else
    if b =? 1 then v ← reg c rd; store_char c address v
    else v ← reg c rd; store_u32 c address v.

(** Case [0b010] (lines 950-1233). *)
Definition thumb_case_010 (c : cpu) (instruction : Z) : option cpu :=
  if Z.land (shr32 instruction 12) 0x1 =? 0 then
    if Z.land (shr32 instruction 11) 0x1 =? 0 then
      if Z.land (shr32 instruction 10) 0x1 =? 0 then thumb_alu c instruction
      else thumb_hi_bx c instruction
    else
      let rd := Z.land (shr32 instruction 8) 0x7 in
      let offset8 := Z.land (shr32 instruction 0) 0xFF in
      set_reg c rd (add32 (pc (registers c)) (shl32 offset8 2))
  else
    let ro := Z.land (shr32 instruction 6) 0x7 in
    let rb := Z.land (shr32 instruction 3) 0x7 in
    let rd := Z.land (shr32 instruction 0) 0x7 in
    if Z.land (shr32 instruction 9) 0x1 =? 0 then
      let l := Z.land (shr32 instruction 11) 0x1 in
      let b := Z.land (shr32 instruction 10) 0x1 in
      base ← reg c rb; index ← reg c ro;
      thumb_transfer c l b rd (add32 base index)
    else
      let h := Z.land (shr32 instruction 11) 0x1 in
      let s := Z.land (shr32 instruction 10) 0x1 in
      base ← reg c rb; index ← reg c ro;
      let address := add32 base index in
      if s =? 1 then
        if h =? 1 then v ← load_i16 c address; set_reg c rd (sign_extend v 16)
        else v ← load_char c address; set_reg c rd (sign_extend v 8)
      else
        if h =? 1 then v ← reg c rd; store_u16 c address v
        else v ← reg c rd; store_char c address v.

(** Case [0b011] (lines 1234-1268). *)
Definition thumb_case_011 (c : cpu) (instruction : Z) : option cpu :=
  let b := Z.land (shr32 instruction 12) 0x1 in
  let l := Z.land (shr32 instruction 11) 0x1 in
  let offset5 := Z.land (shr32 instruction 6) 0x1F in
  let rb := Z.land (shr32 instruction 3) 0x7 in
  let rd := Z.land (shr32 instruction 0) 0x7 in
  base ← reg c rb;
  thumb_transfer c l b rd (add32 base (shl32 offset5 2)).

(** Case [0b100] (lines 1269-1311). *)
Definition thumb_case_100 (c : cpu) (instruction : Z) : option cpu :=
  if Z.land (shr32 instruction 12) 0x1 =? 0 then
    let l := Z.land (shr32 instruction 10) 0x1 in
    let offset5 := Z.land (shr32 instruction 6) 0x1F in
    let rb := Z.land (shr32 instruction 3) 0x7 in
    let rd := Z.land (shr32 instruction 0) 0x7 in
    base ← reg c rb;
    let address := add32 base (shl32 offset5 1) in
    if l =? 1 then v ← load_i16 c address; set_reg c rd (sign_extend v 16)
    else v ← reg c rd; store_u16 c address v
  else
    let l := Z.land (shr32 instruction 11) 0x1 in
    let rd := Z.land (shr32 instruction 8) 0x7 in
    let offset8 := Z.land (shr32 instruction 0) 0xFF in
    let address := add32 (sp (registers c)) (shl32 offset8 2) in
    if l =? 1 then v ← load_u32 c address; set_reg c rd v
    else v ← reg c rd; store_u32 c address v.

(** One turn of a register-list loop of Thumb (lines 1353-1358, 1367-1372,
    1400-1405, 1408-1413); the loop state is the machine and [address]. *)
Definition thumb_list_turn (l rlist : Z) (st : cpu * Z) (i : Z)
  : option (cpu * Z) :=
  let '(c, address) := st in
  if truthy (Z.land (shr32 rlist i) 0x1) then
    c ← (if l =? 1 then v ← load_u32 c address; set_reg c i v
         else v ← reg c i; store_u32 c address v);
    Some (c, add32 address 4)
  else Some st.

Definition thumb_list_loop (l rlist : Z) (c : cpu) (address : Z)
  : option (cpu * Z) :=
  for_each (thumb_list_turn l rlist) (seqZ 0 8) (c, address).

(** Case [0b101] (lines 1312-1386). *)
Definition thumb_case_101 (c : cpu) (instruction : Z) : option cpu :=
  if Z.land (shr32 instruction 12) 0x1 =? 0 then
    let sp_bit := Z.land (shr32 instruction 11) 0x1 in
    let rd := Z.land (shr32 instruction 8) 0x7 in
    let offset8 := Z.land (shr32 instruction 0) 0xFF in
    if sp_bit =? 0
    then set_reg c rd (add32 (pc (registers c)) (shl32 offset8 2))
    else set_reg c rd (add32 (sp (registers c)) (shl32 offset8 2))
  else if Z.land (shr32 instruction 10) 0x1 =? 0 then
    let s := Z.land (shr32 instruction 7) 0x1 in
    let sword7 := Z.land (shr32 instruction 0) 0x7F in
    let offset := if s =? 0 then sword7 else neg32 sword7 in
    Some (upd c (λ rs, with_sp rs (add32 (sp rs) (shl32 offset 2))))
  else
    let l := Z.land (shr32 instruction 11) 0x1 in
    let r_bit := Z.land (shr32 instruction 8) 0x1 in
    let rlist := Z.land (shr32 instruction 0) 0xFF in
    let address := sp (registers c) in
    '(c, address) ← thumb_list_loop l rlist c address;
    '(c, address) ←
      (if r_bit =? 1 then
         if l =? 1 then
           v ← load_u32 c address;
           let c := upd c (λ rs, with_pc rs (Z.land v 0xFFFFFFFE)) in
           let c := upd c (λ rs, with_cpsr rs (Z.land (cpsr rs) (not32 0x20))) in
           Some (c, add32 address 4)
         else
           c ← store_u32 c address (lr (registers c));
           Some (c, add32 address 4)
       else Some (c, address));
    Some (upd c (λ rs, with_sp rs address)).

(** Case [0b110] (lines 1387-1456).  The conditional branch hands the
    four-bit condition itself to [cpu_check_condition], which looks for the
    condition in bits 31..28 of its argument. *)
Definition thumb_case_110 (c : cpu) (instruction : Z) : option cpu :=
  if Z.land (shr32 instruction 12) 0x1 =? 0 then
    let l := Z.land (shr32 instruction 11) 0x1 in
    let rb := Z.land (shr32 instruction 8) 0x7 in
    let rlist := Z.land (shr32 instruction 0) 0xFF in
    address ← reg c rb;
    '(c, address) ← thumb_list_loop l rlist c address;
    set_reg c rb address
  else if Z.land (shr32 instruction 8) 0xF =? 0xF then
    let c := upd c (λ rs, with_lr rs (add32 (pc rs) 4)) in
    let c := upd c (λ rs, with_spsr rs (cpsr rs)) in
    v ← load_u32 c 0x8;
    let c := upd c (λ rs, with_pc rs (Z.land v 0xFFFFFFFE)) in
    let c := upd c (λ rs, with_cpsr rs (Z.land (cpsr rs) (not32 0x1F))) in
    Some (upd c (λ rs, with_cpsr rs (Z.lor (cpsr rs) 0x13)))
  else
    let cond := Z.land (shr32 instruction 8) 0xF in
    let offset8 := Z.land (shr32 instruction 0) 0xFF in
    let offset := sign_extend (shl32 offset8 1) 9 in
    if truthy (cpu_check_condition (cpsr (registers c)) cond)
    then Some (upd c (λ rs, with_pc rs (add32 (pc rs) (add32 offset 4))))
    else Some c.

(** Case [0b111] (lines 1457-1493).  In the unconditional branch the
    eleven-bit offset is kept in a [uint8_t]. *)
Definition thumb_case_111 (c : cpu) (instruction : Z) : option cpu :=
  if Z.land (shr32 instruction 12) 0x1 =? 0 then
    let offset11 := u8 (Z.land (shr32 instruction 0) 0x7FF) in
    let offset := sign_extend (shl32 offset11 1) 12 in
    Some (upd c (λ rs, with_pc rs (add32 (pc rs) (add32 offset 4))))
  else
    let h := Z.land (shr32 instruction 11) 0x1 in
    let offset11 := Z.land (shr32 instruction 0) 0x7FF in
    if h =? 0 then
      Some (upd c (λ rs, with_lr rs (add32 (pc rs) (shl32 offset11 12))))
    else
      let c := upd c (λ rs, with_pc rs (add32 (lr rs) (shl32 offset11 1))) in
      let c := upd c (λ rs, with_pc rs (sub32 (pc rs) 2)) in
      let c := upd c (λ rs, with_lr rs (add32 (pc rs) 2)) in
      Some (upd c (λ rs, with_lr rs (Z.lor (lr rs) 0x1))).

(** The function itself (lines 801-1500): the outer switch with its
    fall-through from [0b000] into [0b001] and from [0b010] into [0b011]. *)
Definition cpu_process_thumb_instruction (c : cpu) (instruction : Z)
  : option (cpu * Z) :=
  let instruction_type := Z.land (shr32 instruction 13) 0x7 in
  c ← match instruction_type with
      | 0 => c ← thumb_case_000 c instruction; thumb_case_001 c instruction
      | 1 => thumb_case_001 c instruction
      | 2 => c ← thumb_case_010 c instruction; thumb_case_011 c instruction
      | 3 => thumb_case_011 c instruction
      | 4 => thumb_case_100 c instruction
      | 5 => thumb_case_101 c instruction
      | 6 => thumb_case_110 c instruction
      | 7 => thumb_case_111 c instruction
      | _ => None
      end;
  Some (c, 1).

(** ** [cpu_run] *)

(** [memset(&cpu->registers, 0, ..)] followed by the two [cpsr |= ..]
    (lines 1507-1513). *)
Definition cpu_reset (c : cpu) : cpu :=
  let c := with_registers c (mk_registers (replicate 13 0) 0 0 0 0 0) in
  let c := upd c (λ rs, with_cpsr rs (Z.lor (cpsr rs) 0x20)) in
  upd c (λ rs, with_cpsr rs (Z.lor (cpsr rs) 0x10)).

(** What one turn of the loop fetches and which executor receives it. *)
Inductive fetched : Type :=
  | FetchARM (instruction : Z)
  | FetchThumb (instruction : Z).

(** Lines 1518-1521 and 1531-1533: the test of [cpsr & 0x20] and the fetch. *)
Definition cpu_fetch (c : cpu) : option fetched :=
  if truthy (Z.land (cpsr (registers c)) 0x20) then
    instruction ← load_u32 c (pc (registers c)); Some (FetchARM instruction)
  else
    instruction ← load_u16 c (pc (registers c)); Some (FetchThumb instruction).

(** Lines 1523-1529 and 1535-1541: run the executor; when it returns [0] the
    loop is left at once ([cpu_run] returns [1]), otherwise [pc] advances. *)
Definition cpu_dispatch (c : cpu) (f : fetched) : option (cpu * Z) :=
  match f with
  | FetchARM instruction =>
      '(c, ok) ← cpu_process_arm_instruction c instruction;
      if negb (truthy ok) then Some (c, 0)
      else Some (upd c (λ rs, with_pc rs (add32 (pc rs) 4)), 1)
  | FetchThumb instruction =>
      '(c, ok) ← cpu_process_thumb_instruction c instruction;
      if negb (truthy ok) then Some (c, 0)
      else Some (upd c (λ rs, with_pc rs (add32 (pc rs) 2)), 1)
  end.

(** One turn of the loop body up to the increment of [pc]. *)
Definition cpu_step (c : cpu) : option (cpu * Z) :=
  f ← cpu_fetch c; cpu_dispatch c f.

(** How the loop ended: the value [cpu_run] returned, or no more fuel. *)
Inductive run_result : Type :=
  | Returned (c : cpu) (code : Z)
  | OutOfFuel (c : cpu).

(** The [while] loop (lines 1516-1566); [fuel] bounds the number of turns.
    Of the three checks after the step only [pc == 0xFFFFFFFF] leaves the
    loop. *)
Fixpoint cpu_loop (fuel : nat) (c : cpu) : option run_result :=
  match fuel with
  | O => Some (OutOfFuel c)
  | S fuel =>
      if pc (registers c) <? sizeof_memory_t then
        '(c, ok) ← cpu_step c;
        if negb (truthy ok) then Some (Returned c 1)
        else if pc (registers c) =? 0xFFFFFFFF then Some (Returned c 0)
        else cpu_loop fuel c
      else Some (Returned c 0)
  end.

Definition cpu_run (fuel : nat) (c : cpu) : option run_result :=
  cpu_loop fuel (cpu_reset c).

(** * Vocabulary of the properties *)

(** The register array has its thirteen slots. *)
Definition wf_cpu (c : cpu) : Prop := length (r (registers c)) = 13%nat.

(** The four condition flags, as [(N, Z, C, V)]. *)
Definition nzcv (c : cpu) : Z * Z * Z * Z :=
  let w := cpsr (registers c) in
  (get_cpsr_negative w, get_cpsr_zero w, get_cpsr_carry w, get_cpsr_overflow w).

(** The dispatch as the specification words it: bit 5 of CPSR is T, and
    T = 1 selects a 16-bit fetch for the Thumb executor. *)
Definition fetch_with_t_as_thumb (c : cpu) : option fetched :=
  if Z.testbit (cpsr (registers c)) 5 then
    instruction ← load_u16 c (pc (registers c)); Some (FetchThumb instruction)
  else
    instruction ← load_u32 c (pc (registers c)); Some (FetchARM instruction).

(** The little-endian word whose bytes are at [a], [a + 1], [a + 2],
    [a + 3]. *)
Definition le_word (m : Z -> Z) (a : Z) : Z :=
  byte_at m a + 2 ^ 8 * byte_at m (a + 1)
  + 2 ^ 16 * byte_at m (a + 2) + 2 ^ 24 * byte_at m (a + 3).

(** The CPSR the claim describes: bits 31..24 from the operand, bits 23..0
    kept. *)
Definition cpsr_with_flag_field (old v : Z) : Z :=
  Z.lor (Z.land old 0x00FFFFFF) (Z.land v 0xFF000000).

(** Register [i] is named in the register list. *)
Definition listed (register_list i : Z) : bool :=
  truthy (Z.land (shr32 register_list i) 0x1).

(** The transfers of a block data transfer, in the order the loop makes them,
    each as [(register, address)]. *)
Definition bdt_trace (c : cpu) (instruction : Z) : option (list (Z * Z)) :=
  let p := Z.land (shr32 instruction 24) 0x1 in
  let u := Z.land (shr32 instruction 23) 0x1 in
  let s := Z.land (shr32 instruction 22) 0x1 in
  let l := Z.land (shr32 instruction 20) 0x1 in
  let rn := Z.land (shr32 instruction 16) 0xF in
  let register_list := Z.land instruction 0xFFFF in
  address ← reg c rn;
  st ← bdt_loop p u s l register_list c address;
  Some st.2.

(** [a] lies before [b] in the direction of the transfer. *)
Definition before (u a b : Z) : Prop := if u =? 1 then a < b else b < a.

(** The address the next listed register will be transferred at. *)
Definition next_slot (p u address : Z) : Z :=
  if p =? 1 then step_address u address 4 else address.

(** The order of two transfers: by register number and, in the direction of
    U, by address. *)
Definition transfer_order (u : Z) (x y : Z * Z) : Prop :=
  x.1 < y.1 /\ before u x.2 y.2.

(** Invariant of the block-transfer loop before register [k] is looked at. *)
Definition bdt_inv (p u k : Z) (st : bdt_state) : Prop :=
  let '(_, address, done) := st in
  Forall (λ x, x.1 < k /\ in_bounds x.2 4 = true) done /\
  StronglySorted (transfer_order u) done /\
  (in_bounds (next_slot p u address) 4 = true ->
   Forall (λ x, before u x.2 (next_slot p u address)) done).

(** The four condition flags of a status word, as [(N, Z, C, V)]. *)
Definition cpsr_flags (w : Z) : Z * Z * Z * Z :=
  (get_cpsr_negative w, get_cpsr_zero w, get_cpsr_carry w, get_cpsr_overflow w).

(** The instruction writes memory: a single data transfer, or a block data
    transfer (type 2 with bit 25 clear), with the L bit clear. *)
Definition arm_is_store (instruction : Z) : bool :=
  ((Z.land (shr32 instruction 26) 0x3 =? 1)
   || ((Z.land (shr32 instruction 26) 0x3 =? 2)
       && (Z.land (shr32 instruction 25) 0x1 =? 0)))
  && (Z.land (shr32 instruction 20) 0x1 =? 0).

(** The instruction is TST, TEQ, CMP or CMN as the opcode switch reads it:
    opcode 8, 10 or 11, or opcode 9 with the S bit set. *)
Definition arm_is_compare (instruction : Z) : bool :=
  let opcode := Z.land (shr32 instruction 21) 0xF in
  let s := Z.land (shr32 instruction 20) 0x1 in
  (opcode =? 8) || (opcode =? 10) || (opcode =? 11)
  || ((opcode =? 9) && negb (s =? 0)).

(** The opcode is one of SUB, RSB, ADD, ADC, SBC, RSC (2..7), CMP (10) or
    CMN (11). *)
Definition arm_is_arithmetic (instruction : Z) : bool :=
  let opcode := Z.land (shr32 instruction 21) 0xF in
  ((2 <=? opcode) && (opcode <=? 7)) || (opcode =? 10) || (opcode =? 11).

(** N and V of a state are both clear. *)
Definition n_and_v_clear (c : cpu) : Prop :=
  Z.testbit (cpsr (registers c)) 31 = false /\
  Z.testbit (cpsr (registers c)) 28 = false.

(** [c'] differs from [c] in CPSR at most. *)
Definition only_cpsr_differs (c c' : cpu) : Prop :=
  c' = upd c (λ rs, with_cpsr rs (cpsr (registers c'))).

(** The signed reading of the 24-bit offset field of B and BL. *)
Definition arm_branch_displacement (instruction : Z) : Z :=
  let offset := Z.land instruction 0xFFFFFF in
  if offset <? 0x800000 then offset else offset - 0x1000000.

(** The signed reading of the eight-bit offset of a Thumb conditional
    branch. *)
Definition thumb_branch_displacement (instruction : Z) : Z :=
  let offset8 := Z.land instruction 0xFF in
  if offset8 <? 0x80 then offset8 else offset8 - 0x100.

(** The signed step of the running address of a block data transfer: [+4]
    when U = 1, [-4] otherwise. *)
Definition bdt_stride (u : Z) : Z := if u =? 1 then 4 else -4.

(** How many of the registers [0 .. n - 1] a register list names. *)
Definition listed_count (register_list n : Z) : Z :=
  Z.of_nat (length (List.filter (listed register_list) (seqZ 0 n))).

(** * Example states *)

(** A memory that holds zero everywhere. *)
Definition zero_memory : Z -> Z := fun _ => 0.

(** A machine with the Z flag clear, about to run [ADDEQ r0, r1, r2]
    (0x00810002). *)
Definition user_state_z_clear : cpu :=
  mk_cpu (mk_registers [5; 6; 7; 0; 0; 0; 0; 0; 0; 0; 0; 0; 0]
                       0x03007F00 0 0x100 0x30 0) zero_memory.

(** The bytes of [MOV r0, #1] (0xE3A00001) at address 0. *)
Definition memory_mov_at_0 : Z -> Z :=
  fun a => if a =? 0 then 0x01 else if a =? 2 then 0xA0
           else if a =? 3 then 0xE3 else 0.

(** The state [cpu_run] itself starts from: CPSR = 0x30, PC = 0. *)
Definition state_after_reset : cpu :=
  mk_cpu (mk_registers (replicate 13 0) 0 0 0 0x30 0) memory_mov_at_0.

(** A host that prepared an entry state: PC in work RAM, System mode,
    [r0 = 7], a stack pointer, and [MOV r0, #1] at the entry point. *)
Definition host_entry_state : cpu :=
  mk_cpu (mk_registers [7; 0; 0; 0; 0; 0; 0; 0; 0; 0; 0; 0; 0]
                       0x03007F00 0 0x02000000 0x1F 0)
         (fun a => if a =? 0x02000000 then 0x01 else if a =? 0x02000002 then 0xA0
                   else if a =? 0x02000003 then 0xE3 else 0).

(** A machine in the loop's ARM state (bit 5 of CPSR set) with [BX r0] at
    PC. *)
Definition bx_state (target : Z) : cpu :=
  mk_cpu (mk_registers [target; 0; 0; 0; 0; 0; 0; 0; 0; 0; 0; 0; 0]
                       0x03007F00 0 0x100 0x30 0)
         (fun a => if a =? 0x100 then 0x10 else if a =? 0x101 then 0xFF
                   else if a =? 0x102 then 0x2F else if a =? 0x103 then 0xE1
                   else 0).

(** A machine about to run [LDR r0, [r1]] with r1 = 0x02000001; memory holds
    11 22 33 44 at 0x02000000 and 55 at 0x02000004. *)
Definition ldr_state : cpu :=
  mk_cpu (mk_registers [0; 0x02000001; 0; 0; 0; 0; 0; 0; 0; 0; 0; 0; 0]
                       0x03007F00 0 0x100 0x30 0)
         (fun a => if a =? 0x02000000 then 0x11 else if a =? 0x02000001 then 0x22
                   else if a =? 0x02000002 then 0x33 else if a =? 0x02000003 then 0x44
                   else if a =? 0x02000004 then 0x55 else 0).

(** A machine in User mode about to run [MSR CPSR, r0] with
    r0 = 0xFF000000. *)
Definition msr_state : cpu :=
  mk_cpu (mk_registers [0xFF000000; 0; 0; 0; 0; 0; 0; 0; 0; 0; 0; 0; 0]
                       0x03007F00 0 0x100 0x10 0) zero_memory.

(** The same machine with r0 = 0xFF0000C0: an operand that also names the
    I and F bits and bits 27..24, and whose low byte is 0xC0. *)
Definition msr_control_state : cpu :=
  mk_cpu (mk_registers [0xFF0000C0; 0; 0; 0; 0; 0; 0; 0; 0; 0; 0; 0; 0]
                       0x03007F00 0 0x100 0x10 0) zero_memory.

(** A machine about to run [STMDB sp!, {r0, r1}] (0xE92D0003). *)
Definition stmdb_state : cpu :=
  mk_cpu (mk_registers [0xAAAA; 0xBBBB; 0; 0; 0; 0; 0; 0; 0; 0; 0; 0; 0]
                       0x03007F00 0 0x100 0x30 0) zero_memory.

(** A memory that holds the little-endian word [w] at [a] and zero
    elsewhere. *)
Definition memory_word_at (a w : Z) : Z -> Z :=
  fun x => if (a <=? x) && (x <? a + 4) then u8 (Z.shiftr w (8 * (x - a)))
           else 0.

(** A machine in the loop's ARM state with the instruction [w] at PC = [a]. *)
Definition arm_state_at (a w : Z) : cpu :=
  mk_cpu (mk_registers [1; 2; 3; 0; 0; 0; 0; 0; 0; 0; 0; 0; 0]
                       0x03007F00 0 a 0x30 0) (memory_word_at a w).

(** A machine about to run [STR r0, [r1]] (0xE5810000) with
    r0 = 0x12345678 and r1 = 0x02000000. *)
Definition str_state : cpu :=
  mk_cpu (mk_registers [0x12345678; 0x02000000; 0; 0; 0; 0; 0; 0; 0; 0; 0; 0; 0]
                       0x03007F00 0 0x100 0x30 0) zero_memory.

(** A machine in the loop's Thumb state (bit 5 of CPSR clear) with the Z flag
    set, r0 = 0x02000000 and a stack pointer. *)
Definition thumb_state : cpu :=
  mk_cpu (mk_registers [0x02000000; 0x11; 0x22; 0; 0; 0; 0; 0; 0; 0; 0; 0; 0]
                       0x03007F00 0 0x200 0x40000010 0) zero_memory.

(** * Properties *)

#[global] Arguments cpu_process_arm_instruction : simpl never.
#[global] Arguments cpu_process_thumb_instruction : simpl never.
#[global] Arguments cpu_step : simpl never.
#[global] Arguments cpu_check_condition : simpl never.

(** ** Well-formed states and basic facts *)

Lemma land_pow2_testbit (x k : Z) :
  0 <= k -> Z.land x (2 ^ k) = if Z.testbit x k then 2 ^ k else 0.
Proof.
  intros Hk. apply Z.bits_inj'. intros n Hn.
  rewrite Z.land_spec, Z.pow2_bits_eqb by lia.
  destruct (Z.eqb_spec k n) as [->|Hne].
  - destruct (Z.testbit x n); simpl.
    + rewrite Z.pow2_bits_eqb by lia. now rewrite Z.eqb_refl.
    + now rewrite Z.bits_0.
  - rewrite andb_false_r. destruct (Z.testbit x k).
    + rewrite Z.pow2_bits_eqb by lia. symmetry. now apply Z.eqb_neq.
    + now rewrite Z.bits_0.
Qed.

Lemma truthy_land_bit5 (x : Z) : truthy (Z.land x 0x20) = Z.testbit x 5.
Proof.
  change 0x20 with (2 ^ 5). rewrite land_pow2_testbit by lia.
  now destruct (Z.testbit x 5).
Qed.

Lemma land_1_cases (x : Z) : Z.land x 1 = 0 \/ Z.land x 1 = 1.
Proof.
  pose proof (land_pow2_testbit x 0 ltac:(lia)) as H.
  change (2 ^ 0) with 1 in H. rewrite H.
  destruct (Z.testbit x 0); auto.
Qed.

Lemma reg_word_is_Some (rs : cpu_registers) (i : Z) :
  length (r rs) = 13%nat -> 0 <= i < 18 -> is_Some (reg_word rs i).
Proof.
  intros Hlen Hi. unfold reg_word.
  destruct ((0 <=? i) && (i <? 13)) eqn:E.
  - apply lookup_lt_is_Some. lia.
  - assert (i = 13 \/ i = 14 \/ i = 15 \/ i = 16 \/ i = 17) as Hc by lia.
    destruct Hc as [->|[->|[->|[->| ->]]]]; simpl; eauto.
Qed.

Lemma reg_is_Some (c : cpu) (i : Z) :
  wf_cpu c -> 0 <= i < 18 -> is_Some (reg c i).
Proof. intros. now apply reg_word_is_Some. Qed.

Lemma set_reg_is_Some (c : cpu) (i v : Z) :
  wf_cpu c -> 0 <= i < 18 ->
  exists c', set_reg c i v = Some c' /\ wf_cpu c' /\ memory c' = memory c.
Proof.
  unfold wf_cpu, set_reg, set_reg_word. intros Hlen Hi.
  destruct ((0 <=? i) && (i <? 13)) eqn:E.
  - destruct (decide (Z.to_nat i < length (r (registers c)))%nat) as [|Hn];
      [|lia].
    simpl. eexists; split; [reflexivity|]. simpl.
    now rewrite length_insert.
  - assert (i = 13 \/ i = 14 \/ i = 15 \/ i = 16 \/ i = 17) as Hc by lia.
    destruct Hc as [->|[->|[->|[->| ->]]]]; simpl;
      (eexists; split; [reflexivity|]; simpl; auto).
Qed.

(** Reading back the register just written. *)
Lemma reg_set_reg_same (c c' : cpu) (i v : Z) :
  set_reg c i v = Some c' -> reg c' i = Some v.
Proof.
  unfold set_reg, reg, set_reg_word, reg_word.
  destruct ((0 <=? i) && (i <? 13)) eqn:E.
  - destruct (decide _) as [Hlt|]; simpl; [|discriminate].
    intros [= <-]. simpl. now apply list_lookup_insert_eq.
  - destruct i as [|q|q]; simpl; try discriminate.
    repeat (destruct q as [q|q|]; simpl; try discriminate);
      intros [= <-]; reflexivity.
Qed.

(** ** The condition check of the ARM executor *)

(** C10.  For every state and every ARM instruction whose condition field
    evaluates to false against the current CPSR ([cpu_check_condition]
    returns [0]), [cpu_process_arm_instruction] returns [1] and the state it
    leaves is the state it was given: registers, SP, LR, PC, CPSR, SPSR and
    memory are all unchanged. *)
Theorem arm_condition_false_is_nop (c : cpu) (instruction : Z) :
  cpu_check_condition (cpsr (registers c)) instruction = 0 ->
  cpu_process_arm_instruction c instruction = Some (c, 1).
Proof.
  intros Hcond. unfold cpu_process_arm_instruction.
  rewrite Hcond. cbn [truthy negb Z.eqb]. reflexivity.
Qed.

Lemma arm_condition_false_is_nop_witness :
  cpu_check_condition (cpsr (registers user_state_z_clear)) 0x00810002 = 0 /\
  cpu_process_arm_instruction user_state_z_clear 0x00810002
  = Some (user_state_z_clear, 1).
Proof.
  split; [vm_compute; reflexivity|].
  apply (arm_condition_false_is_nop user_state_z_clear 0x00810002).
  vm_compute; reflexivity.
Defined.

(** The reserved condition [NV] never passes, so such an instruction never
    changes the state. *)
Lemma arm_condition_nv_is_nop (c : cpu) (instruction : Z) :
  Z.land (shr32 instruction 28) 0xF = 0xF ->
  cpu_process_arm_instruction c instruction = Some (c, 1).
Proof.
  intros H. unfold cpu_process_arm_instruction, cpu_check_condition.
  rewrite H. reflexivity.
Qed.

(** ** The execution loop *)

(** C1, as stated, fails: with bit 5 of CPSR set the loop fetches 32 bits
    and hands them to the ARM executor, where the claim has a 16-bit fetch
    for Thumb. *)
Lemma dispatch_t_set_counterexample :
  Z.testbit (cpsr (registers state_after_reset)) 5 = true /\
  cpu_fetch state_after_reset = Some (FetchARM 0xE3A00001) /\
  fetch_with_t_as_thumb state_after_reset = Some (FetchThumb 0x0001) /\
  cpu_step state_after_reset
  = (x ← cpu_process_arm_instruction state_after_reset 0xE3A00001;
     Some (upd x.1 (λ rs, with_pc rs (add32 (pc rs) 4)), 1)).
Proof. split; [|split; [|split]]; vm_compute; reflexivity. Qed.

(** C1, amended.  For every state at the start of a turn of the loop of
    [cpu_run]: if bit 5 of CPSR is 1 the loop fetches a 32-bit word at PC and
    hands it to the ARM executor (advancing PC by 4 unless the executor
    returned 0), and if bit 5 is 0 it fetches a 16-bit word at PC and hands it
    to the Thumb executor (advancing PC by 2 unless the executor returned
    0). *)
Theorem cpu_step_dispatch_by_bit5 (c : cpu) :
  (Z.testbit (cpsr (registers c)) 5 = true ->
   cpu_fetch c = (w ← load_u32 c (pc (registers c)); Some (FetchARM w)) /\
   cpu_step c =
     (w ← load_u32 c (pc (registers c));
      '(c', ok) ← cpu_process_arm_instruction c w;
      Some (if ok =? 0 then (c', 0)
            else (upd c' (λ rs, with_pc rs (add32 (pc rs) 4)), 1)))) /\
  (Z.testbit (cpsr (registers c)) 5 = false ->
   cpu_fetch c = (h ← load_u16 c (pc (registers c)); Some (FetchThumb h)) /\
   cpu_step c =
     (h ← load_u16 c (pc (registers c));
      '(c', ok) ← cpu_process_thumb_instruction c h;
      Some (if ok =? 0 then (c', 0)
            else (upd c' (λ rs, with_pc rs (add32 (pc rs) 2)), 1)))).
Proof.
  unfold cpu_step, cpu_fetch. rewrite truthy_land_bit5.
  split; intros ->; (split; [reflexivity|]).
  - destruct (load_u32 c (pc (registers c))) as [w|]; [|reflexivity].
    cbn [mbind option_bind cpu_dispatch].
    destruct (cpu_process_arm_instruction c w) as [[c' ok]|]; [|reflexivity].
    cbn [mbind option_bind]. unfold truthy. now destruct (ok =? 0).
  - destruct (load_u16 c (pc (registers c))) as [h|]; [|reflexivity].
    cbn [mbind option_bind cpu_dispatch].
    destruct (cpu_process_thumb_instruction c h) as [[c' ok]|]; [|reflexivity].
    cbn [mbind option_bind]. unfold truthy. now destruct (ok =? 0).
Qed.

Lemma cpu_step_dispatch_by_bit5_witness :
  Z.testbit (cpsr (registers state_after_reset)) 5 = true /\
  cpu_step state_after_reset =
    (w ← load_u32 state_after_reset (pc (registers state_after_reset));
     '(c', ok) ← cpu_process_arm_instruction state_after_reset w;
     Some (if ok =? 0 then (c', 0)
           else (upd c' (λ rs, with_pc rs (add32 (pc rs) 4)), 1))).
Proof.
  split; [vm_compute; reflexivity|].
  apply (cpu_step_dispatch_by_bit5 state_after_reset). vm_compute; reflexivity.
Defined.

(** [cpu_run] clears whatever registers it is given. *)
Lemma cpu_reset_registers (c : cpu) :
  registers (cpu_reset c) = mk_registers (replicate 13 0) 0 0 0 0x30 0 /\
  memory (cpu_reset c) = memory c.
Proof. split; reflexivity. Qed.

(** C9, as stated, fails: the entry PC, the entry CPSR and the seeded
    registers of the host do not reach the first step; the first fetch is the
    word at address 0, not the word at the host's PC. *)
Lemma host_entry_state_counterexample :
  (pc (registers host_entry_state) = 0x02000000 /\
   cpsr (registers host_entry_state) = 0x1F /\
   reg host_entry_state 0 = Some 7 /\
   sp (registers host_entry_state) = 0x03007F00 /\
   load_u32 host_entry_state (pc (registers host_entry_state)) = Some 0xE3A00001) /\
  (cpu_fetch (cpu_reset host_entry_state) = Some (FetchARM 0) /\
   pc (registers (cpu_reset host_entry_state)) = 0 /\
   cpsr (registers (cpu_reset host_entry_state)) = 0x30 /\
   reg (cpu_reset host_entry_state) 0 = Some 0 /\
   sp (registers (cpu_reset host_entry_state)) = 0) /\
  cpu_run 1 host_entry_state = Some (OutOfFuel
    (mk_cpu (mk_registers (replicate 13 0) 0 0 4 0x30 0) (memory host_entry_state))).
Proof.
  split; [|split];
    [ repeat apply conj; vm_compute; reflexivity
    | repeat apply conj; vm_compute; reflexivity
    | vm_compute; reflexivity ].
Qed.

(** C9, amended.  [cpu_run] does not start from a state provided by the
    host: whatever registers it is given, it clears all of them (r0-r12, SP,
    LR, PC, SPSR become 0), sets CPSR to 0x30 (User mode with bit 5 set, which
    the loop reads as ARM state) and keeps only the memory; the first
    instruction is the 32-bit word fetched at address 0, handed to the ARM
    executor. *)
Theorem cpu_run_starts_from_reset (fuel : nat) (c : cpu) :
  cpu_run fuel c
  = cpu_loop fuel (mk_cpu (mk_registers (replicate 13 0) 0 0 0 0x30 0) (memory c)) /\
  cpu_fetch (cpu_reset c) = (w ← load_u32 c 0; Some (FetchARM w)) /\
  cpu_run (S fuel) c =
    (w ← load_u32 c 0;
     '(c', ok) ← cpu_dispatch (cpu_reset c) (FetchARM w);
     if negb (truthy ok) then Some (Returned c' 1)
     else if pc (registers c') =? 0xFFFFFFFF then Some (Returned c' 0)
     else cpu_loop fuel c').
Proof.
  split; [reflexivity|]. split.
  - unfold cpu_fetch, load_u32. cbn [cpu_reset registers cpsr pc upd with_registers
      with_cpsr memory]. change (truthy _) with true. cbv iota.
    destruct (in_bounds 0 4); reflexivity.
  - unfold cpu_run. cbn [cpu_loop].
    change (pc (registers (cpu_reset c)) <? sizeof_memory_t) with true. cbv iota.
    unfold cpu_step, cpu_fetch.
    change (truthy (Z.land (cpsr (registers (cpu_reset c))) 32)) with true. cbv iota.
    change (pc (registers (cpu_reset c))) with 0.
    change (load_u32 (cpu_reset c) 0) with (load_u32 c 0).
    destruct (load_u32 c 0) as [w|]; reflexivity.
Qed.

(** ** Data-processing scenarios *)

(** C2.  [ADDS r0, r1, r2] (0xE0910002) with r1 = 0x7FFFFFFF, r2 = 1 and
    CPSR = 0x10 should leave r0 = 0x80000000 with N=1, Z=0, C=0, V=1.  The
    code leaves r0 = 0xFFFFFFFE with N=0, Z=0, C=1, V=0, whatever the other
    registers and the memory hold: the second operand is read from the
    register whose number is the low byte of r2 (that is r1), N comes from the
    unsigned test [r[rd] < 0], C from [r[rn] >= src2], and V from bit 0 of a
    value in which only bit 31 can be set. *)
Theorem adds_scenario_as_executed
    (g0 : Z) (rest : list Z) (sp0 lr0 pc0 spsr0 : Z) (m : Z -> Z) :
  let c := mk_cpu (mk_registers (g0 :: 0x7FFFFFFF :: 0x00000001 :: rest)
                                sp0 lr0 pc0 0x00000010 spsr0) m in
  let c' := mk_cpu (mk_registers (0xFFFFFFFE :: 0x7FFFFFFF :: 0x00000001 :: rest)
                                 sp0 lr0 pc0 0x20000010 spsr0) m in
  cpu_process_arm_instruction c 0xE0910002 = Some (c', 1) /\
  reg c' 0 = Some 0xFFFFFFFE /\
  nzcv c' = (0, 0, 1, 0).
Proof.
  intros c c'. subst c c'. split; [|split]; vm_compute; reflexivity.
Qed.

(** C3.  [SUBS r0, r1, #1] (0xE2510001) with a = r1 = 0x80000000 and b = 1:
    a and b differ in sign and the result 0x7FFFFFFF differs in sign from a,
    so V should be 1.  The code leaves V = 0 (with C = 1 and Z = 0 as
    claimed), whatever the other registers and the memory hold: the overflow
    expression keeps only bit 31 and [set_cpsr_overflow] keeps only bit 0. *)
Theorem subs_overflow_as_executed
    (g0 : Z) (rest : list Z) (sp0 lr0 pc0 spsr0 : Z) (m : Z -> Z) :
  let c := mk_cpu (mk_registers (g0 :: 0x80000000 :: rest)
                                sp0 lr0 pc0 0x00000010 spsr0) m in
  let c' := mk_cpu (mk_registers (0x7FFFFFFF :: 0x80000000 :: rest)
                                 sp0 lr0 pc0 0x20000010 spsr0) m in
  cpu_process_arm_instruction c 0xE2510001 = Some (c', 1) /\
  nzcv c' = (0, 0, 1, 0) /\
  Z.testbit 0x80000000 31 <> Z.testbit 0x00000001 31 /\
  Z.testbit 0x7FFFFFFF 31 <> Z.testbit 0x80000000 31.
Proof.
  intros c c'. subst c c'.
  split; [|split; [|split]]; vm_compute; first [reflexivity | discriminate].
Qed.

(** Behind the V = 0 of the two scenarios above: every data-processing opcode
    hands [set_cpsr_overflow] a value masked with 0x80000000, and the setter
    keeps bit 0 of what it is given, so the flag is cleared whatever the
    operands are. *)
Lemma overflow_flag_always_cleared (rs : cpu_registers) (x : Z) :
  Z.testbit (cpsr (set_cpsr_overflow rs (Z.land x 0x80000000))) 28 = false.
Proof.
  unfold set_cpsr_overflow. cbn [cpsr with_cpsr].
  rewrite <- Z.land_assoc. change (Z.land 0x80000000 1) with 0.
  rewrite Z.land_0_r. change (shl32 0 28) with 0. rewrite Z.lor_0_r.
  rewrite Z.land_spec. apply andb_false_r.
Qed.

(** C7.  Rotate right by 4 of the value 1 is 0x10000000.  The code rotates
    left: [MOVS r0, r1, ROR #4] (0xE1B00261) with r1 = 1 leaves r0 = 0x10,
    and Thumb [ROR r0, r1] (0x41C8) with r0 = 1, r1 = 4 leaves r0 = 0x10
    (and, running on into the next case of the switch, stores r0 at
    r1 + 28). *)
Theorem ror_as_executed
    (g0 : Z) (rest : list Z) (sp0 lr0 pc0 spsr0 : Z) (m : Z -> Z) :
  rotr32 1 4 = 0x10000000 /\
  rotl32 1 4 = 0x10 /\
  (let c := mk_cpu (mk_registers (g0 :: 1 :: rest) sp0 lr0 pc0 0x10 spsr0) m in
   let c' := mk_cpu (mk_registers (0x10 :: 1 :: rest) sp0 lr0 pc0 0x10 spsr0) m in
   cpu_process_arm_instruction c 0xE1B00261 = Some (c', 1)) /\
  (let c := mk_cpu (mk_registers (1 :: 4 :: rest) sp0 lr0 pc0 0x10 spsr0) m in
   option_map (λ x, (registers x.1, load_u32 x.1 32, x.2))
              (cpu_process_thumb_instruction c 0x41C8)
   = Some (mk_registers (0x10 :: 4 :: rest) sp0 lr0 pc0 0x10 spsr0,
           Some 0x10, 1)).
Proof.
  split; [|split; [|split]]; vm_compute; reflexivity.
Qed.

(** ** Branch and exchange *)

(** Evaluates the field extractions of a literal instruction word. *)
Ltac eval_fields :=
  repeat match goal with
  | |- context [Z.land (shr32 ?x ?n) ?m] =>
      let t := constr:(Z.land (shr32 x n) m) in
      let v := eval vm_compute in t in
      progress change t with v
  end.

(** [BX r0] (0xE12FFF10) passes the condition check and reaches the
    branch-and-exchange block. *)
Lemma arm_bx_decoded (c : cpu) :
  cpu_process_arm_instruction c 0xE12FFF10 = arm_bx c 0xE12FFF10.
Proof.
  unfold cpu_process_arm_instruction.
  change (cpu_check_condition (cpsr (registers c)) 0xE12FFF10) with 1.
  eval_fields.
  change (Z.land 0xE12FFF10 0xFFFFFF0 =? 0x12FFF10) with true.
  reflexivity.
Qed.

Lemma testbit5_lor_0x20 (x : Z) : Z.testbit (Z.lor x 0x20) 5 = true.
Proof. rewrite Z.lor_spec. apply orb_true_r. Qed.

Lemma testbit5_land_not_0x20 (x : Z) : Z.testbit (Z.land x (not32 0x20)) 5 = false.
Proof. rewrite Z.land_spec. apply andb_false_r. Qed.

(** C4, as stated, fails.  With r0 = 0x08000101 the step ends with
    PC = 0x08000102 and bit 5 of CPSR clear (the claim: PC = 0x08000100,
    T = 1); with r0 = 0x08000100 it ends with PC = 0x08000100 and bit 5 set
    (the claim: T = 0). *)
Lemma bx_interworking_counterexample :
  cpu_fetch (bx_state 0x08000101) = Some (FetchARM 0xE12FFF10) /\
  option_map (λ x, (pc (registers x.1), Z.testbit (cpsr (registers x.1)) 5, x.2))
             (cpu_step (bx_state 0x08000101))
  = Some (0x08000102, false, 1) /\
  cpu_fetch (bx_state 0x08000100) = Some (FetchARM 0xE12FFF10) /\
  option_map (λ x, (pc (registers x.1), Z.testbit (cpsr (registers x.1)) 5, x.2))
             (cpu_step (bx_state 0x08000100))
  = Some (0x08000100, true, 1).
Proof. split; [|split; [|split]]; vm_compute; reflexivity. Qed.

(** A step that fetched [BX r0] is the branch-and-exchange block followed
    by the loop's [pc += 4]. *)
Lemma arm_bx_step (c : cpu) (target : Z) :
  cpu_fetch c = Some (FetchARM 0xE12FFF10) ->
  reg c 0 = Some target ->
  cpu_step c =
    '(c', ok) ← arm_bx c 0xE12FFF10;
    Some (upd c' (λ rs, with_pc rs (add32 (pc rs) 4)), 1).
Proof.
  intros Hfetch Hreg. unfold cpu_step. rewrite Hfetch.
  cbn [mbind option_bind cpu_dispatch]. rewrite arm_bx_decoded.
  unfold arm_bx. eval_fields. rewrite Hreg. cbn [mbind option_bind].
  destruct (truthy (Z.land target 1)); reflexivity.
Qed.

(** C4, amended.  For every state whose step fetches the ARM instruction
    [BX r0]: with r0 = 0x08000100 the step ends with PC = 0x08000100 and
    bit 5 of CPSR set, which is how this code marks ARM state (the loop hands
    the next word to the ARM executor when bit 5 is 1), everything else
    unchanged; with r0 = 0x08000101 the step ends with bit 5 of CPSR clear,
    which is how this code marks Thumb state, and nothing but PC and CPSR
    changed. *)
Theorem bx_sets_state_bit (c : cpu) (target : Z) :
  cpu_fetch c = Some (FetchARM 0xE12FFF10) ->
  reg c 0 = Some target ->
  (target = 0x08000100 ->
   cpu_step c = Some (upd c (λ rs, with_cpsr (with_pc rs 0x08000100)
                                             (Z.lor (cpsr rs) 0x20)), 1) /\
   Z.testbit (Z.lor (cpsr (registers c)) 0x20) 5 = true) /\
  (target = 0x08000101 ->
   exists pc',
     cpu_step c = Some (upd c (λ rs, with_cpsr (with_pc rs pc')
                                               (Z.land (cpsr rs) (not32 0x20))), 1) /\
     Z.testbit (Z.land (cpsr (registers c)) (not32 0x20)) 5 = false).
Proof.
  intros Hfetch Hreg. rewrite (arm_bx_step c target Hfetch Hreg).
  unfold arm_bx. eval_fields. rewrite Hreg. cbn [mbind option_bind].
  split; intros ->.
  - split; [|apply testbit5_lor_0x20]. reflexivity.
  - eexists. split; [|apply testbit5_land_not_0x20]. reflexivity.
Qed.

Lemma bx_sets_state_bit_witness :
  cpu_step (bx_state 0x08000100)
  = Some (upd (bx_state 0x08000100)
              (λ rs, with_cpsr (with_pc rs 0x08000100) (Z.lor (cpsr rs) 0x20)), 1) /\
  Z.testbit (Z.lor (cpsr (registers (bx_state 0x08000100))) 0x20) 5 = true.
Proof.
  apply (bx_sets_state_bit (bx_state 0x08000100) 0x08000100);
    vm_compute; reflexivity.
Defined.

(** The Thumb encoding [BX r0] (0x4700) sits in case [0b010], which runs on
    into the store of case [0b011]: with r0 = 0x08000101 or 0x08000100 that
    store, at r0 + 112, is outside the memory buffer. *)
Lemma thumb_bx_runs_into_store
    (rest : list Z) (sp0 lr0 pc0 cpsr0 spsr0 : Z) (m : Z -> Z) :
  cpu_process_thumb_instruction
    (mk_cpu (mk_registers (0x08000101 :: rest) sp0 lr0 pc0 cpsr0 spsr0) m) 0x4700
  = None /\
  cpu_process_thumb_instruction
    (mk_cpu (mk_registers (0x08000100 :: rest) sp0 lr0 pc0 cpsr0 spsr0) m) 0x4700
  = None.
Proof. split; vm_compute; reflexivity. Qed.

(** ** Ranges of decoded fields *)

Lemma land_ones_range (x n : Z) : 0 <= n -> 0 <= Z.land x (Z.ones n) < 2 ^ n.
Proof. intros Hn. rewrite Z.land_ones by lia. apply Z.mod_pos_bound. lia. Qed.

Lemma land_0xF_range (x : Z) : 0 <= Z.land x 0xF < 16.
Proof. apply (land_ones_range x 4). lia. Qed.

Lemma land_0x3_range (x : Z) : 0 <= Z.land x 0x3 < 4.
Proof. apply (land_ones_range x 2). lia. Qed.

Lemma u8_range (x : Z) : 0 <= u8 x < 256.
Proof. apply Z.mod_pos_bound. lia. Qed.

(** ** Word loads *)

Lemma testbit_above (a n k : Z) : 0 <= a < 2 ^ n -> n <= k -> Z.testbit a k = false.
Proof.
  intros Ha Hk. destruct (Z.eq_dec a 0) as [->|Hne]; [apply Z.bits_0|].
  apply Z.bits_above_log2; [lia|].
  assert (0 <= n) by (destruct (Z.lt_ge_cases n 0); [rewrite Z.pow_neg_r in Ha; lia|lia]).
  assert (Z.log2 a < n) by (apply Z.log2_lt_pow2; lia). lia.
Qed.

Lemma lor_shiftl_add (a b n : Z) :
  0 <= n -> 0 <= a < 2 ^ n -> Z.lor a (Z.shiftl b n) = a + 2 ^ n * b.
Proof.
  intros Hn Ha.
  assert (Z.land a (Z.shiftl b n) = 0) as Hdisj.
  { apply Z.bits_inj'. intros k Hk. rewrite Z.land_spec, Z.bits_0.
    destruct (Z.lt_ge_cases k n).
    - rewrite Z.shiftl_spec_low by lia. apply andb_false_r.
    - now rewrite (testbit_above a n k). }
  rewrite <- Z.lxor_lor, <- Z.add_nocarry_lxor by exact Hdisj.
  rewrite Z.shiftl_mul_pow2 by lia. lia.
Qed.

Lemma byte_at_range (m : Z -> Z) (a : Z) : 0 <= byte_at m a < 256.
Proof. apply Z.mod_pos_bound. lia. Qed.

(** A word load inside the buffer returns the little-endian word at the
    address. *)
Lemma load_u32_le_word (c : cpu) (a : Z) :
  load_u32 c a = if in_bounds a 4 then Some (le_word (memory c) a) else None.
Proof.
  unfold load_u32, le_word. destruct (in_bounds a 4); [|reflexivity]. f_equal.
  pose proof (byte_at_range (memory c) a).
  pose proof (byte_at_range (memory c) (a + 1)).
  pose proof (byte_at_range (memory c) (a + 2)).
  pose proof (byte_at_range (memory c) (a + 3)).
  rewrite (lor_shiftl_add (byte_at (memory c) a) _ 8) by lia.
  replace (Z.shiftl (byte_at (memory c) (a + 3)) 24)
    with (Z.shiftl (Z.shiftl (byte_at (memory c) (a + 3)) 8) 16)
    by (rewrite Z.shiftl_shiftl by lia; reflexivity).
  rewrite <- Z.shiftl_lor.
  rewrite (lor_shiftl_add (byte_at (memory c) (a + 2)) _ 8) by lia.
  rewrite lor_shiftl_add; [lia|lia|]. lia.
Qed.

(** C6, as stated, fails: the aligned word at 0x02000000 rotated right by 8
    is 0x11443322, but [LDR r0, [r1]] (0xE5910000) leaves r0 = 0x55443322,
    the four bytes starting at 0x02000001. *)
Lemma ldr_unaligned_counterexample :
  load_u32 ldr_state (Z.land 0x02000001 0xFFFFFFFC) = Some 0x44332211 /\
  rotr32 0x44332211 (8 * Z.land 0x02000001 3) = 0x11443322 /\
  option_map (λ x, (reg x.1 0, x.2)) (cpu_process_arm_instruction ldr_state 0xE5910000)
  = Some (Some 0x55443322, 1).
Proof. split; [|split]; vm_compute; reflexivity. Qed.

(** C6, amended.  An ARM LDR of a word (immediate offset, pre-indexed, no
    write-back, base other than r15) from an address inside the memory buffer
    loads into Rd the little-endian word made of the four bytes at [address],
    [address + 1], [address + 2], [address + 3], whatever the alignment of
    [address]; no rotation takes place, and nothing else changes.  With bytes
    11 22 33 44 at 0x02000000, byte 55 at 0x02000004 and r1 = 0x02000001,
    [LDR r0, [r1]] yields r0 = 0x55443322. *)
Theorem ldr_word_reads_four_bytes (c : cpu) (instruction base : Z) :
  let u := Z.land (shr32 instruction 23) 0x1 in
  let rn := Z.land (shr32 instruction 16) 0xF in
  let rd := Z.land (shr32 instruction 12) 0xF in
  let address := step_address u base (Z.land instruction 0xFFF) in
  wf_cpu c ->
  truthy (cpu_check_condition (cpsr (registers c)) instruction) = true ->
  Z.land (shr32 instruction 26) 0x3 = 1 ->
  Z.land (shr32 instruction 25) 0x1 = 0 ->
  Z.land (shr32 instruction 24) 0x1 = 1 ->
  Z.land (shr32 instruction 22) 0x1 = 0 ->
  Z.land (shr32 instruction 21) 0x1 = 0 ->
  Z.land (shr32 instruction 20) 0x1 = 1 ->
  rn <> 15 ->
  reg c rn = Some base ->
  in_bounds address 4 = true ->
  let word := le_word (memory c) address in
  exists c',
    cpu_process_arm_instruction c instruction = Some (c', 1) /\
    set_reg c rd word = Some c' /\
    reg c' rd = Some word.
Proof.
  intros u rn rd address Hwf Hcond Htype Hi Hp Hb Hw Hl Hrn Hbase Hin word.
  unfold cpu_process_arm_instruction. rewrite Hcond. cbn [negb].
  cbv zeta. rewrite Htype. cbv beta iota.
  unfold arm_single_data_transfer. cbv zeta.
  rewrite Hi, Hp, Hb, Hw, Hl.
  fold u rn rd. rewrite Hbase.
  change (0 =? 1) with false. change (1 =? 1) with true. change (1 =? 0) with false.
  cbn [mbind option_bind orb].
  destruct (Z.eqb_spec rn 15) as [|_]; [contradiction|].
  fold address. rewrite load_u32_le_word, Hin. cbn [mbind option_bind].
  fold word. destruct (set_reg_is_Some c rd word Hwf) as (c' & Hset & _).
  { pose proof (land_0xF_range (shr32 instruction 12)). unfold rd. lia. }
  exists c'. rewrite Hset. cbn [mbind option_bind].
  split; [reflexivity|]. split; [reflexivity|].
  eapply reg_set_reg_same; eauto.
Qed.

Lemma ldr_word_reads_four_bytes_witness :
  exists c',
    cpu_process_arm_instruction ldr_state 0xE5910000 = Some (c', 1) /\
    reg c' 0 = Some 0x55443322.
Proof.
  destruct (ldr_word_reads_four_bytes ldr_state 0xE5910000 0x02000001)
    as (c' & Hrun & _ & Hreg);
    try (vm_compute; first [reflexivity | discriminate]).
  exists c'. split; [exact Hrun | exact Hreg].
Defined.

(** ** MSR in User mode *)

Lemma arm_shift_amount_is_Some (c : cpu) (instruction : Z) :
  wf_cpu c -> is_Some (arm_shift_amount c instruction).
Proof.
  intros Hwf. unfold arm_shift_amount.
  destruct (truthy _); [|eauto].
  destruct (reg_is_Some c (Z.land (shr32 instruction 8) 0xF) Hwf) as [w Hw].
  { pose proof (land_0xF_range (shr32 instruction 8)). lia. }
  rewrite Hw. cbn [mbind option_bind]. eauto.
Qed.

(** With the S bit clear the operand decoder leaves the state alone, and it
    succeeds as long as the byte it uses as a register index stays inside the
    register structure. *)
Lemma dp_register_operand_s_clear (c : cpu) (instruction rd v : Z) :
  wf_cpu c ->
  reg c (Z.land instruction 0xF) = Some v ->
  u8 v < 18 ->
  exists src2, dp_register_operand c instruction 0 rd = Some (src2, c).
Proof.
  intros Hwf Hv Hidx. unfold dp_register_operand.
  rewrite Hv. cbn [mbind option_bind].
  destruct (arm_shift_amount_is_Some c instruction Hwf) as [sa ->].
  cbn [mbind option_bind].
  destruct (reg_is_Some c (u8 v) Hwf) as [x Hx].
  { pose proof (u8_range v). lia. }
  rewrite Hx. cbn [mbind option_bind truthy Z.eqb negb andb].
  pose proof (land_0x3_range (shr32 instruction 5)) as Hty.
  assert (Z.land (shr32 instruction 5) 3 = 0 \/ Z.land (shr32 instruction 5) 3 = 1 \/
          Z.land (shr32 instruction 5) 3 = 2 \/ Z.land (shr32 instruction 5) 3 = 3)
    as [-> | [-> | [-> | ->]]] by lia; cbv beta iota.
  - destruct (sa >? 32); eauto.
  - destruct (sa >? 32); eauto.
  - destruct (sa >=? 32); eauto.
  - destruct (sa =? 0); eauto.
Qed.

Lemma testbit_low_mask (k : Z) : 0 <= k -> Z.testbit 0x0FFFFFFF k = (k <? 28).
Proof.
  intros Hk. change 0x0FFFFFFF with (Z.ones 28).
  destruct (Z.ltb_spec k 28).
  - apply Z.ones_spec_low. lia.
  - apply Z.ones_spec_high. lia.
Qed.

Lemma testbit_flag_mask (k : Z) :
  0 <= k -> Z.testbit 0xF0000000 k = (28 <=? k) && (k <? 32).
Proof.
  intros Hk. change 0xF0000000 with (Z.shiftl (Z.ones 4) 28).
  destruct (Z.leb_spec 28 k).
  - rewrite Z.shiftl_spec by lia. cbn [andb].
    destruct (Z.ltb_spec k 32).
    + apply Z.ones_spec_low. lia.
    + apply Z.ones_spec_high. lia.
  - rewrite Z.shiftl_spec_low by lia. reflexivity.
Qed.

(** C8, as stated, fails: [MSR CPSR, r0] (0xE129F000) in User mode with
    r0 = 0xFF000000 and CPSR = 0x10 leaves CPSR = 0xF0000010; bits 27..24 are
    not taken from the operand, where the claim has CPSR = 0xFF000010. *)
Lemma msr_user_mode_counterexample :
  get_cpsr_mode (cpsr (registers msr_state)) = ARM_MODE_USER /\
  option_map (λ x, (cpsr (registers x.1), x.2))
             (cpu_process_arm_instruction msr_state 0xE129F000)
  = Some (0xF0000010, 1) /\
  cpsr_with_flag_field (cpsr (registers msr_state)) 0xFF000000 = 0xFF000010.
Proof. split; [|split]; vm_compute; reflexivity. Qed.

(** With [reg] for the reader the variants are the executor itself. *)
Lemma cpu_process_arm_instruction_with_reg :
  cpu_process_arm_instruction_with reg = cpu_process_arm_instruction.
Proof. reflexivity. Qed.

Lemma reg_beyond_of_reg (beyond : Z -> Z) (c : cpu) (i w : Z) :
  reg c i = Some w -> reg_beyond beyond c i = Some w.
Proof.
  unfold reg_beyond. destruct (Z.leb_spec 18 i) as [Hi|_]; [|auto].
  unfold reg, reg_word.
  replace ((0 <=? i) && (i <? 13)) with false
    by (symmetry; apply andb_false_iff; right; apply Z.ltb_ge; lia).
  destruct i as [|q|q]; try discriminate.
  do 5 (try destruct q as [q|q|]); try discriminate; lia.
Qed.

(** Where the executor has a result, a read past the structure did not
    happen, and the variant has the same result whatever lies there. *)
Lemma cpu_process_arm_instruction_with_beyond
    (beyond : Z -> Z) (c : cpu) (instruction : Z) (res : cpu * Z) :
  cpu_process_arm_instruction c instruction = Some res ->
  cpu_process_arm_instruction_with (reg_beyond beyond) c instruction = Some res.
Proof.
  assert (forall (A : Type) (k : Z) (f : Z -> option A) (x : A),
            (v ← reg c k; f v) = Some x ->
            (v ← reg_beyond beyond c k; f v) = Some x) as Hread.
  { intros A k f x H. destruct (reg c k) as [w|] eqn:E; [|discriminate H].
    rewrite (reg_beyond_of_reg _ _ _ _ E). exact H. }
  unfold cpu_process_arm_instruction, cpu_process_arm_instruction_with.
  cbv zeta. destruct (negb _); [auto|].
  destruct (Z.land (shr32 instruction 26) 3) as [|[[|q|]|[|q|]|]|]; auto.
  - (* data processing *)
    destruct (_ =? 0x12FFF10); [auto|]. destruct (_ || _); [|auto].
    unfold arm_data_processing, arm_data_processing_with. cbv zeta.
    destruct (Z.land (shr32 instruction 25) 1 =? 0); [|auto].
    destruct (dp_register_operand c instruction _ _) as [x|] eqn:E;
      cbn [mbind option_bind]; [|discriminate].
    assert (dp_register_operand_with (reg_beyond beyond) c instruction
              (Z.land (shr32 instruction 20) 1) (Z.land (shr32 instruction 12) 15)
            = Some x) as ->; [|auto].
    revert E. unfold dp_register_operand, dp_register_operand_with. cbv zeta.
    destruct (reg c (Z.land instruction 15)) as [w|]; [|discriminate].
    cbn [mbind option_bind].
    destruct (arm_shift_amount c instruction) as [sa|]; [|discriminate].
    cbn [mbind option_bind].
    destruct (Z.land (shr32 instruction 5) 3) as [|[[|q|]|[|q|]|]|];
      repeat match goal with
      | |- (if ?b then _ else _) = _ -> _ => destruct b
      end; auto.
  - (* single data transfer *)
    unfold arm_single_data_transfer, arm_single_data_transfer_with. cbv zeta.
    destruct (Z.land (shr32 instruction 25) 1 =? 1); [|auto].
    destruct (sdt_register_offset c instruction) as [x|] eqn:E;
      cbn [mbind option_bind]; [|discriminate].
    assert (sdt_register_offset_with (reg_beyond beyond) c instruction = Some x)
      as ->; [|auto].
    revert E. unfold sdt_register_offset, sdt_register_offset_with. cbv zeta.
    destruct (reg c (Z.land instruction 15)) as [w|]; [|discriminate].
    cbn [mbind option_bind].
    destruct (arm_shift_amount c instruction) as [sa|]; [|discriminate].
    cbn [mbind option_bind].
    destruct (Z.land (shr32 instruction 5) 3) as [|[[|q|]|[|q|]|]|];
      repeat match goal with
      | |- (if ?b then _ else _) = _ -> _ => destruct b
      end; auto.
Qed.

Lemma reg_beyond_is_Some (beyond : Z -> Z) (c : cpu) (i : Z) :
  wf_cpu c -> 0 <= i -> is_Some (reg_beyond beyond c i).
Proof.
  intros Hwf Hi. unfold reg_beyond.
  destruct (Z.leb_spec 18 i); [eauto|]. apply reg_is_Some; [exact Hwf|lia].
Qed.

(** With the S bit clear the operand decoder leaves the state alone, and it
    comes back for every value of the operand register. *)
Lemma dp_register_operand_with_s_clear
    (beyond : Z -> Z) (c : cpu) (instruction rd v : Z) :
  wf_cpu c ->
  reg c (Z.land instruction 0xF) = Some v ->
  exists src2,
    dp_register_operand_with (reg_beyond beyond) c instruction 0 rd
    = Some (src2, c).
Proof.
  intros Hwf Hv. unfold dp_register_operand_with.
  rewrite Hv. cbn [mbind option_bind].
  destruct (arm_shift_amount_is_Some c instruction Hwf) as [sa ->].
  cbn [mbind option_bind].
  destruct (reg_beyond_is_Some beyond c (u8 v) Hwf) as [x Hx].
  { pose proof (u8_range v). lia. }
  rewrite Hx. cbn [mbind option_bind truthy Z.eqb negb andb].
  pose proof (land_0x3_range (shr32 instruction 5)) as Hty.
  assert (Z.land (shr32 instruction 5) 3 = 0 \/ Z.land (shr32 instruction 5) 3 = 1 \/
          Z.land (shr32 instruction 5) 3 = 2 \/ Z.land (shr32 instruction 5) 3 = 3)
    as [-> | [-> | [-> | ->]]] by lia; cbv beta iota.
  - destruct (sa >? 32); eauto.
  - destruct (sa >? 32); eauto.
  - destruct (sa >=? 32); eauto.
  - destruct (sa =? 0); eauto.
Qed.

(** C8, amended.  When an MSR targeting CPSR with a register source operand
    executes in User mode, only the condition flags (bits 31..28) of CPSR
    are replaced by the corresponding bits of the source operand; bits 27..0
    of CPSR, which include the control, mode and T bits, are unchanged.
    This holds for every value [v] of the operand: where its low byte sends
    the operand decoder past the register structure, it holds whatever word
    [beyond] the decoder finds there, and wherever
    [cpu_process_arm_instruction] has a result, it is this one.  The rest of
    the state is unchanged too. *)
Theorem msr_user_mode_writes_flags_only
    (beyond : Z -> Z) (c : cpu) (instruction v : Z) :
  let old := cpsr (registers c) in
  let new := Z.lor (Z.land old 0x0FFFFFFF) (Z.land v 0xF0000000) in
  wf_cpu c ->
  truthy (cpu_check_condition old instruction) = true ->
  Z.land (shr32 instruction 26) 0x3 = 0 ->
  Z.land instruction 0xFFFFFF0 <> 0x12FFF10 ->
  Z.land (shr32 instruction 25) 0x1 = 0 ->
  Z.land (shr32 instruction 7) 0x1 = 0 ->
  Z.land (shr32 instruction 21) 0xF = 9 ->
  Z.land (shr32 instruction 20) 0x1 = 0 ->
  Z.land (shr32 instruction 22) 0x1 = 0 ->
  get_cpsr_mode old = ARM_MODE_USER ->
  reg c (Z.land instruction 0xF) = Some v ->
  cpu_process_arm_instruction_with (reg_beyond beyond) c instruction
  = Some (upd c (λ rs, with_cpsr rs new), 1) /\
  (forall res,
     cpu_process_arm_instruction c instruction = Some res ->
     res = (upd c (λ rs, with_cpsr rs new), 1)) /\
  (forall k, 0 <= k < 28 -> Z.testbit new k = Z.testbit old k) /\
  (forall k, 28 <= k < 32 -> Z.testbit new k = Z.testbit v k).
Proof.
  intros old new Hwf Hcond Htype Hbx Hi Hb7 Hop Hs Hpd Hmode Hv.
  assert (cpu_process_arm_instruction_with (reg_beyond beyond) c instruction
          = Some (upd c (λ rs, with_cpsr rs new), 1)) as Hrun;
    [|split; [exact Hrun|split; [|split]]].
  - unfold cpu_process_arm_instruction_with. fold old. rewrite Hcond. cbn [negb].
    cbv zeta. rewrite Htype. cbv beta iota.
    destruct (Z.eqb_spec (Z.land instruction 0xFFFFFF0) 0x12FFF10) as [|_];
      [contradiction|].
    rewrite Hi, Hb7. change ((0 =? 1) || (0 =? 0)) with true. cbv iota.
    unfold arm_data_processing_with. cbv zeta. rewrite Hop, Hs.
    change (0 =? 0) with true. cbv iota.
    destruct (dp_register_operand_with_s_clear beyond c instruction
                (Z.land (shr32 instruction 12) 15) v Hwf Hv) as [src2 ->].
    cbn [mbind option_bind]. unfold dp_execute. cbv beta iota zeta.
    cbn [truthy Z.eqb negb]. unfold arm_msr. cbv zeta. rewrite Hpd.
    change (0 =? 0) with true. cbv iota. fold old. rewrite Hmode.
    change (ARM_MODE_USER =? ARM_MODE_USER) with true. cbv iota.
    rewrite Hv. reflexivity.
  - intros res H.
    apply (cpu_process_arm_instruction_with_beyond beyond) in H.
    rewrite Hrun in H. symmetry. exact (Some_inj _ _ H).
  - intros k Hk. unfold new.
    rewrite Z.lor_spec, !Z.land_spec, testbit_low_mask, testbit_flag_mask by lia.
    replace (k <? 28) with true by (symmetry; apply Z.ltb_lt; lia).
    replace (28 <=? k) with false by (symmetry; apply Z.leb_gt; lia).
    cbn [andb]. now rewrite andb_true_r, andb_false_r, orb_false_r.
  - intros k Hk. unfold new.
    rewrite Z.lor_spec, !Z.land_spec, testbit_low_mask, testbit_flag_mask by lia.
    replace (k <? 28) with false by (symmetry; apply Z.ltb_ge; lia).
    replace (28 <=? k) with true by (symmetry; apply Z.leb_le; lia).
    replace (k <? 32) with true by (symmetry; apply Z.ltb_lt; lia).
    cbn [andb]. now rewrite andb_true_r, andb_false_r.
Qed.

Lemma msr_user_mode_writes_flags_only_witness :
  reg msr_control_state 0 = Some 0xFF0000C0 /\
  cpu_process_arm_instruction_with (reg_beyond (λ _, 0)) msr_control_state
                                   0xE129F000
  = Some (upd msr_control_state (λ rs, with_cpsr rs 0xF0000010), 1).
Proof.
  split; [vm_compute; reflexivity|].
  refine (proj1 (msr_user_mode_writes_flags_only (λ _, 0) msr_control_state
                   0xE129F000 0xFF0000C0 _ _ _ _ _ _ _ _ _ _ _));
    vm_compute; first [reflexivity | discriminate].
Defined.

(** ** Block data transfer *)

Lemma sizeof_memory_t_value : sizeof_memory_t = 101141502.
Proof. reflexivity. Qed.

Lemma in_bounds_spec (a n : Z) :
  in_bounds a n = true <-> 0 <= a /\ a + n <= 101141502.
Proof.
  unfold in_bounds. rewrite sizeof_memory_t_value, andb_true_iff.
  rewrite Z.leb_le, Z.leb_le. reflexivity.
Qed.

Lemma load_u32_in_bounds (c : cpu) (a v : Z) :
  load_u32 c a = Some v -> in_bounds a 4 = true.
Proof. unfold load_u32. now destruct (in_bounds a 4). Qed.

Lemma store_u32_in_bounds (c c' : cpu) (a v : Z) :
  store_u32 c a v = Some c' -> in_bounds a 4 = true.
Proof. unfold store_u32. now destruct (in_bounds a 4). Qed.

(** Inside the buffer the next address in the direction of the transfer does
    not wrap around. *)
Lemma step_address_before (u a : Z) :
  in_bounds a 4 = true -> in_bounds (step_address u a 4) 4 = true ->
  before u a (step_address u a 4).
Proof.
  rewrite !in_bounds_spec. unfold before, step_address, add32, sub32, u32.
  destruct (u =? 1); intros Ha Hs; Z.div_mod_to_equations; lia.
Qed.

Lemma before_trans (u a b d : Z) : before u a b -> before u b d -> before u a d.
Proof. unfold before. destruct (u =? 1); lia. Qed.

Section BlockTransfer.
Variables p u s l register_list : Z.
Hypothesis Hp : p = 0 \/ p = 1.

Lemma bdt_turn_listed (c : cpu) (address : Z) (done : list (Z * Z)) (i : Z)
    (st' : bdt_state) :
  listed register_list i = true ->
  bdt_turn p u s l register_list (c, address, done) i = Some st' ->
  in_bounds (next_slot p u address) 4 = true /\
  exists c',
    st' = (c', (if p =? 0 then step_address u (next_slot p u address) 4
                else next_slot p u address),
           done ++ [(i, next_slot p u address)]).
Proof.
  unfold listed, bdt_turn, next_slot. intros -> H.
  destruct (l =? 1).
  - destruct (load_u32 c _) as [v|] eqn:Hload; [|discriminate].
    cbn [mbind option_bind] in H.
    destruct (set_reg c i v) as [c1|]; [|discriminate].
    cbn [mbind option_bind] in H. injection H as <-.
    split; [eapply load_u32_in_bounds; eauto|]. eauto.
  - destruct (reg c i) as [v|]; [|discriminate].
    cbn [mbind option_bind] in H.
    destruct (store_u32 c _ v) as [c1|] eqn:Hstore; [|discriminate].
    cbn [mbind option_bind] in H. injection H as <-.
    split; [eapply store_u32_in_bounds; eauto|]. eauto.
Qed.

Lemma bdt_turn_not_listed (st st' : bdt_state) (i : Z) :
  listed register_list i = false ->
  bdt_turn p u s l register_list st i = Some st' -> st' = st.
Proof.
  unfold listed, bdt_turn. destruct st as [[c address] done].
  intros ->. congruence.
Qed.

Lemma next_slot_after (address : Z) :
  next_slot p u (if p =? 0 then step_address u (next_slot p u address) 4
             else next_slot p u address)
  = step_address u (next_slot p u address) 4.
Proof. unfold next_slot. destruct Hp as [-> | ->]; reflexivity. Qed.

Lemma bdt_turn_inv (k i : Z) (st st' : bdt_state) :
  k <= i ->
  bdt_turn p u s l register_list st i = Some st' ->
  bdt_inv p u k st -> bdt_inv p u (i + 1) st'.
Proof.
  intros Hki Hturn. destruct st as [[c address] done].
  destruct (listed register_list i) eqn:Hl.
  - destruct (bdt_turn_listed _ _ _ _ _ Hl Hturn) as (Hin & c' & ->).
    intros (Hdone & Hsorted & Hnext). specialize (Hnext Hin).
    cbn [bdt_inv]. rewrite next_slot_after. split; [|split].
    + apply Forall_app. split.
      * eapply Forall_impl; [exact Hdone|]. cbn beta. intros x [? ?]. split; [lia|done].
      * apply Forall_singleton. cbn [fst snd]. split; [lia|done].
    + apply StronglySorted_app. split; [|split].
      * intros x y Hx Hy. apply list_elem_of_singleton in Hy as ->.
        rewrite Forall_forall in Hdone, Hnext.
        split; cbn [fst snd]; [|now apply Hnext].
        destruct (Hdone x Hx). lia.
      * exact Hsorted.
      * repeat constructor.
    + intros Hin'.
      pose proof (step_address_before u _ Hin Hin') as Hstep.
      apply Forall_app. split.
      * eapply Forall_impl; [exact Hnext|]. cbn beta. intros x Hx.
        eapply before_trans; eauto.
      * apply Forall_singleton. exact Hstep.
  - rewrite (bdt_turn_not_listed _ _ _ Hl Hturn).
    intros (Hdone & Hsorted & Hnext). split; [|split]; auto.
    eapply Forall_impl; [exact Hdone|]. cbn beta. intros x [? ?]. split; [lia|done].
Qed.

Lemma bdt_for_each_inv (n : nat) : forall (k : Z) (st st' : bdt_state),
  for_each (bdt_turn p u s l register_list) (seqZ k (Z.of_nat n)) st = Some st' ->
  bdt_inv p u k st -> bdt_inv p u (k + Z.of_nat n) st'.
Proof.
  induction n as [|n IH]; intros k st st' Hrun Hinv.
  - cbn in Hrun. injection Hrun as <-. now rewrite Z.add_0_r.
  - rewrite seqZ_cons in Hrun by lia. cbn [for_each] in Hrun.
    destruct (bdt_turn p u s l register_list st k) as [st1|] eqn:Hturn;
      [|discriminate].
    cbn [mbind option_bind] in Hrun.
    replace (Z.pred (Z.of_nat (S n))) with (Z.of_nat n) in Hrun by lia.
    apply IH in Hrun.
    + replace (k + Z.of_nat (S n)) with (Z.succ k + Z.of_nat n) by lia. exact Hrun.
    + replace (Z.succ k) with (k + 1) by lia.
      eapply bdt_turn_inv; eauto. lia.
Qed.

(** The registers transferred are the listed ones, in ascending order. *)
Lemma bdt_for_each_registers (idx : list Z) : forall (st st' : bdt_state),
  for_each (bdt_turn p u s l register_list) idx st = Some st' ->
  st'.2.*1 = st.2.*1 ++ List.filter (listed register_list) idx.
Proof.
  induction idx as [|i idx IH]; intros st st' Hrun.
  - cbn in Hrun. injection Hrun as <-. cbn. now rewrite app_nil_r.
  - cbn [for_each] in Hrun.
    destruct (bdt_turn p u s l register_list st i) as [st1|] eqn:Hturn;
      [|discriminate].
    cbn [mbind option_bind] in Hrun. apply IH in Hrun. rewrite Hrun.
    cbn [List.filter]. destruct (listed register_list i) eqn:Hl.
    + destruct st as [[c address] done].
      destruct (bdt_turn_listed _ _ _ _ _ Hl Hturn) as (_ & c' & ->).
      cbn [snd]. rewrite fmap_app. cbn. now rewrite <- app_assoc.
    + now rewrite (bdt_turn_not_listed _ _ _ Hl Hturn).
Qed.
End BlockTransfer.

Lemma StronglySorted_pairwise {A : Type} (R : A -> A -> Prop) (l : list A) (x y : A) :
  StronglySorted R l -> x ∈ l -> y ∈ l -> x = y \/ R x y \/ R y x.
Proof.
  induction 1 as [|z l Hs IH Hall]; intros Hx Hy.
  - now apply elem_of_nil in Hx.
  - rewrite Forall_forall in Hall.
    apply elem_of_cons in Hx as [->|Hx]; apply elem_of_cons in Hy as [->|Hy]; auto.
Qed.

(** The trace is the log of the loop the instruction runs. *)
Lemma arm_block_data_transfer_trace (c : cpu) (instruction : Z) (res : cpu * Z) :
  arm_block_data_transfer c instruction = Some res ->
  exists log, bdt_trace c instruction = Some log.
Proof.
  unfold arm_block_data_transfer, bdt_trace. cbv zeta.
  destruct (reg c _) as [address|]; [|discriminate].
  cbn [mbind option_bind].
  destruct (bdt_loop _ _ _ _ _ c address) as [[[c1 a1] log]|]; [|discriminate].
  cbn [mbind option_bind]. eauto.
Qed.

(** An instruction that passes the condition check with bits 27..25 = 100 is
    executed by the block-transfer block, and when it succeeds its trace
    exists. *)
Lemma block_transfer_has_trace (c : cpu) (instruction : Z) (res : cpu * Z) :
  truthy (cpu_check_condition (cpsr (registers c)) instruction) = true ->
  Z.land (shr32 instruction 26) 0x3 = 2 ->
  Z.land (shr32 instruction 25) 0x1 = 0 ->
  cpu_process_arm_instruction c instruction = Some res ->
  arm_block_data_transfer c instruction = Some res /\
  exists log, bdt_trace c instruction = Some log.
Proof.
  intros Hcond Htype Hi. unfold cpu_process_arm_instruction.
  rewrite Hcond. cbn [negb]. cbv zeta. rewrite Htype, Hi. cbv beta iota.
  change (0 =? 1) with false. cbv iota. intros Hrun.
  split; [exact Hrun|]. eapply arm_block_data_transfer_trace; eauto.
Qed.

(** C5, amended.  For every ARM block data transfer whose accesses stay
    inside the memory buffer, the registers named in the register list are
    transferred in ascending register-number order, each once; for any two
    listed registers i < j, when U = 1 the address used for register i is
    strictly lower than the address used for register j, and when U = 0 it is
    strictly higher, whatever P is. *)
Theorem bdt_addresses_follow_direction
    (c : cpu) (instruction : Z) (log : list (Z * Z)) :
  let u := Z.land (shr32 instruction 23) 0x1 in
  let register_list := Z.land instruction 0xFFFF in
  bdt_trace c instruction = Some log ->
  log.*1 = List.filter (listed register_list) (seqZ 0 16) /\
  forall i j ai aj,
    (i, ai) ∈ log -> (j, aj) ∈ log -> i < j ->
    if u =? 1 then ai < aj else aj < ai.
Proof.
  intros u register_list. unfold bdt_trace. cbv zeta. fold u register_list.
  destruct (reg c _) as [address|]; [|discriminate]. cbn [mbind option_bind].
  destruct (bdt_loop _ _ _ _ _ c address) as [st|] eqn:Hloop; [|discriminate].
  cbn [mbind option_bind]. intros [= <-]. unfold bdt_loop in Hloop. split.
  - now rewrite (bdt_for_each_registers _ _ _ _ _ _ _ _ Hloop).
  - pose proof (land_1_cases (shr32 instruction 24)) as Hp.
    apply (bdt_for_each_inv _ _ _ _ _ Hp 16 0) in Hloop.
    + destruct st as [[c' address'] done]. destruct Hloop as (_ & Hsorted & _).
      intros i j ai aj Hi Hj Hij. cbn [snd] in Hi, Hj.
      destruct (StronglySorted_pairwise _ _ _ _ Hsorted Hi Hj) as [E|[[_ H]|[H _]]].
      * injection E as -> ->. lia.
      * exact H.
      * cbn [fst] in H. lia.
    + cbn. split; [constructor|]. split; [constructor|]. intros _. constructor.
Qed.

(** C5, as stated, fails: with U = 0 the loop stores r0 at 0x03007EFC and
    then r1 at 0x03007EF8, so the lower-numbered register has the higher
    address. *)
Lemma stmdb_counterexample :
  bdt_trace stmdb_state 0xE92D0003 = Some [(0, 0x03007EFC); (1, 0x03007EF8)] /\
  (0x03007EFC <? 0x03007EF8) = false /\
  option_map (λ x, (load_u32 x.1 0x03007EFC, load_u32 x.1 0x03007EF8,
                    sp (registers x.1)))
             (cpu_process_arm_instruction stmdb_state 0xE92D0003)
  = Some (Some 0xAAAA, Some 0xBBBB, 0x03007EF8).
Proof. split; [|split]; vm_compute; reflexivity. Qed.

Lemma bdt_addresses_follow_direction_witness :
  bdt_trace stmdb_state 0xE92D0003 = Some [(0, 0x03007EFC); (1, 0x03007EF8)] /\
  forall i j ai aj,
    (i, ai) ∈ [(0, 0x03007EFC); (1, 0x03007EF8)] ->
    (j, aj) ∈ [(0, 0x03007EFC); (1, 0x03007EF8)] -> i < j -> aj < ai.
Proof.
  assert (bdt_trace stmdb_state 0xE92D0003 = Some [(0, 0x03007EFC); (1, 0x03007EF8)])
    as H by (vm_compute; reflexivity).
  split; [exact H|].
  exact (proj2 (bdt_addresses_follow_direction stmdb_state 0xE92D0003 _ H)).
Defined.

(** * Further properties of the code *)

(** ** Shared facts *)

Lemma some_eq {A : Type} (a a' : A) : Some a = Some a' -> a = a'.
Proof. intros H. now inversion H. Qed.

Lemma some_pair_eq {A B : Type} (a a' : A) (b b' : B) :
  Some (a, b) = Some (a', b') -> a = a' /\ b = b'.
Proof. intros H. now inversion H. Qed.

(** Peels the leading bind of a successful run in hypothesis [H]. *)
Ltac peel H :=
  match type of H with
  | mbind _ ?m = Some _ =>
      let E := fresh "E" in
      destruct m as [?|] eqn:E; cbn [mbind option_bind] in H; [|discriminate H]
  | (let '(_, _) := ?p in _) = Some _ => destruct p
  | (match ?p with (_, _) => _ end) = Some _ => destruct p
  end.

Lemma land_31_mod (c : Z) : Z.land c 31 = c mod 32.
Proof. change 31 with (Z.ones 5). now rewrite Z.land_ones by lia. Qed.

Lemma u32_testbit_low (x k : Z) : 0 <= k < 32 -> Z.testbit (u32 x) k = Z.testbit x k.
Proof.
  intros Hk. unfold u32. change 4294967296 with (2 ^ 32).
  apply Z.mod_pow2_bits_low. lia.
Qed.

Lemma u32_testbit_high (x k : Z) : 32 <= k -> Z.testbit (u32 x) k = false.
Proof.
  intros Hk. unfold u32. change 4294967296 with (2 ^ 32).
  apply Z.mod_pow2_bits_high. lia.
Qed.

Lemma u32_range (x : Z) : 0 <= u32 x < 4294967296.
Proof. apply Z.mod_pos_bound. lia. Qed.

Lemma testbit_high_u32 (n k : Z) : 0 <= n < 4294967296 -> 32 <= k -> Z.testbit n k = false.
Proof. intros Hn Hk. apply (testbit_above n 32 k); [exact Hn|lia]. Qed.

Lemma u32_idem (x : Z) : u32 (u32 x) = u32 x.
Proof. unfold u32. apply Z.mod_mod. lia. Qed.

Lemma u32_add_u32_r (a b : Z) : u32 (a + u32 b) = u32 (a + b).
Proof. unfold u32. apply Zplus_mod_idemp_r. Qed.

Lemma u32_add_u32_l (a b : Z) : u32 (u32 a + b) = u32 (a + b).
Proof. unfold u32. apply Zplus_mod_idemp_l. Qed.

(** A field of a word of which a masked part is known. *)
Lemma field_of_masked (s M V k m : Z) :
  Z.land s M = V -> Z.land (Z.shiftr M k) m = m ->
  Z.land (Z.shiftr s k) m = Z.land (Z.shiftr V k) m.
Proof.
  intros <- Hm. rewrite Z.shiftr_land, <- Z.land_assoc, Hm. reflexivity.
Qed.

(** Setting bit 20 of an instruction word leaves its other fields. *)
Lemma lor_field (s b k m : Z) :
  Z.land (Z.shiftr b k) m = 0 ->
  Z.land (Z.shiftr (Z.lor s b) k) m = Z.land (Z.shiftr s k) m.
Proof.
  intros Hb. rewrite Z.shiftr_lor, Z.land_lor_distr_l, Hb. apply Z.lor_0_r.
Qed.

Lemma lor_field_0 (s b m : Z) :
  Z.land b m = 0 -> Z.land (Z.lor s b) m = Z.land s m.
Proof. intros Hb. rewrite Z.land_lor_distr_l, Hb. apply Z.lor_0_r. Qed.

Lemma lor_bit20 (s : Z) : Z.land (shr32 (Z.lor s 0x100000) 20) 1 = 1.
Proof.
  unfold shr32. change (20 mod 32) with 20.
  rewrite Z.shiftr_lor, Z.land_lor_distr_l. change (Z.land (Z.shiftr 0x100000 20) 1) with 1.
  destruct (land_1_cases (Z.shiftr s 20)) as [-> | ->]; reflexivity.
Qed.

Lemma land_1_eqb (x : Z) : (Z.land x 1 =? 0) = false -> Z.land x 1 = 1.
Proof. destruct (land_1_cases x) as [-> | ->]; [discriminate|reflexivity]. Qed.

Lemma bits_eq_32 (a b : Z) :
  0 <= a < 4294967296 -> 0 <= b < 4294967296 ->
  (forall k, 0 <= k < 32 -> Z.testbit a k = Z.testbit b k) -> a = b.
Proof.
  intros Ha Hb H. apply Z.bits_inj'. intros k Hk.
  destruct (Z.lt_ge_cases k 32); [apply H; lia|].
  now rewrite !testbit_high_u32 by lia.
Qed.

Lemma shr32_range (n k : Z) : 0 <= n < 4294967296 -> 0 <= shr32 n k < 4294967296.
Proof.
  intros Hn. unfold shr32.
  pose proof (Z.mod_pos_bound k 32 ltac:(lia)).
  rewrite Z.shiftr_div_pow2 by lia.
  assert (0 < 2 ^ (k mod 32)) by (apply Z.pow_pos_nonneg; lia).
  split; [apply Z.div_pos; lia|].
  apply Z.le_lt_trans with n; [|lia]. apply Z.div_le_upper_bound; nia.
Qed.

Lemma lor_range32 (a b : Z) :
  0 <= a < 4294967296 -> 0 <= b < 4294967296 -> 0 <= Z.lor a b < 4294967296.
Proof.
  intros Ha Hb. split; [apply Z.lor_nonneg; lia|].
  destruct (Z.eq_dec (Z.lor a b) 0) as [->|Hne]; [lia|].
  change 4294967296 with (2 ^ 32). apply Z.log2_lt_pow2.
  - assert (0 <= Z.lor a b) by (apply Z.lor_nonneg; lia). lia.
  - rewrite Z.log2_lor by lia.
    destruct (Z.eq_dec a 0) as [->|]; destruct (Z.eq_dec b 0) as [->|];
      cbn [Z.log2]; try lia.
    + assert (Z.log2 b < 32) by (apply Z.log2_lt_pow2; lia). lia.
    + assert (Z.log2 a < 32) by (apply Z.log2_lt_pow2; lia). lia.
    + assert (Z.log2 a < 32) by (apply Z.log2_lt_pow2; lia).
      assert (Z.log2 b < 32) by (apply Z.log2_lt_pow2; lia). lia.
Qed.

Lemma land_shiftr_1 (x k : Z) : 0 <= k -> Z.land (Z.shiftr x k) 1 = Z.b2z (Z.testbit x k).
Proof.
  intros Hk. change 1 with (Z.ones 1). rewrite Z.land_ones by lia.
  change (2 ^ 1) with 2. rewrite <- Z.bit0_mod, Z.shiftr_spec by lia.
  now rewrite Z.add_0_l.
Qed.

Lemma land_1_b2z (v : Z) : Z.land v 1 = Z.b2z (Z.testbit v 0).
Proof. rewrite <- (Z.shiftr_0_r v) at 1. now apply land_shiftr_1. Qed.

(** A loop keeps what each of its turns keeps. *)
Lemma for_each_preserves {A : Type} (body : A -> Z -> option A) (P : A -> Prop)
    (idx : list Z) :
  (forall a i a', body a i = Some a' -> P a -> P a') ->
  forall a a', for_each body idx a = Some a' -> P a -> P a'.
Proof.
  intros Hbody. induction idx as [|i idx IH]; intros a a' H Ha.
  - cbn in H. now apply some_eq in H as <-.
  - cbn [for_each] in H. peel H. eauto.
Qed.

(** ** [bits.h]: rotations and sign extension *)

(** The counts the two shifts of a rotation by [c] use. *)
Lemma rot_counts (c : Z) :
  let c' := c mod 32 in
  (Z.land c 31) mod 32 = c' /\
  (Z.land (neg32 (Z.land c 31)) 31) mod 32 = (32 - c') mod 32.
Proof.
  intros c'. rewrite !land_31_mod. unfold neg32, u32. subst c'.
  split; Z.div_mod_to_equations; lia.
Qed.

Lemma rotr32_bits (n c k : Z) :
  0 <= n < 4294967296 -> 0 <= k < 32 ->
  Z.testbit (rotr32 n c) k = Z.testbit n ((k + c) mod 32).
Proof.
  intros Hn Hk. unfold rotr32, shr32, shl32. cbv zeta.
  destruct (rot_counts c) as [-> ->].
  pose proof (Z.mod_pos_bound c 32 ltac:(lia)) as Hc.
  rewrite Z.lor_spec, Z.shiftr_spec, u32_testbit_low by lia.
  destruct (Z.eq_dec (c mod 32) 0) as [E|E].
  - rewrite E. change ((32 - 0) mod 32) with 0. rewrite Z.shiftl_0_r.
    replace ((k + c) mod 32) with k by (Z.div_mod_to_equations; lia).
    rewrite Z.add_0_r. apply orb_diag.
  - replace ((32 - c mod 32) mod 32) with (32 - c mod 32)
      by (Z.div_mod_to_equations; lia).
    destruct (Z.lt_ge_cases (k + c mod 32) 32) as [Hlt|Hge].
    + rewrite Z.shiftl_spec_low by lia. rewrite orb_false_r.
      f_equal. Z.div_mod_to_equations; lia.
    + rewrite (testbit_high_u32 n (k + c mod 32)) by lia.
      rewrite Z.shiftl_spec by lia. cbn [orb].
      f_equal. Z.div_mod_to_equations; lia.
Qed.

Lemma rotl32_bits (n c k : Z) :
  0 <= n < 4294967296 -> 0 <= k < 32 ->
  Z.testbit (rotl32 n c) k = Z.testbit n ((k - c) mod 32).
Proof.
  intros Hn Hk. unfold rotl32, shr32, shl32. cbv zeta.
  destruct (rot_counts c) as [-> ->].
  pose proof (Z.mod_pos_bound c 32 ltac:(lia)) as Hc.
  rewrite Z.lor_spec, Z.shiftr_spec, u32_testbit_low by lia.
  destruct (Z.eq_dec (c mod 32) 0) as [E|E].
  - rewrite E. change ((32 - 0) mod 32) with 0. rewrite Z.shiftl_0_r.
    replace ((k - c) mod 32) with k by (Z.div_mod_to_equations; lia).
    rewrite Z.add_0_r. apply orb_diag.
  - replace ((32 - c mod 32) mod 32) with (32 - c mod 32)
      by (Z.div_mod_to_equations; lia).
    destruct (Z.lt_ge_cases k (c mod 32)) as [Hlt|Hge].
    + rewrite Z.shiftl_spec_low by lia. cbn [orb].
      f_equal. Z.div_mod_to_equations; lia.
    + rewrite (testbit_high_u32 n (k + (32 - c mod 32))) by lia.
      rewrite Z.shiftl_spec by lia. rewrite orb_false_r.
      f_equal. Z.div_mod_to_equations; lia.
Qed.

Lemma rotr32_range (n c : Z) : 0 <= n < 4294967296 -> 0 <= rotr32 n c < 4294967296.
Proof.
  intros Hn. unfold rotr32. cbv zeta.
  apply lor_range32; [now apply shr32_range|apply u32_range].
Qed.

Lemma rotl32_range (n c : Z) : 0 <= n < 4294967296 -> 0 <= rotl32 n c < 4294967296.
Proof.
  intros Hn. unfold rotl32. cbv zeta.
  apply lor_range32; [apply u32_range|now apply shr32_range].
Qed.

(** X1.  [rotr32(n, c)] of a 32-bit [n] is a 32-bit value whose bit [k] is
    bit [(k + c) mod 32] of [n], for any count [c]; a count that is a
    multiple of 32 gives [n] back. *)
Theorem rotr32_rotates_right (n c : Z) :
  0 <= n < 4294967296 ->
  0 <= rotr32 n c < 4294967296 /\
  (forall k, 0 <= k < 32 -> Z.testbit (rotr32 n c) k = Z.testbit n ((k + c) mod 32)) /\
  (c mod 32 = 0 -> rotr32 n c = n).
Proof.
  intros Hn. split; [now apply rotr32_range|]. split.
  - intros k Hk. now apply rotr32_bits.
  - intros Hc. apply bits_eq_32; [now apply rotr32_range|exact Hn|].
    intros k Hk. rewrite rotr32_bits by lia. f_equal.
    Z.div_mod_to_equations; lia.
Qed.

Lemma rotr32_rotates_right_witness :
  0 <= 0x80000001 < 4294967296 /\
  Z.testbit (rotr32 0x80000001 36) 28 = Z.testbit 0x80000001 ((28 + 36) mod 32).
Proof.
  split; [lia|].
  destruct (rotr32_rotates_right 0x80000001 36) as (_ & H & _); [lia|].
  apply H. lia.
Defined.

(** X2.  On 32-bit values [rotl32] and [rotr32] by the same count undo each
    other, in either order and for any count. *)
Theorem rotl32_rotr32_inverse (n c : Z) :
  0 <= n < 4294967296 ->
  rotr32 (rotl32 n c) c = n /\ rotl32 (rotr32 n c) c = n.
Proof.
  intros Hn. split; apply bits_eq_32; auto using rotr32_range, rotl32_range.
  - intros k Hk. rewrite rotr32_bits by (auto using rotl32_range).
    rewrite rotl32_bits by (auto; apply Z.mod_pos_bound; lia).
    f_equal. Z.div_mod_to_equations; lia.
  - intros k Hk. rewrite rotl32_bits by (auto using rotr32_range).
    rewrite rotr32_bits by (auto; apply Z.mod_pos_bound; lia).
    f_equal. Z.div_mod_to_equations; lia.
Qed.

Lemma rotl32_rotr32_inverse_witness :
  0 <= 0x12345678 < 4294967296 /\
  rotr32 (rotl32 0x12345678 40) 40 = 0x12345678.
Proof.
  split; [lia|]. apply (proj1 (rotl32_rotr32_inverse 0x12345678 40 ltac:(lia))).
Defined.

Lemma lxor_pow2_low (w j : Z) :
  0 <= j -> 0 <= w < 2 ^ j -> Z.lxor w (2 ^ j) = w + 2 ^ j.
Proof.
  intros Hj Hw. symmetry. apply Z.add_nocarry_lxor.
  apply Z.bits_inj'. intros k Hk. rewrite Z.land_spec, Z.bits_0, Z.pow2_bits_eqb by lia.
  destruct (Z.eqb_spec j k) as [<-|]; [|apply andb_false_r].
  now rewrite (testbit_above w j j) by lia.
Qed.

Lemma lxor_pow2_high (v j : Z) :
  0 <= j -> 2 ^ j <= v < 2 ^ (j + 1) -> Z.lxor v (2 ^ j) = v - 2 ^ j.
Proof.
  intros Hj Hv. rewrite Z.pow_add_r in Hv by lia. change (2 ^ 1) with 2 in Hv.
  replace v with (Z.lxor (v - 2 ^ j) (2 ^ j)) at 1.
  - now rewrite Z.lxor_assoc, Z.lxor_nilpotent, Z.lxor_0_r.
  - rewrite lxor_pow2_low by lia. lia.
Qed.

Lemma shl32_1 (j : Z) : 0 <= j < 32 -> shl32 1 j = 2 ^ j.
Proof.
  intros Hj. unfold shl32, u32. rewrite (Z.mod_small j 32) by lia.
  rewrite Z.shiftl_1_l. apply Z.mod_small.
  split; [apply Z.pow_nonneg; lia|].
  change 4294967296 with (2 ^ 32). apply Z.pow_lt_mono_r; lia.
Qed.

(** The value [sign_extend] returns, for widths 1 to 31. *)
Lemma sign_extend_value (x b : Z) :
  1 <= b <= 31 ->
  sign_extend x b =
    let v := x mod 2 ^ b in
    if v <? 2 ^ (b - 1) then v else v + 4294967296 - 2 ^ b.
Proof.
  intros Hb. unfold sign_extend. cbv zeta.
  assert (sub32 b 1 = b - 1) as -> by (unfold sub32, u32; apply Z.mod_small; lia).
  rewrite !shl32_1 by lia.
  assert (0 < 2 ^ (b - 1)) as Hm by (apply Z.pow_pos_nonneg; lia).
  assert (2 ^ b = 2 * 2 ^ (b - 1)) as Hpow.
  { replace b with (1 + (b - 1)) at 1 by lia. rewrite Z.pow_add_r by lia. reflexivity. }
  assert (2 ^ b <= 2 ^ 31) as Hle by (apply Z.pow_le_mono_r; lia).
  change (2 ^ 31) with 2147483648 in Hle.
  assert (sub32 (2 ^ b) 1 = Z.ones b) as ->.
  { rewrite Z.ones_equiv. unfold sub32, u32. rewrite Z.mod_small by lia. lia. }
  rewrite Z.land_ones by lia.
  pose proof (Z.mod_pos_bound x (2 ^ b) ltac:(lia)) as Hv.
  set (v := x mod 2 ^ b) in *.
  destruct (Z.ltb_spec v (2 ^ (b - 1))) as [Hlt|Hge].
  - rewrite lxor_pow2_low by lia. unfold sub32, u32.
    replace (v + 2 ^ (b - 1) - 2 ^ (b - 1)) with v by lia.
    apply Z.mod_small. lia.
  - rewrite lxor_pow2_high by (replace (b - 1 + 1) with b by lia; lia).
    unfold sub32, u32.
    replace (v - 2 ^ (b - 1) - 2 ^ (b - 1)) with (v + 4294967296 - 2 ^ b + (-1) * 4294967296) by lia.
    rewrite Z.mod_add by lia. apply Z.mod_small. lia.
Qed.

(** X3.  For a width [b] from 1 to 31, [sign_extend(x, b)] is the 32-bit
    pattern of the [b]-bit two's complement reading of [x]: the low [b] bits
    of [x] when bit [b - 1] is clear, that value minus [2^b] (modulo [2^32])
    when it is set.  The result keeps the low [b] bits of [x], and extending
    it again changes nothing. *)
Theorem sign_extend_twos_complement (x b : Z) :
  1 <= b <= 31 ->
  let v := x mod 2 ^ b in
  sign_extend x b = u32 (if v <? 2 ^ (b - 1) then v else v - 2 ^ b) /\
  sign_extend x b mod 2 ^ b = v /\
  sign_extend (sign_extend x b) b = sign_extend x b.
Proof.
  intros Hb v.
  assert (0 < 2 ^ (b - 1)) as Hm by (apply Z.pow_pos_nonneg; lia).
  assert (2 ^ b = 2 * 2 ^ (b - 1)) as Hpow.
  { replace b with (1 + (b - 1)) at 1 by lia. rewrite Z.pow_add_r by lia. reflexivity. }
  assert (2 ^ b <= 2 ^ 31) as Hle by (apply Z.pow_le_mono_r; lia).
  change (2 ^ 31) with 2147483648 in Hle.
  assert (4294967296 = 2 ^ (32 - b) * 2 ^ b) as Hsplit.
  { rewrite <- Z.pow_add_r by lia. replace (32 - b + b) with 32 by lia. reflexivity. }
  pose proof (Z.mod_pos_bound x (2 ^ b) ltac:(lia)) as Hv. fold v in Hv.
  assert (sign_extend x b mod 2 ^ b = v) as Hlow.
  { rewrite sign_extend_value by lia. cbv zeta. fold v.
    destruct (v <? 2 ^ (b - 1)).
    - apply Z.mod_small. lia.
    - replace (v + 4294967296 - 2 ^ b) with (v + (2 ^ (32 - b) - 1) * 2 ^ b) by lia.
      rewrite Z.mod_add by lia. apply Z.mod_small. lia. }
  split; [|split].
  - rewrite sign_extend_value by lia. cbv zeta. fold v. unfold u32.
    destruct (v <? 2 ^ (b - 1)).
    + symmetry. apply Z.mod_small. lia.
    + replace (v - 2 ^ b) with (v + 4294967296 - 2 ^ b + (-1) * 4294967296) by lia.
      rewrite Z.mod_add by lia. symmetry. apply Z.mod_small. lia.
  - exact Hlow.
  - rewrite (sign_extend_value (sign_extend x b)) by lia. cbv zeta.
    rewrite Hlow. rewrite sign_extend_value by lia. reflexivity.
Qed.

Lemma sign_extend_twos_complement_witness :
  sign_extend 0x2FF 8 = 0xFFFFFFFF /\ sign_extend 0xFFFFFFFF 8 = 0xFFFFFFFF.
Proof.
  pose proof (sign_extend_twos_complement 0x2FF 8 ltac:(lia)) as [H1 [_ H3]].
  split; [exact H1 | rewrite H1 in H3; exact H3].
Defined.

(** ** The status word *)

Lemma getters_as_bits (w : Z) :
  get_cpsr_negative w = Z.b2z (Z.testbit w 31) /\
  get_cpsr_zero w = Z.b2z (Z.testbit w 30) /\
  get_cpsr_carry w = Z.b2z (Z.testbit w 29) /\
  get_cpsr_overflow w = Z.b2z (Z.testbit w 28).
Proof.
  unfold get_cpsr_negative, get_cpsr_zero, get_cpsr_carry, get_cpsr_overflow, shr32.
  change (31 mod 32) with 31. change (30 mod 32) with 30.
  change (29 mod 32) with 29. change (28 mod 32) with 28.
  now rewrite !land_shiftr_1 by lia.
Qed.

(** A flag setter writes [flag_mask], the bit at position [pos]. *)
Lemma setter_bits (w v pos k : Z) :
  28 <= pos < 32 -> 0 <= k < 32 ->
  Z.testbit (Z.lor (Z.land w (not32 (2 ^ pos))) (shl32 (Z.land v 1) pos)) k
  = if k =? pos then Z.testbit v 0 else Z.testbit w k.
Proof.
  intros Hpos Hk. unfold not32, shl32.
  rewrite Z.lor_spec, Z.land_spec, Z.lxor_spec, Z.pow2_bits_eqb by lia.
  change 4294967295 with (Z.ones 32). rewrite Z.ones_spec_low by lia.
  rewrite u32_testbit_low by lia. rewrite (Z.mod_small pos 32) by lia.
  rewrite land_1_b2z.
  destruct (Z.eqb_spec k pos) as [->|Hne].
  - rewrite Z.eqb_refl. cbn [xorb andb]. rewrite andb_false_r. cbn [orb].
    rewrite Z.shiftl_spec, Z.sub_diag by lia. now destruct (Z.testbit v 0).
  - replace (pos =? k) with false by (symmetry; apply Z.eqb_neq; lia).
    cbn [xorb]. rewrite andb_true_r.
    destruct (Z.lt_ge_cases k pos).
    + rewrite Z.shiftl_spec_low by lia. apply orb_false_r.
    + rewrite Z.shiftl_spec by lia.
      destruct (Z.testbit v 0); cbn [Z.b2z].
      * rewrite (Z.bits_above_log2 1 (k - pos)) by (cbn; lia). apply orb_false_r.
      * rewrite Z.bits_0. apply orb_false_r.
Qed.

(** X4.  Each of [set_cpsr_negative], [set_cpsr_zero], [set_cpsr_carry] and
    [set_cpsr_overflow] makes its own flag read as bit 0 of the value it is
    given, and leaves the three other flags and bits 27..0 of CPSR as they
    were. *)
Theorem flag_setters_write_one_bit (rs : cpu_registers) (v : Z) :
  let w := cpsr rs in
  let b := Z.land v 0x1 in
  cpsr_flags (cpsr (set_cpsr_negative rs v))
  = (b, get_cpsr_zero w, get_cpsr_carry w, get_cpsr_overflow w) /\
  cpsr_flags (cpsr (set_cpsr_zero rs v))
  = (get_cpsr_negative w, b, get_cpsr_carry w, get_cpsr_overflow w) /\
  cpsr_flags (cpsr (set_cpsr_carry rs v))
  = (get_cpsr_negative w, get_cpsr_zero w, b, get_cpsr_overflow w) /\
  cpsr_flags (cpsr (set_cpsr_overflow rs v))
  = (get_cpsr_negative w, get_cpsr_zero w, get_cpsr_carry w, b) /\
  forall k, 0 <= k < 28 ->
    Z.testbit (cpsr (set_cpsr_negative rs v)) k = Z.testbit w k /\
    Z.testbit (cpsr (set_cpsr_zero rs v)) k = Z.testbit w k /\
    Z.testbit (cpsr (set_cpsr_carry rs v)) k = Z.testbit w k /\
    Z.testbit (cpsr (set_cpsr_overflow rs v)) k = Z.testbit w k.
Proof.
  intros w b. unfold cpsr_flags.
  unfold set_cpsr_negative, set_cpsr_zero, set_cpsr_carry, set_cpsr_overflow.
  cbn [cpsr with_cpsr]. fold w.
  change 0x80000000 with (2 ^ 31). change 0x40000000 with (2 ^ 30).
  change 0x20000000 with (2 ^ 29). change 0x10000000 with (2 ^ 28).
  repeat match goal with
  | |- context [get_cpsr_negative ?x] =>
      rewrite (proj1 (getters_as_bits x))
  | |- context [get_cpsr_zero ?x] =>
      rewrite (proj1 (proj2 (getters_as_bits x)))
  | |- context [get_cpsr_carry ?x] =>
      rewrite (proj1 (proj2 (proj2 (getters_as_bits x))))
  | |- context [get_cpsr_overflow ?x] =>
      rewrite (proj2 (proj2 (proj2 (getters_as_bits x))))
  end.
  rewrite !setter_bits by lia. cbn [Z.eqb Pos.eqb].
  unfold b. rewrite <- land_1_b2z.
  do 4 (split; [reflexivity|]).
  intros k Hk. rewrite !setter_bits by lia.
  destruct (Z.eqb_spec k 31); [lia|]. destruct (Z.eqb_spec k 30); [lia|].
  destruct (Z.eqb_spec k 29); [lia|]. destruct (Z.eqb_spec k 28); [lia|].
  repeat split.
Qed.

(** X5.  After [set_cpsr_mode(registers, value)], [get_cpsr_mode] reads the
    low five bits of [value], and bits 31..5 of CPSR are as they were. *)
Theorem set_cpsr_mode_writes_mode_field (rs : cpu_registers) (value : Z) :
  get_cpsr_mode (cpsr (set_cpsr_mode rs value)) = Z.land value 0x1F /\
  forall k, 5 <= k < 32 ->
    Z.testbit (cpsr (set_cpsr_mode rs value)) k = Z.testbit (cpsr rs) k.
Proof.
  unfold set_cpsr_mode, get_cpsr_mode, not32. cbn [cpsr with_cpsr].
  change 0x1F with (Z.ones 5). change 0xFFFFFFFF with (Z.ones 32). split.
  - apply Z.bits_inj'. intros k Hk.
    rewrite !Z.land_spec, Z.lor_spec, !Z.land_spec, Z.lxor_spec.
    destruct (Z.lt_ge_cases k 5).
    + rewrite !Z.ones_spec_low by lia. cbn [xorb].
      now rewrite !andb_false_r, !andb_true_r.
    + rewrite (Z.ones_spec_high 5) by lia. now rewrite !andb_false_r.
  - intros k Hk.
    rewrite Z.lor_spec, !Z.land_spec, Z.lxor_spec.
    rewrite (Z.ones_spec_high 5), (Z.ones_spec_low 32) by lia. cbn [xorb].
    now rewrite andb_true_r, andb_false_r, orb_false_r.
Qed.

(** ** [cpu_check_condition] *)

(** X6.  The condition codes 0..13 come in pairs [2j], [2j + 1] (EQ/NE,
    CS/CC, MI/PL, VS/VC, HI/LS, GE/LT, GT/LE): for every status word, of two
    instructions whose condition fields differ in the lowest bit only,
    [cpu_check_condition] passes exactly one, and its result is 0 or 1. *)
Theorem condition_pairs_are_complementary (w i i' : Z) :
  let k := Z.land (shr32 i 28) 0xF in
  let k' := Z.land (shr32 i' 28) 0xF in
  k < 14 -> k' = Z.lxor k 1 ->
  cpu_check_condition w i' = lnot (cpu_check_condition w i) /\
  (cpu_check_condition w i = 0 \/ cpu_check_condition w i = 1).
Proof.
  intros k k' Hk Hk'. unfold cpu_check_condition. cbv zeta. fold k k'.
  rewrite Hk'. clear Hk' k'.
  pose proof (land_0xF_range (shr32 i 28)) as Hr. fold k in Hr.
  destruct (getters_as_bits w) as (-> & -> & -> & ->).
  assert (k = 0 \/ k = 1 \/ k = 2 \/ k = 3 \/ k = 4 \/ k = 5 \/ k = 6 \/ k = 7 \/
          k = 8 \/ k = 9 \/ k = 10 \/ k = 11 \/ k = 12 \/ k = 13) as Hc by lia.
  clearbody k.
  repeat (destruct Hc as [->|Hc]); try subst k;
    destruct (Z.testbit w 31), (Z.testbit w 30), (Z.testbit w 29), (Z.testbit w 28);
    vm_compute; auto.
Qed.

Lemma condition_pairs_are_complementary_witness :
  cpu_check_condition 0x40000000 0x10000000
  = lnot (cpu_check_condition 0x40000000 0x00000000).
Proof.
  apply (proj1 (condition_pairs_are_complementary 0x40000000 0x00000000 0x10000000
                  ltac:(vm_compute; reflexivity) ltac:(vm_compute; reflexivity))).
Defined.

(** [cpu_check_condition] looks at bits 31..28: handed a bare four-bit
    condition it finds 0 there. *)
Lemma cpu_check_condition_small (w cond : Z) :
  0 <= cond < 16 -> cpu_check_condition w cond = get_cpsr_zero w.
Proof.
  intros Hc. unfold cpu_check_condition. cbv zeta.
  assert (Z.land (shr32 cond 28) 0xF = 0) as ->; [|reflexivity].
  unfold shr32. change (28 mod 32) with 28.
  rewrite Z.shiftr_div_pow2 by lia. rewrite Z.div_small; [reflexivity|].
  change (2 ^ 28) with 268435456. lia.
Qed.

Lemma cpu_check_condition_lor_bit20 (w s : Z) :
  cpu_check_condition w (Z.lor s 0x100000) = cpu_check_condition w s.
Proof.
  unfold cpu_check_condition. cbv zeta.
  change (shr32 (Z.lor s 0x100000) 28) with (Z.shiftr (Z.lor s 0x100000) 28).
  rewrite (lor_field s 0x100000 28 0xF) by reflexivity. reflexivity.
Qed.

(** ** [cpu_process_arm_instruction]: return value and memory *)

Lemma set_reg_memory (c c' : cpu) (i v : Z) :
  set_reg c i v = Some c' -> memory c' = memory c.
Proof.
  unfold set_reg. intros H. peel H. now injection H as <-.
Qed.

Lemma flags_zn_of_rd_memory (c c' : cpu) (rd : Z) :
  flags_zn_of_rd c rd = Some c' -> memory c' = memory c.
Proof. unfold flags_zn_of_rd. intros H. repeat peel H. now injection H as <-. Qed.

Lemma flag_c_ge_memory (c c' : cpu) (x y : cpu -> option Z) :
  flag_c_ge c x y = Some c' -> memory c' = memory c.
Proof. unfold flag_c_ge. intros H. repeat peel H. now injection H as <-. Qed.

Lemma flag_v_of_memory (c c' : cpu) (x y z : cpu -> option Z) :
  flag_v_of c x y z = Some c' -> memory c' = memory c.
Proof. unfold flag_v_of. intros H. repeat peel H. now injection H as <-. Qed.

Lemma dp_logical_memory (c c' : cpu) (rd v : Z) :
  dp_logical c rd v = Some c' -> memory c' = memory c.
Proof.
  unfold dp_logical. intros H. peel H.
  apply flags_zn_of_rd_memory in H. apply set_reg_memory in E. congruence.
Qed.

Lemma dp_arith_memory (c c' : cpu) (rd v : Z) (x y : cpu -> option Z) :
  dp_arith c rd v x y = Some c' -> memory c' = memory c.
Proof.
  unfold dp_arith. intros H. repeat peel H.
  apply flag_v_of_memory in H. apply set_reg_memory in E.
  apply flags_zn_of_rd_memory in E0. apply flag_c_ge_memory in E1. congruence.
Qed.

Lemma arm_msr_memory (c c' : cpu) (i : Z) :
  arm_msr c i = Some c' -> memory c' = memory c.
Proof.
  unfold arm_msr. cbv zeta. intros H.
  repeat match type of H with
  | (if ?b then _ else _) = _ => destruct b
  end; peel H; now injection H as <-.
Qed.

Lemma dp_register_operand_memory (c c' : cpu) (i s rd src2 : Z) :
  dp_register_operand c i s rd = Some (src2, c') -> memory c' = memory c.
Proof.
  unfold dp_register_operand. cbv zeta. intros H. do 2 peel H.
  repeat case_match; try peel H; injection H as <- <-; reflexivity.
Qed.

Lemma dp_execute_result (c : cpu) (i opcode s rn rd src2 : Z) (c' : cpu) (ok : Z) :
  dp_execute c i opcode s rn rd src2 = Some (c', ok) ->
  ok = 1 /\ memory c' = memory c.
Proof.
  unfold dp_execute. cbv zeta. intros H. peel H. injection H as <- <-.
  split; [reflexivity|].
  repeat case_match; try discriminate;
    repeat match type of E with
    | mbind _ (reg _ _) = Some _ => peel E
    end;
    eauto using dp_logical_memory, dp_arith_memory, arm_msr_memory.
  all: try (injection E as <-; reflexivity).
  all: try (peel E; apply flag_v_of_memory in E; apply flag_c_ge_memory in E1;
            rewrite E, E1; reflexivity).
Qed.

Lemma arm_data_processing_result (c : cpu) (i ibit : Z) (c' : cpu) (ok : Z) :
  arm_data_processing c i ibit = Some (c', ok) ->
  ok = 1 /\ memory c' = memory c.
Proof.
  unfold arm_data_processing. cbv zeta. intros H. peel H. destruct p as [src2 c1].
  apply dp_execute_result in H as [-> Hm]. split; [reflexivity|].
  rewrite Hm. destruct (ibit =? 0).
  - eapply dp_register_operand_memory; eauto.
  - now apply some_pair_eq in E as [_ <-].
Qed.

Lemma arm_bx_result (c : cpu) (i : Z) (c' : cpu) (ok : Z) :
  arm_bx c i = Some (c', ok) -> ok = 1 /\ memory c' = memory c.
Proof.
  unfold arm_bx. cbv zeta. intros H. peel H.
  destruct (truthy _); apply some_pair_eq in H as [<- <-]; split; reflexivity.
Qed.

Lemma arm_branch_result (c : cpu) (i : Z) (c' : cpu) (ok : Z) :
  arm_branch c i = Some (c', ok) -> ok = 1 /\ memory c' = memory c.
Proof.
  unfold arm_branch. cbv zeta. intros H. apply some_pair_eq in H as [<- <-].
  split; [reflexivity|]. now destruct (_ =? 1).
Qed.

Lemma arm_single_data_transfer_result (c : cpu) (i ibit : Z) (c' : cpu) (ok : Z) :
  arm_single_data_transfer c i ibit = Some (c', ok) ->
  ok = 1 /\ (Z.land (shr32 i 20) 0x1 = 1 -> memory c' = memory c).
Proof.
  unfold arm_single_data_transfer. cbv zeta. intros H. do 4 peel H.
  apply some_pair_eq in H as [<- <-]. split; [reflexivity|]. intros Hl. rewrite Hl in E1.
  change (1 =? 1) with true in E1. cbv iota in E1.
  assert (memory c0 = memory c) as Hc0.
  { destruct (Z.land (shr32 i 22) 1 =? 1); peel E1; eauto using set_reg_memory. }
  rewrite <- Hc0. destruct (_ || _).
  - eauto using set_reg_memory.
  - now apply some_eq in E2 as <-.
Qed.

Lemma bdt_turn_load_memory (p u s register_list : Z) (st st' : bdt_state) (i : Z) :
  bdt_turn p u s 1 register_list st i = Some st' ->
  memory st'.1.1 = memory st.1.1.
Proof.
  unfold bdt_turn. destruct st as [[c address] done]. intros H.
  destruct (truthy _); [|now apply some_eq in H as <-].
  change (1 =? 1) with true in H. cbv iota in H. peel H.
  apply some_eq in H as <-. cbn [fst]. do 2 peel E. apply some_eq in E as <-.
  apply set_reg_memory in E1. now destruct (_ && _).
Qed.

Lemma arm_block_data_transfer_result (c : cpu) (i : Z) (c' : cpu) (ok : Z) :
  arm_block_data_transfer c i = Some (c', ok) ->
  ok = 1 /\ (Z.land (shr32 i 20) 0x1 = 1 -> memory c' = memory c).
Proof.
  unfold arm_block_data_transfer. cbv zeta. intros H. peel H.
  destruct (bdt_loop _ _ _ _ _ c _) as [[[c1 a1] log]|] eqn:E0;
    cbn [mbind option_bind] in H; [|discriminate H].
  peel H. apply some_pair_eq in H as [<- <-].
  split; [reflexivity|]. intros Hl. rewrite Hl in E0.
  assert (memory c1 = memory c) as Hc1.
  { unfold bdt_loop in E0.
    apply (for_each_preserves _ (λ st, memory st.1.1 = memory c)) in E0; auto.
    intros st j st' Hturn Hst. apply bdt_turn_load_memory in Hturn. congruence. }
  rewrite <- Hc1. destruct (_ || _).
  - eauto using set_reg_memory.
  - now apply some_eq in E1 as <-.
Qed.

(** The executor returns 0 from one place only, the last case of the type
    switch, and has changed nothing by then. *)
Lemma arm_returns_zero_cases (c : cpu) (instruction : Z) (c' : cpu) (ok : Z) :
  cpu_process_arm_instruction c instruction = Some (c', ok) ->
  ok = 1 \/
  (ok = 0 /\ c' = c /\ Z.land (shr32 instruction 26) 0x3 = 3 /\
   cpu_check_condition (cpsr (registers c)) instruction <> 0).
Proof.
  unfold cpu_process_arm_instruction, truthy. cbv zeta. intros H.
  destruct (Z.eqb_spec (cpu_check_condition (cpsr (registers c)) instruction) 0)
    as [Hc|Hc]; cbn [negb] in H.
  { apply some_pair_eq in H as [<- <-]. now left. }
  pose proof (land_0x3_range (shr32 instruction 26)) as Hr.
  assert (Z.land (shr32 instruction 26) 3 = 0 \/ Z.land (shr32 instruction 26) 3 = 1 \/
          Z.land (shr32 instruction 26) 3 = 2 \/ Z.land (shr32 instruction 26) 3 = 3)
    as [Ht|[Ht|[Ht|Ht]]] by lia; rewrite Ht in H |- *; cbv beta iota in H.
  - left. repeat case_match.
    + apply arm_bx_result in H as [-> _]. reflexivity.
    + apply arm_data_processing_result in H as [-> _]. reflexivity.
    + apply some_pair_eq in H as [_ <-]. reflexivity.
  - left. apply arm_single_data_transfer_result in H as [-> _]. reflexivity.
  - left. case_match.
    + apply arm_branch_result in H as [-> _]. reflexivity.
    + apply arm_block_data_transfer_result in H as [-> _]. reflexivity.
  - right. apply some_pair_eq in H as [<- <-]. auto.
Qed.

(** X7.  [cpu_process_arm_instruction] returns 0 only for an instruction of
    type 3 (bits 27..26 = 11: coprocessor and software interrupt) whose
    condition holds, and then it has changed neither registers nor memory;
    every other executed or skipped instruction returns 1.  On a type-3
    instruction the result is exactly that: 1 when the condition fails, 0
    when it holds, state unchanged. *)
Theorem arm_return_code (c : cpu) (instruction : Z) :
  (forall c' ok,
     cpu_process_arm_instruction c instruction = Some (c', ok) ->
     ok = 1 \/
     (ok = 0 /\ c' = c /\ Z.land (shr32 instruction 26) 0x3 = 3 /\
      cpu_check_condition (cpsr (registers c)) instruction <> 0)) /\
  (Z.land (shr32 instruction 26) 0x3 = 3 ->
   cpu_process_arm_instruction c instruction
   = Some (c, if cpu_check_condition (cpsr (registers c)) instruction =? 0
              then 1 else 0)).
Proof.
  split.
  - intros c' ok. apply arm_returns_zero_cases.
  - unfold cpu_process_arm_instruction, truthy. cbv zeta.
    intros ->. cbv beta iota.
    destruct (cpu_check_condition (cpsr (registers c)) instruction =? 0);
      reflexivity.
Qed.

Lemma arm_return_code_witness :
  cpu_process_arm_instruction user_state_z_clear 0xEE000000
  = Some (user_state_z_clear, 0).
Proof.
  apply (proj2 (arm_return_code user_state_z_clear 0xEE000000)).
  vm_compute; reflexivity.
Defined.

(** X8.  An ARM instruction that is not a store (not a single data transfer
    with L = 0 and not a block data transfer with L = 0) leaves every byte of
    memory as it was, whatever else it does. *)
Theorem arm_non_store_keeps_memory (c : cpu) (instruction : Z) (c' : cpu) (ok : Z) :
  arm_is_store instruction = false ->
  cpu_process_arm_instruction c instruction = Some (c', ok) ->
  memory c' = memory c.
Proof.
  unfold arm_is_store, cpu_process_arm_instruction. cbv zeta. intros Hst H.
  destruct (negb _); [apply some_pair_eq in H as [<- _]; reflexivity|].
  pose proof (land_0x3_range (shr32 instruction 26)) as Hr.
  assert (Z.land (shr32 instruction 26) 3 = 0 \/ Z.land (shr32 instruction 26) 3 = 1 \/
          Z.land (shr32 instruction 26) 3 = 2 \/ Z.land (shr32 instruction 26) 3 = 3)
    as [Ht|[Ht|[Ht|Ht]]] by lia; rewrite Ht in H, Hst; cbv beta iota in H;
    cbn [Z.eqb Pos.eqb orb andb] in Hst.
  - repeat case_match.
    + apply arm_bx_result in H as [_ H]. exact H.
    + apply arm_data_processing_result in H as [_ H]. exact H.
    + apply some_pair_eq in H as [<- _]. reflexivity.
  - apply arm_single_data_transfer_result in H as [_ H]. apply H.
    apply land_1_eqb. exact Hst.
  - destruct (Z.land (shr32 instruction 25) 1 =? 1) eqn:Hi.
    + apply arm_branch_result in H as [_ H]. exact H.
    + apply arm_block_data_transfer_result in H as [_ H]. apply H.
      destruct (land_1_cases (shr32 instruction 25)) as [Hz|Hz];
        rewrite Hz in Hi, Hst; [|discriminate Hi].
      cbn [Z.eqb andb] in Hst. apply land_1_eqb. exact Hst.
  - apply some_pair_eq in H as [<- _]. reflexivity.
Qed.

Lemma arm_non_store_keeps_memory_witness :
  arm_is_store 0xE5910000 = false /\
  match cpu_process_arm_instruction ldr_state 0xE5910000 with
  | Some (c', _) => memory c' = memory ldr_state
  | None => False
  end.
Proof.
  split; [vm_compute; reflexivity|].
  destruct (cpu_process_arm_instruction ldr_state 0xE5910000) as [[c' ok]|] eqn:E.
  - apply (arm_non_store_keeps_memory ldr_state 0xE5910000 c' ok);
      [vm_compute; reflexivity | exact E].
  - vm_compute in E. discriminate E.
Defined.

(** ** [cpu_process_arm_instruction]: data processing *)

Lemma only_cpsr_refl (c : cpu) : only_cpsr_differs c c.
Proof. destruct c as [[] ?]. reflexivity. Qed.

Lemma only_cpsr_upd (c : cpu) (w : Z) :
  only_cpsr_differs c (upd c (λ rs, with_cpsr rs w)).
Proof. destruct c as [[] ?]. reflexivity. Qed.

Lemma only_cpsr_trans (c1 c2 c3 : cpu) :
  only_cpsr_differs c1 c2 -> only_cpsr_differs c2 c3 -> only_cpsr_differs c1 c3.
Proof.
  unfold only_cpsr_differs. intros H12 H23. rewrite H23 at 1. rewrite H12 at 1.
  destruct c1 as [[] ?]. reflexivity.
Qed.

Lemma only_cpsr_set_negative (c : cpu) (v : Z) :
  only_cpsr_differs c (upd c (λ rs, set_cpsr_negative rs v)).
Proof. apply only_cpsr_upd. Qed.

Lemma only_cpsr_set_zero (c : cpu) (v : Z) :
  only_cpsr_differs c (upd c (λ rs, set_cpsr_zero rs v)).
Proof. apply only_cpsr_upd. Qed.

Lemma only_cpsr_set_carry (c : cpu) (v : Z) :
  only_cpsr_differs c (upd c (λ rs, set_cpsr_carry rs v)).
Proof. apply only_cpsr_upd. Qed.

Lemma only_cpsr_set_overflow (c : cpu) (v : Z) :
  only_cpsr_differs c (upd c (λ rs, set_cpsr_overflow rs v)).
Proof. apply only_cpsr_upd. Qed.

Ltac only_cpsr_setter :=
  first [ apply only_cpsr_refl | apply only_cpsr_set_negative
        | apply only_cpsr_set_zero | apply only_cpsr_set_carry
        | apply only_cpsr_set_overflow ].

Lemma flags_zn_of_only_cpsr (c : cpu) (v : Z) : only_cpsr_differs c (flags_zn_of c v).
Proof.
  unfold flags_zn_of. cbv zeta.
  eapply only_cpsr_trans; [apply only_cpsr_set_zero | apply only_cpsr_set_negative].
Qed.

Lemma flags_zn_of_rd_only_cpsr (c c' : cpu) (rd : Z) :
  flags_zn_of_rd c rd = Some c' -> only_cpsr_differs c c'.
Proof.
  unfold flags_zn_of_rd. intros H. do 2 peel H. apply some_eq in H as <-.
  eapply only_cpsr_trans; [apply only_cpsr_set_zero | apply only_cpsr_set_negative].
Qed.

Lemma flag_c_ge_only_cpsr (c c' : cpu) (x y : cpu -> option Z) :
  flag_c_ge c x y = Some c' -> only_cpsr_differs c c'.
Proof.
  unfold flag_c_ge. intros H. repeat peel H. apply some_eq in H as <-.
  only_cpsr_setter.
Qed.

Lemma flag_v_of_only_cpsr (c c' : cpu) (x y z : cpu -> option Z) :
  flag_v_of c x y z = Some c' -> only_cpsr_differs c c'.
Proof.
  unfold flag_v_of. intros H. repeat peel H. apply some_eq in H as <-.
  only_cpsr_setter.
Qed.

Lemma dp_register_operand_only_cpsr (c c' : cpu) (i s rd src2 : Z) :
  dp_register_operand c i s rd = Some (src2, c') -> only_cpsr_differs c c'.
Proof.
  unfold dp_register_operand. cbv zeta. intros H. do 2 peel H.
  repeat case_match; try peel H; apply some_pair_eq in H as [_ <-];
    only_cpsr_setter.
Qed.

Lemma reg_only_cpsr_differs (c c' : cpu) (k : Z) :
  only_cpsr_differs c c' -> k <> 16 -> reg c' k = reg c k.
Proof.
  unfold only_cpsr_differs. intros -> Hk. destruct c as [[r0 sp0 lr0 pc0 cpsr0 spsr0] m].
  unfold reg, reg_word. cbv [upd with_registers with_cpsr registers r sp lr pc cpsr spsr].
  destruct ((0 <=? k) && (k <? 13)); [reflexivity|].
  destruct k as [|q|q]; try reflexivity.
  do 5 (try destruct q as [q|q|]); try reflexivity. contradiction.
Qed.

Lemma dp_execute_compare (c : cpu) (i opcode s rn rd src2 : Z) (c' : cpu) (ok : Z) :
  (opcode =? 8) || (opcode =? 10) || (opcode =? 11)
  || ((opcode =? 9) && negb (s =? 0)) = true ->
  dp_execute c i opcode s rn rd src2 = Some (c', ok) ->
  only_cpsr_differs c c'.
Proof.
  intros Hop. unfold dp_execute. cbv zeta. intros H. peel H.
  apply some_pair_eq in H as [<- _].
  destruct (Z.eqb_spec opcode 8) as [->|]; [|
  destruct (Z.eqb_spec opcode 10) as [->|]; [|
  destruct (Z.eqb_spec opcode 11) as [->|]; [|
  destruct (Z.eqb_spec opcode 9) as [->|]; [|discriminate Hop]]]];
    cbv beta iota in E.
  - peel E. apply some_eq in E as <-. apply flags_zn_of_only_cpsr.
  - do 2 peel E. eapply only_cpsr_trans; [apply flags_zn_of_only_cpsr|].
    eapply only_cpsr_trans; eauto using flag_c_ge_only_cpsr, flag_v_of_only_cpsr.
  - do 2 peel E. eapply only_cpsr_trans; [apply flags_zn_of_only_cpsr|].
    eapply only_cpsr_trans; eauto using flag_c_ge_only_cpsr, flag_v_of_only_cpsr.
  - cbn [Z.eqb Pos.eqb orb andb] in Hop. unfold truthy in E.
    destruct (s =? 0); [discriminate Hop|]. cbn [negb] in E.
    peel E. apply some_eq in E as <-. apply flags_zn_of_only_cpsr.
Qed.

(** X9.  A data-processing instruction that the opcode switch treats as TST,
    TEQ, CMP or CMN (opcode 8, 10 or 11, or opcode 9 with S = 1) changes
    nothing but CPSR: [r0..r12], SP, LR, PC, SPSR and memory are as before. *)
Theorem arm_compare_changes_only_cpsr
    (c : cpu) (instruction : Z) (c' : cpu) (ok : Z) :
  Z.land (shr32 instruction 26) 0x3 = 0 ->
  arm_is_compare instruction = true ->
  cpu_process_arm_instruction c instruction = Some (c', ok) ->
  c' = upd c (λ rs, with_cpsr rs (cpsr (registers c'))).
Proof.
  intros Htype Hcmp. unfold cpu_process_arm_instruction. cbv zeta.
  destruct (negb _).
  { intros H. apply some_pair_eq in H as [<- _]. apply only_cpsr_refl. }
  rewrite Htype. cbv beta iota.
  destruct (Z.eqb_spec (Z.land instruction 0xFFFFFF0) 0x12FFF10) as [Hbx|_].
  { (* the BX pattern has opcode 9 and S = 0 *)
    exfalso. pose proof Hcmp as Hno. unfold arm_is_compare, shr32 in Hno.
    cbv zeta in Hno. change (21 mod 32) with 21 in Hno.
    change (20 mod 32) with 20 in Hno.
    rewrite (field_of_masked _ _ _ 21 0xF Hbx),
      (field_of_masked _ _ _ 20 1 Hbx) in Hno by reflexivity.
    vm_compute in Hno. discriminate Hno. }
  destruct (_ || _).
  - unfold arm_data_processing. cbv zeta. intros H. peel H. destruct p as [src2 c1].
    apply (dp_execute_compare _ _ _ _ _ _ _ _ _ Hcmp) in H.
    eapply only_cpsr_trans; [|exact H].
    destruct (_ =? 0).
    + eapply dp_register_operand_only_cpsr; eauto.
    + apply some_pair_eq in E as [_ <-]. apply only_cpsr_refl.
  - intros H. apply some_pair_eq in H as [<- _]. apply only_cpsr_refl.
Qed.

Lemma arm_compare_changes_only_cpsr_witness :
  arm_is_compare 0xE1500001 = true /\
  match cpu_process_arm_instruction user_state_z_clear 0xE1500001 with
  | Some (c', _) =>
      c' = upd user_state_z_clear (λ rs, with_cpsr rs (cpsr (registers c')))
  | None => False
  end.
Proof.
  split; [vm_compute; reflexivity|].
  destruct (cpu_process_arm_instruction user_state_z_clear 0xE1500001)
    as [[c' ok]|] eqn:E.
  - apply (arm_compare_changes_only_cpsr user_state_z_clear 0xE1500001 c' ok);
      [vm_compute; reflexivity | vm_compute; reflexivity | exact E].
  - vm_compute in E. discriminate E.
Defined.

(** Outside opcode 9 the opcode switch reads neither the S bit nor the
    instruction word. *)
Lemma dp_execute_s_unused (c : cpu) (i i' opcode s s' rn rd src2 : Z) :
  opcode <> 9 ->
  dp_execute c i' opcode s' rn rd src2 = dp_execute c i opcode s rn rd src2.
Proof.
  intros Hop. unfold dp_execute. cbv zeta.
  destruct opcode as [|q|q]; try reflexivity.
  do 4 (try destruct q as [q|q|]); try reflexivity.
  contradiction.
Qed.

Lemma not_bx_when_immediate (x : Z) :
  Z.land (shr32 x 25) 0x1 = 1 -> (Z.land x 0xFFFFFF0 =? 0x12FFF10) = false.
Proof.
  intros Hi. apply Z.eqb_neq. intros Hbx.
  unfold shr32 in Hi. change (25 mod 32) with 25 in Hi.
  rewrite (field_of_masked _ _ _ 25 1 Hbx) in Hi by reflexivity.
  discriminate Hi.
Qed.

(** X10.  For a data-processing instruction with an immediate operand
    (I = 1) and an opcode other than 9, the S bit has no effect: the
    instruction with bit 20 set does exactly what the instruction itself
    does, to registers, flags, memory and return value. *)
Theorem arm_immediate_ignores_s_bit (c : cpu) (instruction : Z) :
  Z.land (shr32 instruction 26) 0x3 = 0 ->
  Z.land (shr32 instruction 25) 0x1 = 1 ->
  Z.land (shr32 instruction 21) 0xF <> 9 ->
  cpu_process_arm_instruction c (Z.lor instruction 0x100000)
  = cpu_process_arm_instruction c instruction.
Proof.
  intros Htype Hi Hop.
  assert (Z.land (shr32 (Z.lor instruction 0x100000) 25) 1 = 1) as Hi'.
  { unfold shr32 in *. change (25 mod 32) with 25 in *.
    rewrite (lor_field instruction 0x100000 25 1) by reflexivity. exact Hi. }
  unfold cpu_process_arm_instruction. cbv zeta.
  rewrite cpu_check_condition_lor_bit20.
  rewrite (not_bx_when_immediate _ Hi), (not_bx_when_immediate _ Hi').
  rewrite Hi'. unfold arm_data_processing, dp_immediate_operand. cbv zeta.
  unfold shr32 in *.
  change (8 mod 32) with 8 in *. change (12 mod 32) with 12 in *.
  change (16 mod 32) with 16 in *. change (20 mod 32) with 20 in *.
  change (21 mod 32) with 21 in *. change (25 mod 32) with 25 in *.
  change (26 mod 32) with 26 in *. change (7 mod 32) with 7 in *.
  rewrite (lor_field_0 instruction 0x100000 0xFF) by reflexivity.
  rewrite (lor_field instruction 0x100000 8 0xF),
    (lor_field instruction 0x100000 12 0xF), (lor_field instruction 0x100000 16 0xF),
    (lor_field instruction 0x100000 21 0xF), (lor_field instruction 0x100000 26 3)
    by reflexivity.
  rewrite Htype, Hi. cbv beta iota. change (1 =? 1) with true.
  change (1 =? 0) with false. cbn [orb]. cbv iota. cbn [mbind option_bind].
  rewrite (dp_execute_s_unused c instruction (Z.lor instruction 0x100000) _
             (Z.land (Z.shiftr instruction 20) 1)
             (Z.land (Z.shiftr (Z.lor instruction 0x100000) 20) 1)) by exact Hop.
  reflexivity.
Qed.

Lemma arm_immediate_ignores_s_bit_witness :
  cpu_process_arm_instruction state_after_reset 0xE3B00001
  = cpu_process_arm_instruction state_after_reset 0xE3A00001.
Proof.
  apply (arm_immediate_ignores_s_bit state_after_reset 0xE3A00001);
    vm_compute; first [reflexivity | discriminate].
Defined.

Lemma c_lt_0_of_u32 (x : Z) : c_lt (u32 x) 0 = 0.
Proof.
  unfold c_lt. pose proof (u32_range x).
  destruct (Z.ltb_spec (u32 x) 0); [lia|reflexivity].
Qed.

Lemma set_cpsr_negative_0_bit31 (rs : cpu_registers) :
  Z.testbit (cpsr (set_cpsr_negative rs 0)) 31 = false.
Proof.
  unfold set_cpsr_negative. cbn [cpsr with_cpsr].
  change 0x80000000 with (2 ^ 31). rewrite setter_bits by lia. reflexivity.
Qed.

Lemma set_cpsr_carry_bit31 (rs : cpu_registers) (v : Z) :
  Z.testbit (cpsr (set_cpsr_carry rs v)) 31 = Z.testbit (cpsr rs) 31.
Proof.
  unfold set_cpsr_carry. cbn [cpsr with_cpsr].
  change 0x20000000 with (2 ^ 29). rewrite setter_bits by lia. reflexivity.
Qed.

Lemma set_cpsr_overflow_bit31 (rs : cpu_registers) (v : Z) :
  Z.testbit (cpsr (set_cpsr_overflow rs v)) 31 = Z.testbit (cpsr rs) 31.
Proof.
  unfold set_cpsr_overflow. cbn [cpsr with_cpsr].
  change 0x10000000 with (2 ^ 28). rewrite setter_bits by lia. reflexivity.
Qed.

(** The carry and overflow updates that end every arithmetic opcode. *)
Lemma carry_overflow_tail (c c1 c2 : cpu) (x y x' y' z : cpu -> option Z) :
  Z.testbit (cpsr (registers c)) 31 = false ->
  flag_c_ge c x y = Some c1 -> flag_v_of c1 x' y' z = Some c2 ->
  n_and_v_clear c2.
Proof.
  unfold flag_c_ge, flag_v_of. intros Hn H1 H2.
  repeat peel H1. apply some_eq in H1 as <-.
  repeat peel H2. apply some_eq in H2 as <-.
  split.
  - cbn [upd with_registers registers].
    rewrite set_cpsr_overflow_bit31, set_cpsr_carry_bit31. exact Hn.
  - cbn [upd with_registers registers]. apply overflow_flag_always_cleared.
Qed.

Lemma flags_zn_of_u32_bit31 (c : cpu) (x : Z) :
  Z.testbit (cpsr (registers (flags_zn_of c (u32 x)))) 31 = false.
Proof.
  unfold flags_zn_of. cbv zeta. cbn [upd with_registers registers].
  rewrite c_lt_0_of_u32. apply set_cpsr_negative_0_bit31.
Qed.

Lemma dp_arith_n_and_v (c c' : cpu) (rd x0 : Z) (x y : cpu -> option Z) :
  rd <> 16 -> dp_arith c rd (u32 x0) x y = Some c' -> n_and_v_clear c'.
Proof.
  intros Hrd. unfold dp_arith. intros H.
  destruct (set_reg c rd (u32 x0)) as [c1|] eqn:Hset;
    cbn [mbind option_bind] in H; [|discriminate H].
  destruct (flags_zn_of_rd c1 rd) as [c2|] eqn:Hzn;
    cbn [mbind option_bind] in H; [|discriminate H].
  destruct (flag_c_ge c2 x y) as [c3|] eqn:Hc;
    cbn [mbind option_bind] in H; [|discriminate H].
  apply (carry_overflow_tail c2 c3 c' _ _ _ _ _) with (2 := Hc) (3 := H).
  unfold flags_zn_of_rd in Hzn.
  rewrite (reg_set_reg_same _ _ _ _ Hset) in Hzn. cbn [mbind option_bind] in Hzn.
  rewrite (reg_only_cpsr_differs c1) in Hzn
    by (first [apply only_cpsr_set_zero | exact Hrd]).
  rewrite (reg_set_reg_same _ _ _ _ Hset) in Hzn. cbn [mbind option_bind] in Hzn.
  apply some_eq in Hzn as <-. cbn [upd with_registers registers].
  rewrite c_lt_0_of_u32. apply set_cpsr_negative_0_bit31.
Qed.

Lemma dp_execute_arithmetic (c : cpu) (i opcode s rn rd src2 : Z) (c' : cpu) (ok : Z) :
  ((2 <=? opcode) && (opcode <=? 7)) || (opcode =? 10) || (opcode =? 11) = true ->
  rd <> 16 ->
  dp_execute c i opcode s rn rd src2 = Some (c', ok) ->
  n_and_v_clear c'.
Proof.
  intros Hop Hrd. unfold dp_execute. cbv zeta. intros H.
  destruct (match opcode with 0 => _ | _ => _ end) as [c1|] eqn:E;
    cbn [mbind option_bind] in H; [|discriminate H].
  apply some_pair_eq in H as [<- _].
  assert (opcode = 2 \/ opcode = 3 \/ opcode = 4 \/ opcode = 5 \/ opcode = 6 \/
          opcode = 7 \/ opcode = 10 \/ opcode = 11) as Hc by lia.
  destruct Hc as [->|[->|[->|[->|[->|[->|[->| ->]]]]]]]; cbv beta iota in E;
    peel E.
  1-6: unfold sub32, add32 in E; apply dp_arith_n_and_v in E; assumption.
  all: unfold sub32, add32 in E; peel E;
    eapply carry_overflow_tail; [apply flags_zn_of_u32_bit31 | exact E1 | exact E].
Qed.

(** X22.  No arithmetic instruction sets N or V.  After a data-processing
    instruction with opcode SUB, RSB, ADD, ADC, SBC, RSC, CMP or CMN that
    executes, with any operand and any S bit, the N flag and the V flag are
    both 0: N is written from the test [r[rd] < 0] (or [result < 0]) on a
    [uint32_t], and V from bit 0 of a value masked with 0x80000000. *)
Theorem arm_arithmetic_never_sets_n_or_v
    (c : cpu) (instruction : Z) (c' : cpu) (ok : Z) :
  Z.land (shr32 instruction 26) 0x3 = 0 ->
  Z.land (shr32 instruction 25) 0x1 = 1 \/ Z.land (shr32 instruction 7) 0x1 = 0 ->
  arm_is_arithmetic instruction = true ->
  cpu_check_condition (cpsr (registers c)) instruction <> 0 ->
  cpu_process_arm_instruction c instruction = Some (c', ok) ->
  get_cpsr_negative (cpsr (registers c')) = 0 /\
  get_cpsr_overflow (cpsr (registers c')) = 0.
Proof.
  intros Htype Hdp Harith Hcond H.
  assert (n_and_v_clear c') as [Hn Hv].
  { assert (negb (truthy (cpu_check_condition (cpsr (registers c)) instruction))
            = false) as Hc.
    { unfold truthy.
      destruct (Z.eqb_spec (cpu_check_condition (cpsr (registers c)) instruction) 0);
        [contradiction | reflexivity]. }
    unfold cpu_process_arm_instruction in H. cbv zeta in H.
    rewrite Hc, Htype in H. cbv beta iota in H.
    destruct (Z.eqb_spec (Z.land instruction 0xFFFFFF0) 0x12FFF10) as [Hbx|_].
    { (* the BX pattern has opcode 9 *)
      exfalso. unfold arm_is_arithmetic, shr32 in Harith. cbv zeta in Harith.
      change (21 mod 32) with 21 in Harith.
      rewrite (field_of_masked _ _ _ 21 0xF Hbx) in Harith by reflexivity.
      vm_compute in Harith. discriminate Harith. }
    assert ((Z.land (shr32 instruction 25) 1 =? 1)
            || (Z.land (shr32 instruction 7) 1 =? 0) = true) as Hdp'.
    { destruct Hdp as [-> | ->]; [reflexivity | apply orb_true_r]. }
    rewrite Hdp' in H. unfold arm_data_processing in H. cbv zeta in H.
    destruct (if Z.land (shr32 instruction 25) 1 =? 0 then _ else _)
      as [[src2 c1]|]; cbn [mbind option_bind] in H; [|discriminate H].
    apply (dp_execute_arithmetic _ _ _ _ _ _ _ _ _ Harith) in H; [exact H|].
    pose proof (land_0xF_range (shr32 instruction 12)). lia. }
  destruct (getters_as_bits (cpsr (registers c'))) as (-> & _ & _ & ->).
  rewrite Hn, Hv. split; reflexivity.
Qed.

Lemma arm_arithmetic_never_sets_n_or_v_witness :
  match cpu_process_arm_instruction
          (arm_state_at 0x100 0) 0xE2510003 with
  | Some (c', _) =>
      reg c' 0 = Some 0xFFFFFFFF /\
      get_cpsr_negative (cpsr (registers c')) = 0 /\
      get_cpsr_overflow (cpsr (registers c')) = 0
  | None => False
  end.
Proof.
  destruct (cpu_process_arm_instruction (arm_state_at 0x100 0) 0xE2510003)
    as [[c' ok]|] eqn:E.
  - split.
    + vm_compute in E. apply some_pair_eq in E as [<- _]. vm_compute. reflexivity.
    + apply (arm_arithmetic_never_sets_n_or_v (arm_state_at 0x100 0) 0xE2510003 c' ok);
        [vm_compute; reflexivity | left; vm_compute; reflexivity
        | vm_compute; reflexivity | vm_compute; discriminate | exact E].
  - vm_compute in E. discriminate E.
Defined.

(** ** [cpu_process_arm_instruction] and [cpu_run]: branches *)

Lemma arm_branch_offset (instruction x : Z) :
  u32 (x + sign_extend (shl32 (Z.land instruction 0xFFFFFF) 2) 26)
  = u32 (x + 4 * arm_branch_displacement instruction).
Proof.
  unfold arm_branch_displacement. cbv zeta.
  pose proof (land_ones_range instruction 24 ltac:(lia)) as Hoff.
  change (Z.ones 24) with 0xFFFFFF in Hoff. change (2 ^ 24) with 16777216 in Hoff.
  set (off := Z.land instruction 0xFFFFFF) in *.
  assert (shl32 off 2 = 4 * off) as ->.
  { unfold shl32, u32. change (2 mod 32) with 2. rewrite Z.shiftl_mul_pow2 by lia.
    change (2 ^ 2) with 4. rewrite Z.mod_small; lia. }
  rewrite sign_extend_value by lia. cbv zeta.
  change (2 ^ 26) with 67108864. change (2 ^ (26 - 1)) with 33554432.
  rewrite (Z.mod_small (4 * off)) by lia.
  destruct (Z.ltb_spec (4 * off) 33554432), (Z.ltb_spec off 0x800000);
    try lia.
  unfold u32.
  replace (x + (4 * off + 4294967296 - 67108864))
    with (x + 4 * (off - 16777216) + 1 * 4294967296) by lia.
  apply Z.mod_add. lia.
Qed.

Lemma arm_branch_target (c : cpu) (instruction : Z) :
  let rs := registers c in
  arm_branch c instruction
  = Some (mk_cpu (mk_registers (r rs) (sp rs)
                    (if Z.land (shr32 instruction 24) 0x1 =? 1
                     then u32 (pc rs + 4) else lr rs)
                    (u32 (pc rs + 4 + 4 * arm_branch_displacement instruction))
                    (cpsr rs) (spsr rs))
                 (memory c), 1).
Proof.
  destruct c as [[r0 sp0 lr0 pc0 cpsr0 spsr0] m]. unfold arm_branch. cbv zeta.
  assert (
    add32 pc0 (add32 (sign_extend (shl32 (Z.land instruction 0xFFFFFF) 2) 26) 4)
    = u32 (pc0 + 4 + 4 * arm_branch_displacement instruction)) as Hpc.
  { unfold add32. rewrite u32_add_u32_r.
    rewrite <- (arm_branch_offset instruction (pc0 + 4)). f_equal. lia. }
  destruct (Z.land (shr32 instruction 24) 1 =? 1);
    cbv [upd with_registers with_pc with_lr registers memory r sp lr pc cpsr spsr];
    cbv beta iota; rewrite Hpc; reflexivity.
Qed.

Lemma cpu_step_arm_branch (c : cpu) (instruction : Z) :
  truthy (Z.land (cpsr (registers c)) 0x20) = true ->
  load_u32 c (pc (registers c)) = Some instruction ->
  Z.land (shr32 instruction 26) 0x3 = 2 ->
  Z.land (shr32 instruction 25) 0x1 = 1 ->
  cpu_check_condition (cpsr (registers c)) instruction <> 0 ->
  cpu_step c =
    '(c', _) ← arm_branch c instruction;
    Some (upd c' (λ rs, with_pc rs (add32 (pc rs) 4)), 1).
Proof.
  intros Hmode Hload Htype Hi Hcond.
  assert (negb (truthy (cpu_check_condition (cpsr (registers c)) instruction))
          = false) as Hc.
  { unfold truthy. destruct (Z.eqb_spec (cpu_check_condition (cpsr (registers c)) instruction) 0);
      [contradiction | reflexivity]. }
  unfold cpu_step, cpu_fetch. rewrite Hmode, Hload. cbn [mbind option_bind].
  unfold cpu_dispatch, cpu_process_arm_instruction. cbv zeta.
  rewrite Hc, Htype, Hi. cbv beta iota. change (1 =? 1) with true. cbv iota.
  rewrite arm_branch_target. cbv zeta. cbn [mbind option_bind].
  change (negb (truthy 1)) with false. cbv iota. reflexivity.
Qed.

(** X11.  One turn of the loop on an ARM B or BL whose condition holds, at
    PC = a: afterwards PC = a + 8 + 4 * d modulo [2^32], where d is the signed
    reading of the 24-bit offset field; BL (bit 24 set) also leaves a + 4 in
    LR, B leaves LR alone; the other registers and memory are unchanged and
    the loop goes on. *)
Theorem arm_branch_moves_pc (c : cpu) (instruction : Z) :
  truthy (Z.land (cpsr (registers c)) 0x20) = true ->
  load_u32 c (pc (registers c)) = Some instruction ->
  Z.land (shr32 instruction 26) 0x3 = 2 ->
  Z.land (shr32 instruction 25) 0x1 = 1 ->
  cpu_check_condition (cpsr (registers c)) instruction <> 0 ->
  let rs := registers c in
  cpu_step c
  = Some (mk_cpu (mk_registers (r rs) (sp rs)
                    (if Z.land (shr32 instruction 24) 0x1 =? 1
                     then u32 (pc rs + 4) else lr rs)
                    (u32 (pc rs + 8 + 4 * arm_branch_displacement instruction))
                    (cpsr rs) (spsr rs))
                 (memory c), 1).
Proof.
  intros Hmode Hload Htype Hi Hcond rs.
  rewrite (cpu_step_arm_branch c instruction Hmode Hload Htype Hi Hcond).
  rewrite arm_branch_target. cbv zeta. cbn [mbind option_bind].
  subst rs. destruct c as [[r0 sp0 lr0 pc0 cpsr0 spsr0] m].
  cbv [upd with_registers with_pc registers memory r sp lr pc cpsr spsr].
  unfold add32. rewrite u32_add_u32_l.
  replace (pc0 + 4 + 4 * arm_branch_displacement instruction + 4)
    with (pc0 + 8 + 4 * arm_branch_displacement instruction) by lia.
  reflexivity.
Qed.

Lemma arm_branch_moves_pc_witness :
  option_map (λ x, (pc (registers x.1), lr (registers x.1)))
             (cpu_step (arm_state_at 0x100 0xEB000001))
  = Some (0x10C, 0x104).
Proof.
  rewrite (arm_branch_moves_pc (arm_state_at 0x100 0xEB000001) 0xEB000001);
    vm_compute; first [reflexivity | discriminate].
Defined.

(** X12.  The loop of [cpu_run] has no exit for a branch to itself: in ARM
    state, if the word fetched at PC is a B with offset field 0xFFFFFE
    (0x.AFFFFFE) whose condition holds, then after any number of turns the
    loop is still running, in the same state.  (The test [pc == lr] in the
    loop only prints.) *)
Theorem branch_to_self_never_returns (c : cpu) (instruction : Z) :
  truthy (Z.land (cpsr (registers c)) 0x20) = true ->
  load_u32 c (pc (registers c)) = Some instruction ->
  Z.land instruction 0x0FFFFFFF = 0x0AFFFFFE ->
  cpu_check_condition (cpsr (registers c)) instruction <> 0 ->
  forall fuel, cpu_loop fuel c = Some (OutOfFuel c).
Proof.
  intros Hmode Hload Hword Hcond.
  pose proof (load_u32_in_bounds _ _ _ Hload) as Hin.
  apply in_bounds_spec in Hin.
  assert (cpu_step c = Some (c, 1)) as Hstep.
  { rewrite (cpu_step_arm_branch c instruction Hmode Hload); [| | |exact Hcond].
    - rewrite arm_branch_target. cbv zeta. cbn [mbind option_bind].
      assert (Z.land (shr32 instruction 24) 1 = 0) as ->
        by (apply (field_of_masked _ _ _ 24 1 Hword); reflexivity).
      assert (arm_branch_displacement instruction = -2) as ->.
      { unfold arm_branch_displacement. cbv zeta.
        rewrite <- (Z.shiftr_0_r instruction).
        rewrite (field_of_masked _ _ _ 0 0xFFFFFF Hword) by reflexivity.
        reflexivity. }
      destruct c as [[r0 sp0 lr0 pc0 cpsr0 spsr0] m].
      cbv [upd with_registers with_pc registers memory r sp lr pc cpsr spsr] in *.
      change (0 =? 1) with false. cbv iota. unfold add32. rewrite u32_add_u32_l.
      replace (pc0 + 4 + 4 * -2 + 4) with pc0 by lia.
      unfold u32. rewrite Z.mod_small by lia. reflexivity.
    - apply (field_of_masked _ _ _ 26 3 Hword). reflexivity.
    - apply (field_of_masked _ _ _ 25 1 Hword). reflexivity. }
  assert (pc (registers c) < sizeof_memory_t) as Hpc
    by (rewrite sizeof_memory_t_value; lia).
  assert ((pc (registers c) =? 0xFFFFFFFF) = false) as Hff by (apply Z.eqb_neq; lia).
  induction fuel as [|fuel IH]; [reflexivity|].
  cbn [cpu_loop]. destruct (Z.ltb_spec (pc (registers c)) sizeof_memory_t); [|lia].
  rewrite Hstep. cbn [mbind option_bind]. change (negb (truthy 1)) with false.
  cbv iota. rewrite Hff. exact IH.
Qed.

Lemma branch_to_self_never_returns_witness :
  cpu_loop 50 (arm_state_at 0x100 0xEAFFFFFE)
  = Some (OutOfFuel (arm_state_at 0x100 0xEAFFFFFE)).
Proof.
  apply (branch_to_self_never_returns (arm_state_at 0x100 0xEAFFFFFE) 0xEAFFFFFE);
    vm_compute; first [reflexivity | discriminate].
Defined.

(** ** [cpu_run]: how the loop ends *)

(** The loop is left with [return 1] only from the ARM branch of the
    dispatch, on an instruction of type 3 whose condition holds; the machine
    is then as it was before the turn. *)
Lemma cpu_step_stops (c c' : cpu) (ok : Z) :
  cpu_step c = Some (c', ok) -> truthy ok = false ->
  c' = c /\
  exists instruction,
    cpu_fetch c = Some (FetchARM instruction) /\
    Z.land (shr32 instruction 26) 0x3 = 3 /\
    cpu_check_condition (cpsr (registers c)) instruction <> 0.
Proof.
  unfold cpu_step. intros H Hok.
  destruct (cpu_fetch c) as [[i|i]|]; cbn [mbind option_bind] in H;
    [| |discriminate H]; unfold cpu_dispatch in H.
  - destruct (cpu_process_arm_instruction c i) as [[c1 ok1]|] eqn:E0;
      cbn [mbind option_bind] in H; [|discriminate H].
    apply arm_returns_zero_cases in E0 as [->|(-> & -> & Ht & Hc)].
    + change (negb (truthy 1)) with false in H. cbv iota in H.
      apply some_pair_eq in H as [_ <-]. discriminate Hok.
    + change (negb (truthy 0)) with true in H. cbv iota in H.
      apply some_pair_eq in H as [<- _]. split; [reflexivity|]. eauto.
  - destruct (cpu_process_thumb_instruction c i) as [[c1 ok1]|] eqn:E0;
      cbn [mbind option_bind] in H; [|discriminate H].
    unfold cpu_process_thumb_instruction in E0.
    cbv zeta in E0. peel E0. apply some_pair_eq in E0 as [_ <-].
    change (negb (truthy 1)) with false in H. cbv iota in H.
    apply some_pair_eq in H as [_ <-]. discriminate Hok.
Qed.

(** X13.  What the value returned by the loop of [cpu_run] tells.  If it
    returns 0, PC is outside the memory buffer (0xFFFFFFFF included).  If it
    returns 1, PC is inside the buffer, the machine is in ARM state, and the
    word at PC is an instruction of type 3 whose condition holds; that
    instruction has changed nothing.  A Thumb instruction never ends the
    loop with 1. *)
Theorem cpu_loop_return_codes (fuel : nat) (c c' : cpu) (code : Z) :
  cpu_loop fuel c = Some (Returned c' code) ->
  (code = 0 /\ sizeof_memory_t <= pc (registers c')) \/
  (code = 1 /\ pc (registers c') < sizeof_memory_t /\
   exists instruction,
     cpu_fetch c' = Some (FetchARM instruction) /\
     Z.land (shr32 instruction 26) 0x3 = 3 /\
     cpu_check_condition (cpsr (registers c')) instruction <> 0).
Proof.
  revert c. induction fuel as [|fuel IH]; intros c H.
  - discriminate H.
  - cbn [cpu_loop] in H.
    destruct (Z.ltb_spec (pc (registers c)) sizeof_memory_t) as [Hpc|Hpc].
    + destruct (cpu_step c) as [[c1 ok]|] eqn:E;
        cbn [mbind option_bind] in H; [|discriminate H].
      destruct (truthy ok) eqn:Hok; cbn [negb] in H.
      * destruct (Z.eqb_spec (pc (registers c1)) 0xFFFFFFFF) as [Hff|_].
        -- apply some_eq in H. inversion H; subst. left.
           split; [reflexivity|]. rewrite Hff, sizeof_memory_t_value. lia.
        -- apply IH in H. exact H.
      * apply some_eq in H. inversion H; subst.
        apply cpu_step_stops in E as [-> Hi]; [|exact Hok].
        right. auto.
    + apply some_eq in H. inversion H; subst. left. auto.
Qed.

Lemma cpu_loop_return_codes_witness :
  cpu_loop 3 (arm_state_at 0x100 0xEE000000)
  = Some (Returned (arm_state_at 0x100 0xEE000000) 1) /\
  exists instruction,
    cpu_fetch (arm_state_at 0x100 0xEE000000) = Some (FetchARM instruction) /\
    Z.land (shr32 instruction 26) 0x3 = 3.
Proof.
  assert (cpu_loop 3 (arm_state_at 0x100 0xEE000000)
          = Some (Returned (arm_state_at 0x100 0xEE000000) 1)) as H
    by (vm_compute; reflexivity).
  split; [exact H|].
  destruct (cpu_loop_return_codes _ _ _ _ H)
    as [[E _]|(_ & _ & i & Hf & Ht & _)]; [discriminate E|].
  exists i. split; [exact Hf | exact Ht].
Defined.

(** ** [cpu_process_arm_instruction]: single data transfer *)

(** Four bytes written by [store_u32] and read back by [load_u32]. *)
Lemma le_bytes_u32 (v : Z) :
  Z.lor (Z.lor (u8 (u8 v)) (Z.shiftl (u8 (u8 (Z.shiftr v 8))) 8))
        (Z.lor (Z.shiftl (u8 (u8 (Z.shiftr v 16))) 16)
               (Z.shiftl (u8 (u8 (Z.shiftr v 24))) 24))
  = u32 v.
Proof.
  unfold u8, u32. change 256 with (2 ^ 8). change 4294967296 with (2 ^ 32).
  rewrite !Z.mod_mod by lia.
  apply Z.bits_inj'. intros k Hk.
  rewrite !Z.lor_spec, !Z.shiftl_spec by lia.
  destruct (Z.lt_ge_cases k 8); [|destruct (Z.lt_ge_cases k 16);
    [|destruct (Z.lt_ge_cases k 24); [|destruct (Z.lt_ge_cases k 32)]]].
  - rewrite (Z.testbit_neg_r _ (k - 8)), (Z.testbit_neg_r _ (k - 16)),
      (Z.testbit_neg_r _ (k - 24)) by lia.
    rewrite !Z.mod_pow2_bits_low by lia. now rewrite !orb_false_r.
  - rewrite (Z.testbit_neg_r _ (k - 16)), (Z.testbit_neg_r _ (k - 24)) by lia.
    rewrite (Z.mod_pow2_bits_high v 8 k) by lia.
    rewrite !Z.mod_pow2_bits_low by lia. rewrite Z.shiftr_spec by lia.
    replace (k - 8 + 8) with k by lia. now rewrite !orb_false_r.
  - rewrite (Z.testbit_neg_r _ (k - 24)) by lia.
    rewrite (Z.mod_pow2_bits_high v 8 k), (Z.mod_pow2_bits_high _ 8 (k - 8)) by lia.
    rewrite !Z.mod_pow2_bits_low by lia. rewrite Z.shiftr_spec by lia.
    replace (k - 16 + 16) with k by lia. now rewrite !orb_false_r.
  - rewrite (Z.mod_pow2_bits_high v 8 k), (Z.mod_pow2_bits_high _ 8 (k - 8)),
      (Z.mod_pow2_bits_high _ 8 (k - 16)) by lia.
    rewrite !Z.mod_pow2_bits_low by lia. rewrite Z.shiftr_spec by lia.
    replace (k - 24 + 24) with k by lia. reflexivity.
  - rewrite (Z.mod_pow2_bits_high v 8 k), (Z.mod_pow2_bits_high _ 8 (k - 8)),
      (Z.mod_pow2_bits_high _ 8 (k - 16)), (Z.mod_pow2_bits_high _ 8 (k - 24)),
      (Z.mod_pow2_bits_high v 32 k) by lia.
    reflexivity.
Qed.

Lemma load_u32_store_u32 (c c1 : cpu) (a v : Z) :
  store_u32 c a v = Some c1 ->
  load_u32 c1 a = Some (u32 v) /\ registers c1 = registers c.
Proof.
  unfold store_u32, load_u32. destruct (in_bounds a 4); [|discriminate].
  intros H. apply some_eq in H as <-. split; [|reflexivity].
  cbv [with_memory memory byte_at poke].
  rewrite Z.eqb_refl.
  replace (a =? a + 1) with false by (symmetry; apply Z.eqb_neq; lia).
  replace (a =? a + 2) with false by (symmetry; apply Z.eqb_neq; lia).
  replace (a =? a + 3) with false by (symmetry; apply Z.eqb_neq; lia).
  replace (a + 1 =? a + 2) with false by (symmetry; apply Z.eqb_neq; lia).
  replace (a + 1 =? a + 3) with false by (symmetry; apply Z.eqb_neq; lia).
  replace (a + 2 =? a + 3) with false by (symmetry; apply Z.eqb_neq; lia).
  rewrite !Z.eqb_refl. f_equal. apply le_bytes_u32.
Qed.

Lemma sdt_register_offset_lor_bit20 (c : cpu) (s : Z) :
  sdt_register_offset c (Z.lor s 0x100000) = sdt_register_offset c s.
Proof.
  unfold sdt_register_offset, arm_shift_amount. cbv zeta.
  unfold shr32.
  change (4 mod 32) with 4. change (5 mod 32) with 5. change (7 mod 32) with 7.
  change (8 mod 32) with 8.
  rewrite (lor_field_0 s 0x100000 0xF) by reflexivity.
  rewrite (lor_field s 0x100000 4 1), (lor_field s 0x100000 5 3),
    (lor_field s 0x100000 7 0x1F), (lor_field s 0x100000 8 0xF) by reflexivity.
  reflexivity.
Qed.

(** A register that can be read can be written. *)
Lemma set_reg_after_reg (c : cpu) (i v x : Z) :
  reg c i = Some v -> exists c', set_reg c i x = Some c' /\ memory c' = memory c.
Proof.
  unfold reg, set_reg, reg_word, set_reg_word.
  destruct ((0 <=? i) && (i <? 13)) eqn:E.
  - intros H. apply lookup_lt_Some in H.
    destruct (decide _) as [|Hn]; [|contradiction].
    cbn [mbind option_bind]. eauto.
  - destruct i as [|q|q]; try discriminate.
    repeat (destruct q as [q|q|]; try discriminate);
      intros _; cbn [mbind option_bind]; eauto.
Qed.

Lemma reg_same_registers (c c1 : cpu) (i : Z) :
  registers c1 = registers c -> reg c1 i = reg c i.
Proof. unfold reg. now intros ->. Qed.

Lemma sdt_register_offset_same_registers (c c1 : cpu) (i : Z) :
  registers c1 = registers c ->
  sdt_register_offset c1 i = sdt_register_offset c i.
Proof.
  destruct c as [rs m], c1 as [rs1 m1]. cbn [registers]. intros ->. reflexivity.
Qed.

(** X14.  A word stored by STR is read back by the matching LDR.  Let [str]
    be a word store with pre-indexing and no write-back (type 1, P = 1,
    B = 0, W = 0, L = 0) whose base register is not r15 and whose condition
    holds.  If it executes, then the same instruction with the L bit set
    executes too, returns 1, leaves in Rd the low 32 bits of the value Rd
    held before the store, and leaves memory as the store left it. *)
Theorem str_then_ldr_reads_back (c : cpu) (str : Z) (c1 : cpu) (ok v : Z) :
  Z.land (shr32 str 26) 0x3 = 1 ->
  Z.land (shr32 str 24) 0x1 = 1 ->
  Z.land (shr32 str 22) 0x1 = 0 ->
  Z.land (shr32 str 21) 0x1 = 0 ->
  Z.land (shr32 str 20) 0x1 = 0 ->
  Z.land (shr32 str 16) 0xF <> 15 ->
  cpu_check_condition (cpsr (registers c)) str <> 0 ->
  reg c (Z.land (shr32 str 12) 0xF) = Some v ->
  cpu_process_arm_instruction c str = Some (c1, ok) ->
  exists c2,
    cpu_process_arm_instruction c1 (Z.lor str 0x100000) = Some (c2, 1) /\
    reg c2 (Z.land (shr32 str 12) 0xF) = Some (u32 v) /\
    memory c2 = memory c1.
Proof.
  intros Ht Hp Hb Hw Hl Hrn Hcond Hv H.
  assert (negb (truthy (cpu_check_condition (cpsr (registers c)) str)) = false)
    as Hc.
  { unfold truthy. destruct (Z.eqb_spec (cpu_check_condition (cpsr (registers c)) str) 0);
      [contradiction | reflexivity]. }
  assert ((Z.land (shr32 str 16) 0xF =? 15) = false) as Hrn'
    by (apply Z.eqb_neq; exact Hrn).
  unfold cpu_process_arm_instruction in H. cbv zeta in H.
  rewrite Hc, Ht in H. cbv beta iota in H.
  unfold arm_single_data_transfer in H. cbv zeta in H.
  rewrite Hp, Hb, Hw, Hl, Hrn', Hv in H.
  change (1 =? 1) with true in H. change (0 =? 1) with false in H.
  change (1 =? 0) with false in H. cbv iota in H. cbn [orb] in H.
  destruct (if Z.land (shr32 str 25) 1 =? 1 then sdt_register_offset c str
            else Some (Z.land str 0xFFF)) as [offset|] eqn:Eoff;
    cbn [mbind option_bind] in H; [|discriminate H].
  destruct (reg c (Z.land (shr32 str 16) 0xF)) as [base|] eqn:Ebase;
    cbn [mbind option_bind] in H; [|discriminate H].
  destruct (store_u32 c _ v) as [cs|] eqn:Estore;
    cbn [mbind option_bind] in H; [|discriminate H].
  apply some_pair_eq in H as [<- _].
  apply load_u32_store_u32 in Estore as [Hload Hregs].
  destruct (set_reg_after_reg cs (Z.land (shr32 str 12) 0xF) v (u32 v)) as (c2 & Hset & Hmem).
  { rewrite (reg_same_registers c cs) by exact Hregs. exact Hv. }
  exists c2. split; [|split; [eapply reg_set_reg_same; exact Hset | exact Hmem]].
  unfold cpu_process_arm_instruction. cbv zeta.
  rewrite Hregs, cpu_check_condition_lor_bit20, Hc.
  unfold arm_single_data_transfer. cbv zeta.
  rewrite lor_bit20. rewrite sdt_register_offset_lor_bit20.
  rewrite (sdt_register_offset_same_registers c cs) by exact Hregs.
  rewrite !(reg_same_registers c cs) by exact Hregs.
  unfold shr32 in *.
  change (12 mod 32) with 12 in *. change (16 mod 32) with 16 in *.
  change (21 mod 32) with 21 in *. change (22 mod 32) with 22 in *.
  change (23 mod 32) with 23 in *. change (24 mod 32) with 24 in *.
  change (25 mod 32) with 25 in *. change (26 mod 32) with 26 in *.
  rewrite (lor_field_0 str 0x100000 0xFFF) by reflexivity.
  rewrite (lor_field str 0x100000 12 0xF), (lor_field str 0x100000 16 0xF),
    (lor_field str 0x100000 21 1), (lor_field str 0x100000 22 1),
    (lor_field str 0x100000 23 1), (lor_field str 0x100000 24 1),
    (lor_field str 0x100000 25 1), (lor_field str 0x100000 26 3) by reflexivity.
  rewrite Ht, Hp, Hb, Hw, Hrn', Eoff, Ebase. cbv beta iota.
  change (1 =? 1) with true. change (0 =? 1) with false.
  change (1 =? 0) with false. cbv iota. cbn [orb mbind option_bind].
  rewrite Hload. cbn [mbind option_bind]. rewrite Hset.
  cbn [mbind option_bind]. reflexivity.
Qed.

Lemma str_then_ldr_reads_back_witness :
  match cpu_process_arm_instruction str_state 0xE5810000 with
  | Some (c1, _) =>
      exists c2,
        cpu_process_arm_instruction c1 0xE5910000 = Some (c2, 1) /\
        reg c2 0 = Some 0x12345678
  | None => False
  end.
Proof.
  destruct (cpu_process_arm_instruction str_state 0xE5810000) as [[c1 ok]|] eqn:E.
  - destruct (str_then_ldr_reads_back str_state 0xE5810000 c1 ok 0x12345678)
      as (c2 & Hrun & Hreg & _);
      [vm_compute; reflexivity | vm_compute; reflexivity | vm_compute; reflexivity
      | vm_compute; reflexivity | vm_compute; reflexivity | vm_compute; discriminate
      | vm_compute; discriminate | vm_compute; reflexivity | exact E |].
    exists c2. split; [exact Hrun | exact Hreg].
  - vm_compute in E. discriminate E.
Defined.

Lemma store_u32_frame (c c' : cpu) (a v : Z) :
  store_u32 c a v = Some c' ->
  registers c' = registers c /\ in_bounds a 4 = true /\
  forall x, x < a \/ a + 4 <= x -> memory c' x = memory c x.
Proof.
  unfold store_u32. destruct (in_bounds a 4); [|discriminate].
  intros H. apply some_eq in H as <-.
  split; [reflexivity|]. split; [reflexivity|].
  intros x Hx. cbv [with_memory memory poke].
  replace (x =? a + 3) with false by (symmetry; apply Z.eqb_neq; lia).
  replace (x =? a + 2) with false by (symmetry; apply Z.eqb_neq; lia).
  replace (x =? a + 1) with false by (symmetry; apply Z.eqb_neq; lia).
  replace (x =? a) with false by (symmetry; apply Z.eqb_neq; lia).
  reflexivity.
Qed.

(** X21.  A word store touches four bytes and no register.  For an STR with
    an immediate offset, pre-indexing and no write-back (type 1, bit 25
    clear, P = 1, B = 0, W = 0, L = 0), base register other than r15 and
    condition holding: if it executes, the address Rn + offset (U = 1) or
    Rn - offset (U = 0), taken modulo [2^32], has its four bytes inside the
    memory buffer, every byte outside those four is as before, and all
    registers, CPSR included, are as before. *)
Theorem str_writes_four_bytes (c : cpu) (str : Z) (c' : cpu) (ok base : Z) :
  Z.land (shr32 str 26) 0x3 = 1 ->
  Z.land (shr32 str 25) 0x1 = 0 ->
  Z.land (shr32 str 24) 0x1 = 1 ->
  Z.land (shr32 str 22) 0x1 = 0 ->
  Z.land (shr32 str 21) 0x1 = 0 ->
  Z.land (shr32 str 20) 0x1 = 0 ->
  Z.land (shr32 str 16) 0xF <> 15 ->
  cpu_check_condition (cpsr (registers c)) str <> 0 ->
  reg c (Z.land (shr32 str 16) 0xF) = Some base ->
  cpu_process_arm_instruction c str = Some (c', ok) ->
  let address :=
    step_address (Z.land (shr32 str 23) 0x1) base (Z.land str 0xFFF) in
  registers c' = registers c /\
  in_bounds address 4 = true /\
  forall x, x < address \/ address + 4 <= x -> memory c' x = memory c x.
Proof.
  intros Ht Hi Hp Hb Hw Hl Hrn Hcond Hbase H address.
  assert (negb (truthy (cpu_check_condition (cpsr (registers c)) str)) = false)
    as Hc.
  { unfold truthy. destruct (Z.eqb_spec (cpu_check_condition (cpsr (registers c)) str) 0);
      [contradiction | reflexivity]. }
  assert ((Z.land (shr32 str 16) 0xF =? 15) = false) as Hrn'
    by (apply Z.eqb_neq; exact Hrn).
  unfold cpu_process_arm_instruction in H. cbv zeta in H.
  rewrite Hc, Ht in H. cbv beta iota in H.
  unfold arm_single_data_transfer in H. cbv zeta in H.
  rewrite Hi, Hp, Hb, Hw, Hl, Hrn', Hbase in H.
  change (1 =? 1) with true in H. change (0 =? 1) with false in H.
  change (1 =? 0) with false in H. cbv iota in H.
  cbn [orb mbind option_bind] in H. fold address in H.
  destruct (reg c (Z.land (shr32 str 12) 0xF)) as [v|];
    cbn [mbind option_bind] in H; [|discriminate H].
  destruct (store_u32 c address v) as [cs|] eqn:Estore;
    cbn [mbind option_bind] in H; [|discriminate H].
  apply some_pair_eq in H as [<- _].
  exact (store_u32_frame _ _ _ _ Estore).
Qed.

Lemma str_writes_four_bytes_witness :
  match cpu_process_arm_instruction str_state 0xE5810000 with
  | Some (c', _) =>
      registers c' = registers str_state /\
      memory c' 0x02000004 = memory str_state 0x02000004
  | None => False
  end.
Proof.
  destruct (cpu_process_arm_instruction str_state 0xE5810000) as [[c' ok]|] eqn:E.
  - destruct (str_writes_four_bytes str_state 0xE5810000 c' ok 0x02000000)
      as (Hregs & _ & Hmem);
      [vm_compute; reflexivity | vm_compute; reflexivity | vm_compute; reflexivity
      | vm_compute; reflexivity | vm_compute; reflexivity | vm_compute; reflexivity
      | vm_compute; discriminate | vm_compute; discriminate
      | vm_compute; reflexivity | exact E |].
    split; [exact Hregs|]. apply Hmem. right. vm_compute. discriminate.
  - vm_compute in E. discriminate E.
Defined.

(** ** [cpu_process_arm_instruction]: block data transfer *)

Lemma step_address_stride (u a : Z) : step_address u a 4 = u32 (a + bdt_stride u).
Proof.
  unfold step_address, bdt_stride, add32, sub32. destruct (u =? 1); [reflexivity|].
  f_equal.
Qed.

Lemma bdt_for_each_address (p u s l register_list : Z) (idx : list Z) :
  p = 0 \/ p = 1 ->
  forall st st' : bdt_state,
  0 <= st.1.2 < 4294967296 ->
  for_each (bdt_turn p u s l register_list) idx st = Some st' ->
  st'.1.2
  = u32 (st.1.2 + bdt_stride u
                  * Z.of_nat (length (List.filter (listed register_list) idx))).
Proof.
  intros Hp. induction idx as [|i idx IH]; intros st st' Hrange Hrun.
  - cbn [for_each] in Hrun. apply some_eq in Hrun as <-.
    cbn [List.filter length]. unfold u32. rewrite Z.mod_small; lia.
  - cbn [for_each] in Hrun.
    destruct (bdt_turn p u s l register_list st i) as [st1|] eqn:Hturn;
      cbn [mbind option_bind] in Hrun; [|discriminate Hrun].
    cbn [List.filter].
    destruct (listed register_list i) eqn:Hl.
    + destruct st as [[c address] done].
      destruct (bdt_turn_listed _ _ _ _ _ _ _ _ _ _ Hl Hturn) as (_ & c' & ->).
      assert ((if p =? 0 then step_address u (next_slot p u address) 4
               else next_slot p u address) = u32 (address + bdt_stride u)) as Ha.
      { unfold next_slot. destruct Hp as [-> | ->]; cbn [Z.eqb];
          apply step_address_stride. }
      rewrite Ha in Hrun. apply IH in Hrun.
      * rewrite Hrun. cbn [fst snd length].
        rewrite u32_add_u32_l. f_equal. lia.
      * cbn [fst snd]. apply Z.mod_pos_bound. lia.
    + rewrite (bdt_turn_not_listed _ _ _ _ _ _ _ _ Hl Hturn) in Hrun.
      apply IH in Hrun; [exact Hrun | exact Hrange].
Qed.

(** X15.  The base register after a block data transfer.  When W = 1 or
    P = 0 (the code writes back in both cases) and the instruction executes,
    Rn ends as its old value plus 4 (U = 1) or minus 4 (U = 0) for each
    register named in the 16-bit list, modulo [2^32]; this holds for loads
    too, also when Rn is in the list, and an empty list leaves Rn as it
    was. *)
Theorem block_transfer_writeback
    (c : cpu) (instruction : Z) (c' : cpu) (ok base : Z) :
  let p := Z.land (shr32 instruction 24) 0x1 in
  let u := Z.land (shr32 instruction 23) 0x1 in
  let w := Z.land (shr32 instruction 21) 0x1 in
  let rn := Z.land (shr32 instruction 16) 0xF in
  let register_list := Z.land instruction 0xFFFF in
  Z.land (shr32 instruction 26) 0x3 = 2 ->
  Z.land (shr32 instruction 25) 0x1 = 0 ->
  cpu_check_condition (cpsr (registers c)) instruction <> 0 ->
  w = 1 \/ p = 0 ->
  reg c rn = Some base -> 0 <= base < 4294967296 ->
  cpu_process_arm_instruction c instruction = Some (c', ok) ->
  reg c' rn
  = Some (u32 (base + bdt_stride u
                      * listed_count register_list 16)).
Proof.
  intros p u w rn register_list Htype Hi Hcond Hwb Hbase Hrange H. unfold listed_count.
  assert (truthy (cpu_check_condition (cpsr (registers c)) instruction) = true)
    as Hc.
  { unfold truthy. destruct (Z.eqb_spec (cpu_check_condition (cpsr (registers c)) instruction) 0);
      [contradiction | reflexivity]. }
  apply (block_transfer_has_trace _ _ _ Hc Htype Hi) in H as [H _].
  unfold arm_block_data_transfer in H. cbv zeta in H.
  fold p u w rn register_list in H. rewrite Hbase in H.
  cbn [mbind option_bind] in H.
  destruct (bdt_loop _ _ _ _ _ c base) as [[[c1 a1] log]|] eqn:Hloop;
    cbn [mbind option_bind] in H; [|discriminate H].
  assert ((w =? 1) || (p =? 0) = true) as Hwb'.
  { destruct Hwb as [-> | ->]; [reflexivity|]. apply orb_true_r. }
  rewrite Hwb' in H.
  destruct (set_reg c1 rn a1) as [c2|] eqn:Hset;
    cbn [mbind option_bind] in H; [|discriminate H].
  apply some_pair_eq in H as [<- _].
  rewrite (reg_set_reg_same _ _ _ _ Hset). f_equal.
  unfold bdt_loop in Hloop.
  apply (bdt_for_each_address _ _ _ _ _ _ (land_1_cases _)) in Hloop;
    [exact Hloop | exact Hrange].
Qed.

Lemma block_transfer_writeback_witness :
  match cpu_process_arm_instruction stmdb_state 0xE92D0003 with
  | Some (c', _) => reg c' 13 = Some 0x03007EF8
  | None => False
  end.
Proof.
  destruct (cpu_process_arm_instruction stmdb_state 0xE92D0003) as [[c' ok]|] eqn:E.
  - apply (block_transfer_writeback stmdb_state 0xE92D0003 c' ok 0x03007F00);
      [vm_compute; reflexivity | vm_compute; reflexivity | vm_compute; discriminate
      | left; vm_compute; reflexivity | vm_compute; reflexivity | lia | exact E].
  - vm_compute in E. discriminate E.
Defined.

(** ** [cpu_process_thumb_instruction] *)

Lemma thumb_branch_offset (instruction x : Z) :
  u32 (x + sign_extend (shl32 (Z.land (shr32 instruction 0) 0xFF) 1) 9)
  = u32 (x + 2 * thumb_branch_displacement instruction).
Proof.
  unfold thumb_branch_displacement. cbv zeta.
  change (shr32 instruction 0) with (Z.shiftr instruction 0). rewrite Z.shiftr_0_r.
  pose proof (land_ones_range instruction 8 ltac:(lia)) as Hoff.
  change (Z.ones 8) with 0xFF in Hoff. change (2 ^ 8) with 256 in Hoff.
  set (off := Z.land instruction 0xFF) in *.
  assert (shl32 off 1 = 2 * off) as ->.
  { unfold shl32, u32. change (1 mod 32) with 1. rewrite Z.shiftl_mul_pow2 by lia.
    change (2 ^ 1) with 2. rewrite Z.mod_small; lia. }
  rewrite sign_extend_value by lia. cbv zeta.
  change (2 ^ 9) with 512. change (2 ^ (9 - 1)) with 256.
  rewrite (Z.mod_small (2 * off)) by lia.
  destruct (Z.ltb_spec (2 * off) 256), (Z.ltb_spec off 0x80); try lia.
  unfold u32.
  replace (x + (2 * off + 4294967296 - 512))
    with (x + 2 * (off - 256) + 1 * 4294967296) by lia.
  apply Z.mod_add. lia.
Qed.

(** X16.  The Thumb conditional branch (type 6, bit 12 set, condition field
    other than 0xF) hands [cpu_check_condition] the bare four-bit condition,
    which that function reads as condition 0: whatever the condition field
    says, the branch is taken exactly when the Z flag is set.  When taken,
    PC becomes PC + 4 + 2 * d modulo [2^32], d the signed reading of the
    eight-bit offset; otherwise nothing changes.  The result is 1. *)
Theorem thumb_conditional_branch_tests_zero_flag (c : cpu) (instruction : Z) :
  Z.land (shr32 instruction 13) 0x7 = 6 ->
  Z.land (shr32 instruction 12) 0x1 = 1 ->
  Z.land (shr32 instruction 8) 0xF <> 0xF ->
  cpu_process_thumb_instruction c instruction
  = Some (if get_cpsr_zero (cpsr (registers c)) =? 0 then c
          else upd c (λ rs, with_pc rs
                 (u32 (pc rs + 4 + 2 * thumb_branch_displacement instruction))),
          1).
Proof.
  intros Htype H12 Hcond.
  unfold cpu_process_thumb_instruction. cbv zeta. rewrite Htype. cbv beta iota.
  unfold thumb_case_110. cbv zeta. rewrite H12. change (1 =? 0) with false. cbv iota.
  destruct (Z.eqb_spec (Z.land (shr32 instruction 8) 0xF) 0xF) as [|_];
    [contradiction|].
  rewrite cpu_check_condition_small by apply land_0xF_range.
  unfold truthy. destruct (get_cpsr_zero (cpsr (registers c)) =? 0);
    cbn [negb mbind option_bind]; [reflexivity|].
  do 2 f_equal. destruct c as [[r0 sp0 lr0 pc0 cpsr0 spsr0] m].
  cbv [upd with_registers with_pc registers memory r sp lr pc cpsr spsr].
  unfold add32. rewrite u32_add_u32_r.
  rewrite <- (thumb_branch_offset instruction (pc0 + 4)).
  rewrite (Z.add_comm (sign_extend _ _) 4), Z.add_assoc. reflexivity.
Qed.

Lemma thumb_conditional_branch_tests_zero_flag_witness :
  get_cpsr_zero (cpsr (registers thumb_state)) = 1 /\
  option_map (λ x, pc (registers x.1))
             (cpu_process_thumb_instruction thumb_state 0xD102)
  = Some 0x208.
Proof.
  split; [vm_compute; reflexivity|].
  rewrite (thumb_conditional_branch_tests_zero_flag thumb_state 0xD102);
    vm_compute; first [reflexivity | discriminate].
Defined.

Lemma u8_land_0x7FF (x : Z) : u8 (Z.land x 0x7FF) = Z.land x 0xFF.
Proof.
  unfold u8. change 256 with (2 ^ 8). rewrite <- Z.land_ones by lia.
  rewrite <- Z.land_assoc. reflexivity.
Qed.

(** X17.  The Thumb unconditional branch (type 7, bit 12 clear) keeps its
    eleven-bit offset in a [uint8_t]: bits 10..8 of the instruction are
    dropped and no offset is negative, so PC always becomes
    PC + 4 + 2 * (instruction & 0xFF) modulo [2^32], and nothing else
    changes. *)
Theorem thumb_branch_uses_low_byte (c : cpu) (instruction : Z) :
  Z.land (shr32 instruction 13) 0x7 = 7 ->
  Z.land (shr32 instruction 12) 0x1 = 0 ->
  cpu_process_thumb_instruction c instruction
  = Some (upd c (λ rs, with_pc rs
                 (u32 (pc rs + 4 + 2 * Z.land instruction 0xFF))), 1).
Proof.
  intros Htype H12.
  unfold cpu_process_thumb_instruction. cbv zeta. rewrite Htype. cbv beta iota.
  unfold thumb_case_111. cbv zeta. rewrite H12. change (0 =? 0) with true. cbv iota.
  cbn [mbind option_bind]. do 2 f_equal.
  change (shr32 instruction 0) with (Z.shiftr instruction 0). rewrite Z.shiftr_0_r.
  rewrite u8_land_0x7FF.
  pose proof (land_ones_range instruction 8 ltac:(lia)) as Hoff.
  change (Z.ones 8) with 0xFF in Hoff. change (2 ^ 8) with 256 in Hoff.
  set (off := Z.land instruction 0xFF) in *.
  assert (shl32 off 1 = 2 * off) as ->.
  { unfold shl32, u32. change (1 mod 32) with 1. rewrite Z.shiftl_mul_pow2 by lia.
    change (2 ^ 1) with 2. rewrite Z.mod_small; lia. }
  rewrite sign_extend_value by lia. cbv zeta.
  change (2 ^ 12) with 4096. change (2 ^ (12 - 1)) with 2048.
  rewrite (Z.mod_small (2 * off)) by lia.
  destruct (Z.ltb_spec (2 * off) 2048); [|lia].
  destruct c as [[r0 sp0 lr0 pc0 cpsr0 spsr0] m].
  cbv [upd with_registers with_pc registers memory r sp lr pc cpsr spsr].
  unfold add32. rewrite u32_add_u32_r.
  rewrite (Z.add_comm (2 * off) 4), Z.add_assoc. reflexivity.
Qed.

Lemma thumb_branch_uses_low_byte_witness :
  option_map (λ x, pc (registers x.1))
             (cpu_process_thumb_instruction thumb_state 0xE7FE)
  = Some 0x400.
Proof.
  rewrite (thumb_branch_uses_low_byte thumb_state 0xE7FE);
    vm_compute; reflexivity.
Defined.

Lemma thumb_list_turn_sp (l rlist : Z) (c c' : cpu) (a a' i : Z) :
  thumb_list_turn l rlist (c, a) i = Some (c', a') ->
  a' = (if listed rlist i then add32 a 4 else a).
Proof.
  unfold thumb_list_turn, listed. destruct (truthy _).
  - intros H. peel H. apply some_pair_eq in H as [_ <-]. reflexivity.
  - intros H. apply some_pair_eq in H as [_ <-]. reflexivity.
Qed.

Lemma thumb_list_loop_address (l rlist : Z) (idx : list Z) :
  forall (c c' : cpu) (a a' : Z),
  0 <= a < 4294967296 ->
  for_each (thumb_list_turn l rlist) idx (c, a) = Some (c', a') ->
  a' = u32 (a + 4 * Z.of_nat (length (List.filter (listed rlist) idx))).
Proof.
  induction idx as [|i idx IH]; intros c c' a a' Hrange Hrun.
  - cbn [for_each] in Hrun. apply some_pair_eq in Hrun as [_ <-].
    cbn [List.filter length]. unfold u32. rewrite Z.mod_small; lia.
  - cbn [for_each] in Hrun.
    destruct (thumb_list_turn l rlist (c, a) i) as [[c1 a1]|] eqn:Hturn;
      cbn [mbind option_bind] in Hrun; [|discriminate Hrun].
    apply thumb_list_turn_sp in Hturn. cbn [List.filter].
    destruct (listed rlist i); subst a1.
    + apply IH in Hrun; [|apply Z.mod_pos_bound; lia].
      rewrite Hrun. cbn [length]. unfold add32. rewrite u32_add_u32_l.
      f_equal. lia.
    + apply IH in Hrun; [exact Hrun | exact Hrange].
Qed.

(** X18.  PUSH and POP (type 5, bits 12 and 10 set) both walk upwards from
    SP: when the instruction executes, SP ends 4 higher for each register
    named in the eight-bit list, and 4 more when the R bit (LR for PUSH, PC
    for POP) is set, modulo [2^32].  PUSH does not lower SP. *)
Theorem thumb_push_pop_raise_sp (c : cpu) (instruction : Z) (c' : cpu) (ok : Z) :
  let r_bit := Z.land (shr32 instruction 8) 0x1 in
  let rlist := Z.land instruction 0xFF in
  Z.land (shr32 instruction 13) 0x7 = 5 ->
  Z.land (shr32 instruction 12) 0x1 = 1 ->
  Z.land (shr32 instruction 10) 0x1 = 1 ->
  0 <= sp (registers c) < 4294967296 ->
  cpu_process_thumb_instruction c instruction = Some (c', ok) ->
  sp (registers c')
  = u32 (sp (registers c)
         + 4 * (listed_count rlist 8
                + r_bit)).
Proof.
  intros r_bit rlist Htype H12 H10 Hrange H. unfold listed_count.
  unfold cpu_process_thumb_instruction in H. cbv zeta in H.
  rewrite Htype in H. cbv beta iota in H.
  unfold thumb_case_101 in H. cbv zeta in H.
  rewrite H12, H10 in H. change (1 =? 0) with false in H. cbv iota in H.
  change (shr32 instruction 0) with (Z.shiftr instruction 0) in H.
  rewrite Z.shiftr_0_r in H. fold rlist r_bit in H.
  destruct (thumb_list_loop _ rlist c (sp (registers c))) as [[c1 a1]|] eqn:Hloop;
    cbn [mbind option_bind] in H; [|discriminate H].
  unfold thumb_list_loop in Hloop.
  apply thumb_list_loop_address in Hloop; [|exact Hrange].
  destruct (land_1_cases (shr32 instruction 8)) as [Hr|Hr]; fold r_bit in Hr;
    rewrite Hr in H |- *.
  - change (0 =? 1) with false in H. cbv iota in H. cbn [mbind option_bind] in H.
    apply some_pair_eq in H as [<- _].
    change (sp (registers (upd c1 (λ rs, with_sp rs a1)))) with a1.
    rewrite Hloop, Z.add_0_r. reflexivity.
  - change (1 =? 1) with true in H. cbv iota in H.
    assert (add32 a1 4
            = u32 (sp (registers c)
                   + 4 * (Z.of_nat (length (List.filter (listed rlist) (seqZ 0 8)))
                          + 1))) as Ha.
    { rewrite Hloop. unfold add32. rewrite u32_add_u32_l. f_equal. lia. }
    destruct (Z.land (shr32 instruction 11) 1 =? 1).
    + destruct (load_u32 c1 a1) as [v|]; cbn [mbind option_bind] in H;
        [|discriminate H].
      apply some_pair_eq in H as [<- _]. exact Ha.
    + destruct (store_u32 c1 a1 _) as [c2|]; cbn [mbind option_bind] in H;
        [|discriminate H].
      apply some_pair_eq in H as [<- _]. exact Ha.
Qed.

Lemma thumb_push_pop_raise_sp_witness :
  match cpu_process_thumb_instruction thumb_state 0xB503 with
  | Some (c', _) => sp (registers c') = 0x03007F0C
  | None => False
  end.
Proof.
  destruct (cpu_process_thumb_instruction thumb_state 0xB503) as [[c' ok]|] eqn:E.
  - apply (thumb_push_pop_raise_sp thumb_state 0xB503 c' ok);
      [vm_compute; reflexivity | vm_compute; reflexivity | vm_compute; reflexivity
      | split; vm_compute; [discriminate | reflexivity] | exact E].
  - vm_compute in E. discriminate E.
Defined.

(** X19.  LDMIA and STMIA (type 6, bit 12 clear): when the instruction
    executes, the base register Rb ends as its old value plus 4 for each
    register named in the eight-bit list, modulo [2^32]; for a load this
    holds also when Rb itself is in the list. *)
Theorem thumb_multiple_transfer_writeback
    (c : cpu) (instruction : Z) (c' : cpu) (ok base : Z) :
  let rb := Z.land (shr32 instruction 8) 0x7 in
  let rlist := Z.land instruction 0xFF in
  Z.land (shr32 instruction 13) 0x7 = 6 ->
  Z.land (shr32 instruction 12) 0x1 = 0 ->
  reg c rb = Some base -> 0 <= base < 4294967296 ->
  cpu_process_thumb_instruction c instruction = Some (c', ok) ->
  reg c' rb
  = Some (u32 (base + 4 * listed_count rlist 8)).
Proof.
  intros rb rlist Htype H12 Hbase Hrange H. unfold listed_count.
  unfold cpu_process_thumb_instruction in H. cbv zeta in H.
  rewrite Htype in H. cbv beta iota in H.
  unfold thumb_case_110 in H. cbv zeta in H.
  rewrite H12 in H. change (0 =? 0) with true in H. cbv iota in H.
  change (shr32 instruction 0) with (Z.shiftr instruction 0) in H.
  rewrite Z.shiftr_0_r in H. fold rlist rb in H. rewrite Hbase in H.
  cbn [mbind option_bind] in H.
  destruct (thumb_list_loop _ rlist c base) as [[c1 a1]|] eqn:Hloop;
    cbn [mbind option_bind] in H; [|discriminate H].
  destruct (set_reg c1 rb a1) as [c2|] eqn:Hset;
    cbn [mbind option_bind] in H; [|discriminate H].
  apply some_pair_eq in H as [<- _].
  rewrite (reg_set_reg_same _ _ _ _ Hset). f_equal.
  unfold thumb_list_loop in Hloop.
  apply thumb_list_loop_address in Hloop; [exact Hloop | exact Hrange].
Qed.

Lemma thumb_multiple_transfer_writeback_witness :
  match cpu_process_thumb_instruction thumb_state 0xC006 with
  | Some (c', _) => reg c' 0 = Some 0x02000008
  | None => False
  end.
Proof.
  destruct (cpu_process_thumb_instruction thumb_state 0xC006) as [[c' ok]|] eqn:E.
  - apply (thumb_multiple_transfer_writeback thumb_state 0xC006 c' ok 0x02000000);
      [vm_compute; reflexivity | vm_compute; reflexivity | vm_compute; reflexivity
      | lia | exact E].
  - vm_compute in E. discriminate E.
Defined.

(** X20.  Case [0b000] of the Thumb switch does not end in [break].  A
    shift LSL Rd, Rs, #imm (bits 15..11 = 00000) therefore runs on into the
    MOV of case [0b001] with the same instruction word: when it executes,
    register r[(instruction >> 8) & 7] holds instruction & 0xFF. *)
Theorem thumb_lsl_falls_into_mov (c : cpu) (instruction : Z) (c' : cpu) (ok : Z) :
  Z.land (shr32 instruction 13) 0x7 = 0 ->
  Z.land (shr32 instruction 11) 0x3 = 0 ->
  cpu_process_thumb_instruction c instruction = Some (c', ok) ->
  reg c' (Z.land (shr32 instruction 8) 0x7) = Some (Z.land instruction 0xFF).
Proof.
  intros Htype Hop H.
  unfold cpu_process_thumb_instruction in H. cbv zeta in H.
  rewrite Htype in H. cbv beta iota in H.
  destruct (thumb_case_000 c instruction) as [c1|];
    cbn [mbind option_bind] in H; [|discriminate H].
  unfold thumb_case_001 in H. cbv zeta in H. rewrite Hop in H. cbv beta iota in H.
  change (shr32 instruction 0) with (Z.shiftr instruction 0) in H.
  rewrite Z.shiftr_0_r in H.
  destruct (set_reg c1 _ _) as [c2|] eqn:Hset;
    cbn [mbind option_bind] in H; [|discriminate H].
  destruct (flags_zn_of_rd c2 _) as [c3|] eqn:Hflags;
    cbn [mbind option_bind] in H; [|discriminate H].
  apply some_pair_eq in H as [<- _].
  apply flags_zn_of_rd_only_cpsr in Hflags.
  rewrite (reg_only_cpsr_differs _ _ _ Hflags).
  - eapply reg_set_reg_same. exact Hset.
  - pose proof (land_ones_range (shr32 instruction 8) 3 ltac:(lia)) as Hr.
    change (Z.ones 3) with 7 in Hr. change (2 ^ 3) with 8 in Hr. lia.
Qed.

Lemma thumb_lsl_falls_into_mov_witness :
  match cpu_process_thumb_instruction thumb_state 0x0408 with
  | Some (c', _) => reg c' 4 = Some 0x08
  | None => False
  end.
Proof.
  destruct (cpu_process_thumb_instruction thumb_state 0x0408) as [[c' ok]|] eqn:E.
  - apply (thumb_lsl_falls_into_mov thumb_state 0x0408 c' ok);
      [vm_compute; reflexivity | vm_compute; reflexivity | exact E].
  - vm_compute in E. discriminate E.
Defined.
